(** * E-commerce sales dashboard: filters, metrics, chart data and report

    A shallow embedding of the two Streamlit scripts
    [ecommerce-dash-pdf.py] and [ecommerce-dashboard.py].  The scripts are
    straight-line pandas code; the embedding follows them statement by
    statement, with the [df] variable threaded explicitly where the script
    rebinds or mutates it, and with exceptions as a [result] type.

    Modelling choices for the external libraries:
    - a pandas DataFrame is an ordered list of column names and a list of
      rows, each row a finite map from column name to cell; a key that is
      absent from a row is a missing value (NaN / NaT);
    - a number is the exact value of the float64 it stands for, a rational
      (the numeral 2.675 of a file is the cell [Num (F64.round (2675 # 1000))],
      the float64 nearest to it); the not-a-number value is kept ([NaN]).
      Sums over the data ([sum], [mean], the group sums) are exact sums:
      the rounding of float64 addition and the wrap-around of an integer
      column are not followed.  The arithmetic of the detail table, whose
      printed digits depend on it, is float64 arithmetic ([F64]);
    - a timestamp is a number of seconds since 1970-01-01T00:00, a calendar
      date a number of days since 1970-01-01;
    - the model follows the script on frames whose role columns have their
      usual dtype (timestamps for the date role, strings for the category
      role, numbers for amount and quantity); a cell of another type makes
      the operation that reads it raise [TypeError], and what pandas does
      on such a frame is not followed any further;
    - rendering (Streamlit widgets, Plotly, Matplotlib, ReportLab's page
      layout) is outside the model: a widget's answer is an input, a chart
      buffer is represented by the chart dataset it was drawn from, and the
      PDF is the list of flowables handed to [doc.build].  The calls that
      raise on the data they are given are kept: the date picker on bounds
      that are NaT, [px.bar] on no values, [ax.hist] on values that are
      all missing. *)

From Stdlib Require Import ZArith QArith Qround Qabs Qpower Lqa String Ascii List Lia.
From Stdlib Require Import Permutation Sorted OrderedTypeEx.
From Stdlib Require Import DecimalString.
From Stdlib Require DecimalFacts DecimalN.
From stdpp Require Import base option list sorting gmap strings.

Local Open Scope string_scope.
Local Open Scope Z_scope.
Local Open Scope list_scope.

(** ** Exceptions *)

(** The exceptions of the body.  The handlers at the bottom of the script
    tell [FileNotFoundError] from every other exception and nothing more;
    [exn] keeps where an exception of the second kind comes from:
    [TypeError] for an operation on a value of the wrong type, [ValueError]
    for a chart call on data it cannot draw, and [DateInputError] for what
    [st.sidebar.date_input] raises on bounds that are NaT (its class is
    the library's business). *)
Inductive exn := TypeError | ValueError | DateInputError.

Inductive result (A : Type) : Type :=
  | Ok (a : A)
  | Raise (e : exn).
Arguments Ok {A} a.
Arguments Raise {A} e.

#[global] Instance result_ret : MRet result := λ A a, Ok a.
#[global] Instance result_bind : MBind result := λ A B f m,
  match m with Ok a => f a | Raise e => Raise e end.
#[global] Instance result_fmap : FMap result := λ A B f m,
  match m with Ok a => Ok (f a) | Raise e => Raise e end.

Definition is_Ok {A} (m : result A) : Prop := ∃ a, m = Ok a.

(** [mapR f l] runs [f] on the elements of [l] from left to right and stops
    at the first exception. *)
Fixpoint mapR {A B} (f : A → result B) (l : list A) : result (list B) :=
  match l with
  | [] => Ok []
  | x :: l' => y ← f x; ys ← mapR f l'; Ok (y :: ys)
  end.

(** ** Python string formatting *)

Module Fmt.

(** Decimal digits of a natural number, most significant first. *)
Definition digits (n : Z) : string :=
  NilZero.string_of_uint (N.to_uint (Z.to_N n)).

(** The [,] option of the format mini-language: a comma between groups of
    three digits, counted from the right.  Works on the reversed digits. *)
Fixpoint group3 (rev_digits : list ascii) : list ascii :=
  match rev_digits with
  | a :: b :: c :: rest =>
      match rest with
      | [] => rev_digits
      | _ :: _ => a :: b :: c :: ","%char :: group3 rest
      end
  | _ => rev_digits
  end.

Definition thousands (s : string) : string :=
  string_of_list_ascii (rev (group3 (rev (list_ascii_of_string s)))).

(** [f"{n:,}"] for an integer. *)
Definition int_comma (n : Z) : string :=
  (if n <? 0 then "-" else "") +:+ thousands (digits (Z.abs n)).

(** Rounding to the nearest integer, ties to even: what the [f] presentation
    type does with the exact value of the number. *)
Definition round_half_even (q : Q) : Z :=
  let f := Qfloor q in
  match Qcompare (q - inject_Z f) (1 # 2) with
  | Lt => f
  | Gt => f + 1
  | Eq => if Z.even f then f else f + 1
  end.

Fixpoint zfill (width : nat) (s : string) : string :=
  match width with
  | O => s
  | S w => if (String.length s <? width)%nat then zfill w ("0" +:+ s) else s
  end.

(** The digits the [f] presentation type keeps: the absolute value, scaled
    by [10^prec] and rounded. *)
Definition rounded (prec : nat) (q : Q) : Z :=
  round_half_even (Qabs q * inject_Z (10 ^ Z.of_nat prec)).

(** [f"{q:.{prec}f}"], or [f"{q:,.{prec}f}"] when [comma] is set. *)
Definition fixed (comma : bool) (prec : nat) (q : Q) : string :=
  let scale := 10 ^ Z.of_nat prec in
  let m := rounded prec q in
  let ip := digits (m / scale) in
  (if Qlt_le_dec q 0 then "-" else "")
  +:+ (if comma then thousands ip else ip)
  +:+ (match prec with
       | O => ""
       | _ => "." +:+ zfill prec (digits (m mod scale))
       end).

(** The number that the digits printed by [fixed] denote. *)
Definition shown (prec : nat) (q : Q) : Q :=
  (if Qlt_le_dec q 0 then -1 else 1)
  * inject_Z (rounded prec q) / inject_Z (10 ^ Z.of_nat prec).

End Fmt.

(** ** float64 arithmetic

    A float64 is a rational with a 53-bit significand.  The operations
    round the exact result to the nearest such number, ties to even, as
    IEEE 754 prescribes; overflow and subnormal numbers are not followed.
    Python formats the exact value of a float, correctly rounded, so
    [Fmt.fixed] on the value of a float is what the format prints. *)

Module F64.

(** 2^k as a rational, also for negative [k]. *)
Definition pow2 (k : Z) : Q := Qpower 2 k.

(** The exponent of a positive number: the [k] with 2^k <= q < 2^(k+1). *)
Definition ilog2 (q : Q) : Z :=
  let k := Z.log2 (Qnum q) - Z.log2 (Zpos (Qden q)) in
  if Qle_bool (pow2 k) q then k else k - 1.

(** Rounding to the nearest float64. *)
Definition round (q : Q) : Q :=
  match Qcompare q 0 with
  | Eq => 0%Q
  | _ =>
      let e := ilog2 (Qabs q) - 52 in
      let m := Fmt.round_half_even (Qabs q / pow2 e) in
      Qred ((if Qlt_le_dec q 0 then -1 else 1) * inject_Z m * pow2 e)
  end.

Definition add (a b : Q) : Q := round (a + b).
Definition mul (a b : Q) : Q := round (a * b).
Definition div (a b : Q) : Q := round (a / b).

(** Every eighth element of a list, from its head. *)
Fixpoint lane (fuel : nat) (l : list Q) : list Q :=
  match fuel, l with
  | S fuel', x :: _ => x :: lane fuel' (drop 8 l)
  | _, _ => []
  end.

(** One of the eight running sums of a block: it starts from its first
    element. *)
Definition lane_sum (l : list Q) : Q :=
  match lane (length l) l with
  | [] => 0%Q
  | x :: xs => foldl add x xs
  end.

(** [np.add.reduce] on a float64 array, which is how [Series.sum] adds a
    column up: NumPy's pairwise summation.  Fewer than 8 numbers are added
    from left to right; up to 128 go into eight running sums that are then
    added pairwise, the elements after the last full group of eight being
    added at the end; a longer array is split in two. *)
Fixpoint pairwise_sum (fuel : nat) (l : list Q) : Q :=
  let n := length l in
  if (n <? 8)%nat then foldl add 0%Q l
  else if (n <=? 128)%nat then
    let k := (n - n mod 8)%nat in
    let r (j : nat) := lane_sum (drop j (take k l)) in
    foldl add
      (add (add (add (r 0%nat) (r 1%nat)) (add (r 2%nat) (r 3%nat)))
           (add (add (r 4%nat) (r 5%nat)) (add (r 6%nat) (r 7%nat))))
      (drop k l)
  else
    match fuel with
    | O => 0%Q
    | S fuel' =>
        let n2 := (n / 2 - (n / 2) mod 8)%nat in
        add (pairwise_sum fuel' (take n2 l)) (pairwise_sum fuel' (drop n2 l))
    end.

Definition sum (l : list Q) : Q := pairwise_sum (length l) l.

End F64.

(** ** Floats: a rational or not-a-number *)

Inductive float := Fin (q : Q) | NaN.

(** [f"{x:,.{prec}f}"] on a float. *)
Definition format_float (prec : nat) (x : float) : string :=
  match x with
  | Fin q => Fmt.fixed true prec q
  | NaN => "nan"
  end.

(** ** Calendar *)

Module Calendar.

(** Year, month and day of a day number (proleptic Gregorian calendar). *)
Definition civil_from_days (days : Z) : Z * Z * Z :=
  let z := days + 719468 in
  let era := z / 146097 in
  let doe := z - era * 146097 in
  let yoe := (doe - doe / 1460 + doe / 36524 - doe / 146096) / 365 in
  let doy := doe - (365 * yoe + yoe / 4 - yoe / 100) in
  let mp := (5 * doy + 2) / 153 in
  let d := doy - (153 * mp + 2) / 5 + 1 in
  let m := if mp <? 10 then mp + 3 else mp - 9 in
  let y := yoe + era * 400 + (if m <=? 2 then 1 else 0) in
  (y, m, d).

(** [str(d)] for a [datetime.date]. *)
Definition str_date (days : Z) : string :=
  let '(y, m, d) := civil_from_days days in
  Fmt.zfill 4 (Fmt.digits y) +:+ "-" +:+ Fmt.zfill 2 (Fmt.digits m)
  +:+ "-" +:+ Fmt.zfill 2 (Fmt.digits d).

(** [pd.to_datetime(d)] for a [datetime.date]: midnight of that day. *)
Definition to_datetime (days : Z) : Z := days * 86400.

(** [.dt.date]: the day a timestamp falls on. *)
Definition date_of (t : Z) : Z := t / 86400.

(** [.dt.to_period('M').astype(str)] on one timestamp. *)
Definition str_period_M (t : Z) : string :=
  let '(y, m, _) := civil_from_days (date_of t) in
  Fmt.zfill 4 (Fmt.digits y) +:+ "-" +:+ Fmt.zfill 2 (Fmt.digits m).

End Calendar.

(** [s[:n]]: the first [n] characters of a string.  Strings are UTF-8
    byte strings here, so a character is one leading byte followed by its
    continuation bytes (the bytes 128 to 191). *)
Definition is_continuation (c : ascii) : bool :=
  ((128 <=? N_of_ascii c) && (N_of_ascii c <? 192))%N.

Fixpoint take_chars (n : nat) (s : string) : string :=
  match s with
  | EmptyString => EmptyString
  | String c s' =>
      if is_continuation c then String c (take_chars n s')
      else match n with
           | O => EmptyString
           | S n' => String c (take_chars n' s')
           end
  end.

(** ** Data model *)

Inductive cell := Num (q : Q) | Str (s : string) | Ts (t : Z).

Record DataFrame := {
  columns : list string;
  rows : list (gmap string cell)
}.

(** Typed reads of a cell; [None] is the missing value. *)
Definition as_num (c : option cell) : result (option Q) :=
  match c with
  | None => Ok None
  | Some (Num q) => Ok (Some q)
  | Some _ => Raise TypeError
  end.

Definition as_str (c : option cell) : result (option string) :=
  match c with
  | None => Ok None
  | Some (Str s) => Ok (Some s)
  | Some _ => Raise TypeError
  end.

Definition as_ts (c : option cell) : result (option Z) :=
  match c with
  | None => Ok None
  | Some (Ts t) => Ok (Some t)
  | Some _ => Raise TypeError
  end.

(** [df[col]] read as numbers, strings or timestamps. *)
Definition num_series (df : DataFrame) (col : string) : result (list (option Q)) :=
  mapR (λ r : gmap string cell, as_num (r !! col)) (rows df).

Definition str_series (df : DataFrame) (col : string) : result (list (option string)) :=
  mapR (λ r : gmap string cell, as_str (r !! col)) (rows df).

(** [df[mask]]: the rows for which the mask holds, in order; the columns are
    kept. *)
Fixpoint filterR {A} (p : A → result bool) (l : list A) : result (list A) :=
  match l with
  | [] => Ok []
  | x :: l' => b ← p x; ys ← filterR p l'; Ok (if b : bool then x :: ys else ys)
  end.

Definition select_rows (mask : gmap string cell → result bool) (df : DataFrame)
  : result DataFrame :=
  rs ← filterR mask (rows df);
  Ok {| columns := columns df; rows := rs |}.

(** [df[name] = values], row by row: a new column is appended, an existing
    one is overwritten in place; a value that is missing leaves the cell
    missing. *)
Definition set_cell (name : string) (v : option cell) (r : gmap string cell)
  : gmap string cell :=
  match v with
  | Some c => <[name := c]> r
  | None => delete name r
  end.

Definition set_column (name : string)
    (value : gmap string cell → result (option cell))
    (df : DataFrame) : result DataFrame :=
  rs ← mapR (λ r, v ← value r; Ok (set_cell name v r)) (rows df);
  Ok {| columns := if bool_decide (name ∈ columns df) then columns df
                   else columns df ++ [name];
        rows := rs |}.

(** The sum of a list of numbers. *)
Definition Qsum (l : list Q) : Q := foldr Qplus 0%Q l.

(** [Series.sum()] and [Series.mean()], both skipping missing values. *)
Definition series_sum (xs : list (option Q)) : Q :=
  Qsum (omap id xs).

Definition series_mean (xs : list (option Q)) : float :=
  match omap id xs with
  | [] => NaN
  | vs => Fin (Qsum vs / inject_Z (Z.of_nat (length vs)))
  end.

(** ** Sorting *)

Section Sort.
Context {A : Type} (le : A → A → bool).

Fixpoint insert_sorted (x : A) (l : list A) : list A :=
  match l with
  | [] => [x]
  | y :: l' => if le x y then x :: l else y :: insert_sorted x l'
  end.

(** A stable sort: of two elements that compare equal, the one that came
    first stays first. *)
Definition isort (l : list A) : list A := foldr insert_sorted [] l.
End Sort.

(** [Series.sort_values(ascending=...)] on a series of sums indexed by [K].
    The script passes no [kind], so the sort underneath is NumPy's default
    quicksort, which is not stable: what the call guarantees is a
    rearrangement of the series in the order asked for
    ([is_sort_values]), and the order in which equal sums come out is the
    library's.  [sort_values] is the outcome the model computes with: the
    one pandas gives over a sort that keeps equal values in place
    (descending, it reverses the input, sorts ascending and reverses the
    result).  The ranking of the top categories is specified over every
    outcome that [is_sort_values] admits. *)
Definition value_le {K} (a b : K * Q) : bool := Qle_bool a.2 b.2.



Definition sort_values {K} (ascending : bool) (s : list (K * Q)) : list (K * Q) :=
  if ascending then isort value_le s
  else reverse (isort value_le (reverse s)).

Definition head {A} (n : nat) (l : list A) : list A := take n l.
Definition tail {A} (n : nat) (l : list A) : list A := drop (length l - n) l.

(** [sorted(l)] on the values of an object column: strings compare with
    strings only; a missing value is a float, and comparing it with a string
    raises. *)
Definition py_sorted (l : list (option string)) : result (list (option string)) :=
  match l with
  | [] | [_] => Ok l
  | _ =>
      xs ← mapR (λ o : option string,
                   match o with Some s => Ok s | None => Raise TypeError end) l;
      Ok (Some <$> isort String.leb xs)
  end.

(** [Series.unique()]: the distinct values in order of first appearance. *)
Fixpoint unique_from {A} `{EqDecision A} (seen l : list A) : list A :=
  match l with
  | [] => []
  | x :: l' =>
      if bool_decide (x ∈ seen) then unique_from seen l'
      else x :: unique_from (x :: seen) l'
  end.
Definition unique {A} `{EqDecision A} (l : list A) : list A := unique_from [] l.

(** ** Group by and sum *)

Section GroupBy.
Context {K : Type} (cmp : K → K → comparison).

(** Adds [v] to the group of [k], keeping the groups sorted by key. *)
Fixpoint upsert (k : K) (v : Q) (acc : list (K * Q)) : list (K * Q) :=
  match acc with
  | [] => [(k, v)]
  | (k', v') :: acc' =>
      match cmp k k' with
      | Lt => (k, v) :: acc
      | Eq => (k', (v' + v)%Q) :: acc'
      | Gt => (k', v') :: upsert k v acc'
      end
  end.

(** [groupby(key)[value].sum()]: rows whose key is missing are dropped, a
    missing value adds nothing, and the groups come sorted by key. *)
Definition groupby_sum (pairs : list (option K * option Q)) : list (K * Q) :=
  foldl (λ acc p, match p.1 with
                  | Some k => upsert k (default 0%Q p.2) acc
                  | None => acc
                  end) [] pairs.
End GroupBy.

Definition keyed {K} (key : gmap string cell → result (option K)) (amount_col : string)
    (df : DataFrame) : result (list (option K * option Q)) :=
  mapR (λ r, k ← key r; v ← as_num (r !! amount_col); Ok (k, v)) (rows df).

(** ** Column roles *)

(** The first candidate name that is a column of the frame. *)
Definition first_present (candidates cols : list string) : option string :=
  List.find (λ c, bool_decide (c ∈ cols)) candidates.

Definition resolve_date_col (df : DataFrame) : option string :=
  if bool_decide ("Date" ∈ columns df) then Some "Date"
  else if bool_decide ("Order Date" ∈ columns df) then Some "Order Date"
  else None.

Definition resolve_category_col (df : DataFrame) : option string :=
  first_present ["Category"; "Product Category"; "Item Category"] (columns df).

Definition resolve_amount_col (df : DataFrame) : option string :=
  first_present ["Amount"; "Sales"; "Total"; "Revenue"; "Price"] (columns df).

Definition resolve_quantity_col (df : DataFrame) : option string :=
  first_present ["Quantity"; "Qty"; "Units"] (columns df).

(** ** Chart data (the four preparations) *)

(** [df[date_col].dt.date] on one row. *)
Definition date_key (date_col : string) (r : gmap string cell) : result (option Z) :=
  t ← as_ts (r !! date_col);
  Ok (match t with Some t => Some (Calendar.date_of t) | None => None end).

(** [df.groupby(df[date_col].dt.date)[amount_col].sum().reset_index()] *)
Definition daily_sales (df : DataFrame) (date_col amount_col : string)
  : result (list (Z * Q)) :=
  ps ← keyed (date_key date_col) amount_col df;
  Ok (groupby_sum Z.compare ps).

(** [df.groupby(category_col)[amount_col].sum()] *)
Definition category_sums (df : DataFrame) (category_col amount_col : string)
  : result (list (string * Q)) :=
  ps ← keyed (λ r : gmap string cell, as_str (r !! category_col)) amount_col df;
  Ok (groupby_sum String.compare ps).

(** [....sort_values(ascending=False).head(10)]: dashboard chart and detail
    table. *)
Definition top_categories (df : DataFrame) (category_col amount_col : string)
  : result (list (string * Q)) :=
  g ← category_sums df category_col amount_col;
  Ok (head 10 (sort_values false g)).

(** [....sort_values(ascending=True).tail(10)]: the bar chart of the PDF. *)
Definition top_categories_chart_data (df : DataFrame) (category_col amount_col : string)
  : result (list (string * Q)) :=
  g ← category_sums df category_col amount_col;
  Ok (tail 10 (sort_values true g)).

(** [df[date_col].dt.to_period('M').astype(str)] on one row; a missing date
    stays a missing value (pandas 2: [astype(str)] on a period column keeps
    NaT missing), so [groupby('Month')] leaves the row out. *)
Definition month_of (date_col : string) (r : gmap string cell)
  : result (option cell) :=
  t ← as_ts (r !! date_col);
  Ok (match t with
      | Some t => Some (Str (Calendar.str_period_M t))
      | None => None
      end).

(** [df.groupby('Month')[amount_col].sum().reset_index()] *)
Definition monthly_sales (df : DataFrame) (amount_col : string)
  : result (list (string * Q)) :=
  ps ← keyed (λ r : gmap string cell, as_str (r !! "Month")) amount_col df;
  Ok (groupby_sum String.compare ps).

(** ** Matplotlib charts for the PDF

    A chart buffer is represented by the data the chart was drawn from. *)

Inductive chart :=
  | LinePlot (points : list (Z * Q))
  | BarhPlot (bars : list (string * Q))
  | HistPlot (bins : nat) (values : list (option Q))
  | BarPlot (bars : list (string * Q)).

Definition create_sales_trend_chart (df : DataFrame) (date_col amount_col : string)
  : result chart :=
  LinePlot <$> daily_sales df date_col amount_col.

Definition create_top_categories_chart (df : DataFrame) (category_col amount_col : string)
  : result chart :=
  BarhPlot <$> top_categories_chart_data df category_col amount_col.

(** [ax.hist(values, bins=...)]: the bin range is taken from the values
    that are not missing; when there are values and every one of them is
    missing, no finite range is found and the call raises.  No values at
    all give an empty histogram. *)
Definition no_finite_value (values : list (option Q)) : bool :=
  match values, omap id values with
  | _ :: _, [] => true
  | _, _ => false
  end.

Definition ax_hist (bins : nat) (values : list (option Q)) : result chart :=
  if no_finite_value values then Raise ValueError
  else Ok (HistPlot bins values).

Definition create_distribution_chart (df : DataFrame) (amount_col : string)
  : result chart :=
  values ← num_series df amount_col;
  ax_hist 50 values.

(** Works on a copy of the frame: the caller's [df] is not touched. *)
Definition create_monthly_chart (df : DataFrame) (date_col amount_col : string)
  : result chart :=
  df_temp ← set_column "Month" (month_of date_col) df;
  BarPlot <$> monthly_sales df_temp amount_col.

(** ** The PDF report: the flowables handed to [doc.build] *)

Inductive style := BrandTitle | BrandSubtitle | SectionHeading | Normal | Footer.

(** Paragraph markup: a literal, or one of the two fixed blocks of text of
    the report (the assumptions text, and the footer with the current
    year). *)
Inductive markup :=
  | Lit (s : string)
  | AssumptionsText
  | FooterText (year : Z).

Inductive table_cell :=
  | TStr (s : string)
  | TPara (m : markup) (st : style).

(** Lengths are in inches.  Table styles carry no data and are left out. *)
Inductive flowable :=
  | Spacer (height : Q)
  | Paragraph (m : markup) (st : style)
  | Table (data : list (list table_cell)) (colWidths : list Q)
  | PageBreak
  | Image (buf : chart) (width height : Q).

(** [datetime.now()], as far as the report reads it. *)
Record Clock := {
  now_long : string;   (* strftime('%B %d, %Y at %H:%M') *)
  now_year : Z
}.

(** [dict.get(key, default)] *)
Definition get (d : gmap string string) (key fallback : string) : string :=
  default fallback (d !! key).

(** One row of the detail table.
    [(revenue / total_revenue * 100) if total_revenue > 0 else 0], in
    float64 arithmetic. *)
Definition percentage (revenue total_revenue : Q) : Q :=
  if Qlt_le_dec 0 total_revenue
  then F64.mul (F64.div revenue total_revenue) 100
  else 0%Q.

Definition category_row (total_revenue : Q) (idx : nat) (entry : string * Q)
  : list table_cell :=
  [ TStr (Fmt.digits (Z.of_nat idx));
    TStr (take_chars 40 entry.1);
    TStr ("$" +:+ Fmt.fixed true 2 entry.2);
    TStr (Fmt.fixed false 1 (percentage entry.2 total_revenue) +:+ "%") ].

Definition category_data (top : list (string * Q)) : list (list table_cell) :=
  let total_revenue := F64.sum top.*2 in
  [TStr "Rank"; TStr "Category"; TStr "Revenue"; TStr "% of Total"]
  :: imap (λ i, category_row total_revenue (S i)) top.

Definition cover_page (now : Clock) (filter_info : gmap string string) : list flowable :=
  [ Spacer (3 # 2);
    Table [[TPara (Lit "E-COMMERCE ANALYTICS") BrandTitle]] [13 # 2];
    Spacer (1 # 2);
    Paragraph (Lit "Sales Performance Proposal") BrandTitle;
    Paragraph (Lit "Comprehensive Analytics Report") BrandSubtitle;
    Spacer 1;
    Table [ [TStr "Report Generated:"; TStr (now_long now)];
            [TStr "Date Range:"; TStr (get filter_info "date_range" "All Dates")];
            [TStr "Category Filter:"; TStr (get filter_info "category" "All Categories")];
            [TStr "Total Records:"; TStr (get filter_info "total_records" "N/A")] ]
          [2; 4];
    PageBreak ]%Q.

Definition assumptions_page : list flowable :=
  [ Paragraph (Lit "Key Assumptions & Methodology") SectionHeading;
    Spacer (1 # 5);
    Paragraph AssumptionsText Normal;
    PageBreak ].

Definition key_metrics_page (metrics_data : gmap string string) : list flowable :=
  [ Paragraph (Lit "Executive Summary - Key Performance Indicators") SectionHeading;
    Spacer (3 # 10);
    Table [ [TStr "TOTAL SALES"; TStr "AVG ORDER VALUE"];
            [TStr (get metrics_data "total_sales" "N/A");
             TStr (get metrics_data "avg_order_value" "N/A")];
            [TStr "TOTAL ORDERS"; TStr "TOTAL UNITS SOLD"];
            [TStr (get metrics_data "total_orders" "N/A");
             TStr (get metrics_data "total_units" "N/A")] ]
          [13 # 4; 13 # 4];
    PageBreak ].

(** A chart of [charts_data] when the key is present (a buffer object is
    always true in a condition); otherwise nothing. *)
Definition chart_image (charts_data : gmap string chart) (key : string)
    (height : Q) (spacer_after : bool) : list flowable :=
  match charts_data !! key with
  | Some buf =>
      Image buf (13 # 2) height :: (if spacer_after then [Spacer (1 # 5)] else [])
  | None => []
  end.

Definition charts_pages (charts_data : gmap string chart) : list flowable :=
  [Paragraph (Lit "Sales Trend Analysis") SectionHeading; Spacer (1 # 5)]
  ++ chart_image charts_data "sales_trend" 3 true
  ++ [Paragraph (Lit "Top Categories Performance") SectionHeading; Spacer (1 # 5)]
  ++ chart_image charts_data "top_categories" (7 # 2) false
  ++ [PageBreak]
  ++ [Paragraph (Lit "Sales Distribution") SectionHeading; Spacer (1 # 5)]
  ++ chart_image charts_data "sales_distribution" 3 true
  ++ [Paragraph (Lit "Monthly Comparison") SectionHeading; Spacer (1 # 5)]
  ++ chart_image charts_data "monthly_sales" 3 false
  ++ [PageBreak].

Definition insights_page (df : DataFrame) (category_col amount_col : option string)
  : result (list flowable) :=
  table ← match category_col, amount_col with
          | Some cc, Some ac =>
              top ← top_categories df cc ac;
              Ok [Table (category_data top) [3 # 5; 3; 9 # 5; 11 # 10]%Q]
          | _, _ => Ok []
          end;
  Ok ([Paragraph (Lit "Top 10 Categories - Detailed Breakdown") SectionHeading;
       Spacer (1 # 5)] ++ table).

Definition footer (now : Clock) : list flowable :=
  [Spacer (1 # 2); Paragraph (FooterText (now_year now)) Footer].

Definition create_branded_pdf_report (now : Clock) (df : DataFrame)
    (metrics_data : gmap string string) (charts_data : gmap string chart)
    (date_col amount_col category_col quantity_col : option string)
    (filter_info : gmap string string) : result (list flowable) :=
  insights ← insights_page df category_col amount_col;
  Ok (cover_page now filter_info
      ++ assumptions_page
      ++ key_metrics_page metrics_data
      ++ charts_pages charts_data
      ++ insights
      ++ footer now).

(** ** The script [ecommerce-dash-pdf.py] *)

(** What the two sidebar widgets answer.  [date_input] is the tuple returned
    by the date picker (two dates once a range is complete, one while the
    user is still choosing); [selectbox] is the chosen category. *)
Record Widgets := {
  date_input : list Z;
  selectbox : string
}.

(** *** Sidebar filters *)

(** [df[date_col].min()] and [df[date_col].max()]: the earliest and the
    latest timestamp of the column, NaT ([None]) when no row has one. *)
Definition timestamps (df : DataFrame) (date_col : string) : list Z :=
  omap (λ r : gmap string cell,
          match r !! date_col with Some (Ts t) => Some t | _ => None end)
       (rows df).

Definition date_bounds (df : DataFrame) (date_col : string) : option (Z * Z) :=
  match timestamps df date_col with
  | [] => None
  | t :: ts => Some (foldr Z.min t ts, foldr Z.max t ts)
  end.

(** The call [st.sidebar.date_input(..., value=(min_date, max_date),
    min_value=min_date, max_value=max_date)], made when the date role is
    bound.  It raises when the bounds are NaT, that is when no row of the
    loaded frame has a date; otherwise the picker is drawn and what it
    answers is [date_input w]. *)
Definition date_input_call (df : DataFrame) (date_col : option string)
  : result unit :=
  match date_col with
  | Some dc =>
      match date_bounds df dc with
      | Some _ => Ok tt
      | None => Raise DateInputError
      end
  | None => Ok tt
  end.

(** What the picker answers while the user has not touched it: its default
    value, the dates of the two bounds. *)
Definition default_date_input (df : DataFrame) (date_col : string) : list Z :=
  match date_bounds df date_col with
  | Some (min_date, max_date) =>
      [Calendar.date_of min_date; Calendar.date_of max_date]
  | None => []
  end.

(** The filters proper, given what the widgets answered. *)

(** [(df[date_col] >= lo) & (df[date_col] <= hi)] on one row; a comparison
    with a missing date is false. *)
Definition date_mask (date_col : string) (lo hi : Z) (r : gmap string cell)
  : result bool :=
  t ← as_ts (r !! date_col);
  Ok (match t with Some t => (lo <=? t) && (t <=? hi) | None => false end).

(** [df[category_col] == selected_category] on one row. *)
Definition category_mask (category_col selected : string) (r : gmap string cell)
  : bool :=
  match r !! category_col with
  | Some (Str s) => String.eqb s selected
  | _ => false
  end.

(** [['All'] + sorted(df[category_col].unique().tolist())] *)
Definition categories (df : DataFrame) (category_col : string)
  : result (list (option string)) :=
  col ← str_series df category_col;
  sorted ← py_sorted (unique col);
  Ok (Some "All" :: sorted).

Definition date_filter (w : Widgets) (df : DataFrame) (date_col : option string)
    (filter_info : gmap string string)
  : result (DataFrame * gmap string string) :=
  match date_col with
  | Some dc =>
      match date_input w with
      | [d0; d1] =>
          df ← select_rows (date_mask dc (Calendar.to_datetime d0)
                                         (Calendar.to_datetime d1)) df;
          Ok (df, <["date_range" := Calendar.str_date d0 +:+ " to "
                                    +:+ Calendar.str_date d1]> filter_info)
      | _ => Ok (df, <["date_range" := "All Dates"]> filter_info)
      end
  | None => Ok (df, filter_info)
  end.

Definition category_filter (w : Widgets) (df : DataFrame) (category_col : option string)
    (filter_info : gmap string string)
  : result (DataFrame * string * gmap string string) :=
  match category_col with
  | Some cc =>
      _ ← categories df cc;
      let selected_category := selectbox w in
      df ← (if String.eqb selected_category "All" then Ok df
            else select_rows (λ r, Ok (category_mask cc selected_category r)) df);
      Ok (df, selected_category, <["category" := selected_category]> filter_info)
  | None => Ok (df, "All", filter_info)
  end.

Record Filters := {
  flt_df : DataFrame;
  flt_date_col : option string;
  flt_category_col : option string;
  flt_selected_category : string;
  flt_filter_info : gmap string string
}.

Definition sidebar_filters (w : Widgets) (df : DataFrame) : result Filters :=
  let date_col := resolve_date_col df in
  '(df1, filter_info) ← date_filter w df date_col ∅;
  let category_col := resolve_category_col df1 in
  '(df2, selected_category, filter_info) ←
      category_filter w df1 category_col filter_info;
  Ok {| flt_df := df2;
        flt_date_col := date_col;
        flt_category_col := category_col;
        flt_selected_category := selected_category;
        flt_filter_info :=
          <["total_records" := Fmt.int_comma (Z.of_nat (length (rows df2)))]>
            filter_info |}.

(** *** Key metrics *)

Record Metrics := {
  amount_col : option string;
  quantity_col : option string;
  tiles : list (string * string);        (* the [st.metric] calls *)
  metrics_data : gmap string string
}.

Definition amount_metrics (df : DataFrame) (amount_col : option string)
  : result (list (string * string) * gmap string string) :=
  match amount_col with
  | Some ac =>
      xs ← num_series df ac;
      let total_sales := series_sum xs in
      let avg_order_value := series_mean xs in
      Ok ([("Total Sales", "$" +:+ format_float 2 (Fin total_sales));
           ("Avg Order Value", "$" +:+ format_float 2 avg_order_value)],
          <["avg_order_value" := "$" +:+ format_float 2 avg_order_value]>
            (<["total_sales" := "$" +:+ format_float 2 (Fin total_sales)]> ∅))
  | None => Ok ([], ∅)
  end.

Definition quantity_metrics (df : DataFrame) (quantity_col : option string)
    (metrics_data : gmap string string)
  : result (list (string * string) * gmap string string) :=
  match quantity_col with
  | Some qc =>
      xs ← num_series df qc;
      let total_quantity := series_sum xs in
      Ok ([("Total Units Sold", format_float 0 (Fin total_quantity))],
          <["total_units" := format_float 0 (Fin total_quantity)]> metrics_data)
  | None => Ok ([], <["total_units" := "N/A"]> metrics_data)
  end.

Definition key_metrics (df : DataFrame) : result Metrics :=
  let amount_col := resolve_amount_col df in
  let quantity_col := resolve_quantity_col df in
  '(tiles1, metrics_data) ← amount_metrics df amount_col;
  let total_orders := Fmt.int_comma (Z.of_nat (length (rows df))) in
  let metrics_data := <["total_orders" := total_orders]> metrics_data in
  '(tiles2, metrics_data) ← quantity_metrics df quantity_col metrics_data;
  Ok {| amount_col := amount_col;
        quantity_col := quantity_col;
        tiles := tiles1 ++ [("Total Orders", total_orders)] ++ tiles2;
        metrics_data := metrics_data |}.

(** *** The four dashboard charts

    The monthly chart assigns the [Month] column on [df] itself, so the
    frame that leaves this stage is the one every later statement sees. *)

Record Charts := {
  ch_df : DataFrame;
  fig_trend : option (list (Z * Q));
  fig_categories : option (list (string * Q));
  fig_dist : option (list (option Q));
  fig_monthly : option (list (string * Q))
}.

(** [px.bar(x=top_categories.values, y=top_categories.index, ...)]: given
    two empty sequences and no data frame, plotly cannot tell the layout of
    its arguments and raises.  (The other three charts are given a data
    frame and column names, and draw an empty chart from an empty frame.) *)
Definition px_bar (top : list (string * Q)) : result unit :=
  match top with
  | [] => Raise ValueError
  | _ :: _ => Ok tt
  end.

Definition monthly_chart (df : DataFrame) (date_col amount_col : option string)
  : result (DataFrame * option (list (string * Q))) :=
  match date_col, amount_col with
  | Some dc, Some ac =>
      df ← set_column "Month" (month_of dc) df;
      m ← monthly_sales df ac;
      Ok (df, Some m)
  | _, _ => Ok (df, None)
  end.

Definition dashboard_charts (df : DataFrame) (date_col amount_col category_col : option string)
  : result Charts :=
  trend ← match date_col, amount_col with
          | Some dc, Some ac => Some <$> daily_sales df dc ac
          | _, _ => Ok None
          end;
  cats ← match category_col, amount_col with
         | Some cc, Some ac =>
             top ← top_categories df cc ac;
             _ ← px_bar top;
             Ok (Some top)
         | _, _ => Ok None
         end;
  dist ← match amount_col with
         | Some ac => Some <$> num_series df ac
         | None => Ok None
         end;
  '(df, monthly) ← monthly_chart df date_col amount_col;
  Ok {| ch_df := df; fig_trend := trend; fig_categories := cats;
        fig_dist := dist; fig_monthly := monthly |}.

(** *** Downloads *)

(** The charts drawn for the PDF. *)
Definition charts_for_pdf (df : DataFrame) (date_col amount_col category_col : option string)
  : result (gmap string chart) :=
  let charts_data : gmap string chart := ∅ in
  charts_data ← match date_col, amount_col with
                | Some dc, Some ac =>
                    c ← create_sales_trend_chart df dc ac;
                    Ok (<["sales_trend" := c]> charts_data)
                | _, _ => Ok charts_data
                end;
  charts_data ← match category_col, amount_col with
                | Some cc, Some ac =>
                    c ← create_top_categories_chart df cc ac;
                    Ok (<["top_categories" := c]> charts_data)
                | _, _ => Ok charts_data
                end;
  charts_data ← match amount_col with
                | Some ac =>
                    c ← create_distribution_chart df ac;
                    Ok (<["sales_distribution" := c]> charts_data)
                | None => Ok charts_data
                end;
  match date_col, amount_col with
  | Some dc, Some ac =>
      c ← create_monthly_chart df dc ac;
      Ok (<["monthly_sales" := c]> charts_data)
  | _, _ => Ok charts_data
  end.

Record Output := {
  out_filters : Filters;
  out_metrics : Metrics;
  out_charts : Charts;
  out_table : list (gmap string cell);   (* st.dataframe(df.head(100)) *)
  out_csv : list Byte.byte;                  (* the CSV download *)
  out_pdf : result (list flowable)       (* the PDF download, or its error *)
}.

Section Script.
(** How [to_csv] prints one field (number and date formats, quoting); the
    missing value prints as the empty field. *)
Variable csv_field : option cell → string.

Definition newline : string := String "010"%char EmptyString.

(** [df.to_csv(index=False)]: the header line, then one line per row. *)
Definition to_csv (df : DataFrame) : string :=
  let header := (λ c, csv_field (Some (Str c))) <$> columns df in
  let line (r : gmap string cell) := (λ c, csv_field (r !! c)) <$> columns df in
  String.concat "" ((λ fields, String.concat "," fields +:+ newline)
                      <$> (header :: (line <$> rows df))).

(** [s.encode('utf-8')]: strings are UTF-8 byte strings already. *)
Definition encode_utf8 (s : string) : list Byte.byte := list_byte_of_string s.

(** The body of the top-level [try] block: the date picker is called
    first, then come the two filters ([sidebar_filters]), the metrics, the
    charts, the table and the downloads.  [Raise] is an exception that
    reaches the handlers at the bottom of the script; an exception while
    the PDF is built is caught next to the download button and kept in
    [out_pdf]. *)
Definition main (now : Clock) (w : Widgets) (df : DataFrame) : result Output :=
  _ ← date_input_call df (resolve_date_col df);
  flt ← sidebar_filters w df;
  let df := flt_df flt in
  let date_col := flt_date_col flt in
  let category_col := flt_category_col flt in
  m ← key_metrics df;
  ch ← dashboard_charts df date_col (amount_col m) category_col;
  let df := ch_df ch in
  Ok {| out_filters := flt;
        out_metrics := m;
        out_charts := ch;
        out_table := head 100 (rows df);
        out_csv := encode_utf8 (to_csv df);
        out_pdf :=
          charts_data ← charts_for_pdf df date_col (amount_col m) category_col;
          create_branded_pdf_report now df (metrics_data m) charts_data
            date_col (amount_col m) category_col (quantity_col m)
            (flt_filter_info flt) |}.

(** *** The script [ecommerce-dashboard.py]

    The same statements without the filter description, the metrics
    bundle and the PDF: what it shows and offers for download is the
    tiles, the charts, the table and the CSV of [main]. *)
Record BasicOutput := {
  basic_tiles : list (string * string);
  basic_charts : Charts;
  basic_table : list (gmap string cell);
  basic_csv : list Byte.byte
}.

Definition main_basic (w : Widgets) (df : DataFrame) : result BasicOutput :=
  _ ← date_input_call df (resolve_date_col df);
  flt ← sidebar_filters w df;
  let df := flt_df flt in
  m ← key_metrics df;
  ch ← dashboard_charts df (flt_date_col flt) (amount_col m) (flt_category_col flt);
  let df := ch_df ch in
  Ok {| basic_tiles := tiles m;
        basic_charts := ch;
        basic_table := head 100 (rows df);
        basic_csv := encode_utf8 (to_csv df) |}.
End Script.

(** ** Vocabulary of the statements *)

(** Whether a mask, which may raise, said yes. *)
Definition holds (m : result bool) : bool :=
  match m with Ok true => true | _ => false end.

#[global] Instance exn_eq_dec : EqDecision exn.
Proof. solve_decision. Defined.

#[global] Instance result_eq_dec {A} `{EqDecision A} : EqDecision (result A).
Proof. solve_decision. Defined.

(** The dtype of a column: what its cells may be. *)
Definition ts_or_missing (c : option cell) : Prop :=
  match c with None | Some (Ts _) => True | Some _ => False end.

Definition num_or_missing (c : option cell) : Prop :=
  match c with None | Some (Num _) => True | Some _ => False end.

Definition str_or_missing (c : option cell) : Prop :=
  match c with None | Some (Str _) => True | Some _ => False end.

Definition is_str (c : option cell) : Prop :=
  match c with Some (Str _) => True | _ => False end.

Definition column_of (P : option cell → Prop) (df : DataFrame) (col : string) : Prop :=
  Forall (λ r : gmap string cell, P (r !! col)) (rows df).

(** The date cell of a row is a timestamp between [lo] and [hi], in
    seconds since the epoch, both included. *)
Definition stamped_between (date_col : string) (lo hi : Z) (r : gmap string cell)
  : Prop :=
  ∃ t, r !! date_col = Some (Ts t) ∧ lo ≤ t ∧ t ≤ hi.

#[global] Instance stamped_between_dec date_col lo hi r :
  Decision (stamped_between date_col lo hi r).
Proof.
  unfold stamped_between.
  destruct (r !! date_col) as [[q|s|t]| ];
    try (right; intros (t' & Ht & _); discriminate Ht).
  destruct (decide (lo ≤ t ∧ t ≤ hi)) as [Hin|Hout].
  - left. exists t. tauto.
  - right. intros (t' & Ht & Hin). injection Ht as <-. tauto.
Defined.

(** The widgets as the page first shows them: the date picker at its
    default value, the category box at "All". *)
Definition untouched (df : DataFrame) : Widgets :=
  {| date_input := match resolve_date_col df with
                   | Some dc => default_date_input df dc
                   | None => []
                   end;
     selectbox := "All" |}.

(** The date of a row lies between the two endpoints, both included; an
    endpoint is a calendar date and stands for its midnight, as
    [pd.to_datetime] makes it. *)
Definition in_date_range (date_col : string) (d0 d1 : Z) (r : gmap string cell) : Prop :=
  ∃ t, r !! date_col = Some (Ts t)
       ∧ Calendar.to_datetime d0 ≤ t ∧ t ≤ Calendar.to_datetime d1.

#[global] Instance in_date_range_dec date_col d0 d1 r :
  Decision (in_date_range date_col d0 d1 r).
Proof.
  unfold in_date_range.
  destruct (r !! date_col) as [[q|s|t]| ];
    try (right; intros (t' & Ht & _); discriminate Ht).
  destruct (decide (Calendar.to_datetime d0 ≤ t ∧ t ≤ Calendar.to_datetime d1))
    as [Hin|Hout].
  - left. exists t. tauto.
  - right. intros (t' & [= <-] & H). tauto.
Defined.

#[global] Instance Qeq_decision (x y : Q) : Decision (x == y)%Q := Qeq_dec x y.
#[global] Instance Qle_decision (x y : Q) : Decision (x <= y)%Q.
Proof. destruct (Qlt_le_dec y x); [right; by apply Qlt_not_le | by left]. Defined.

#[global] Instance Q_eq_dec : EqDecision Q.
Proof. solve_decision. Defined.

#[global] Instance cell_eq_dec : EqDecision cell.
Proof. solve_decision. Defined.




(** A cell read as a number or as a string, when it is one. *)
Definition cell_num (c : option cell) : option Q :=
  match c with Some (Num q) => Some q | _ => None end.

Definition cell_str (c : option cell) : option string :=
  match c with Some (Str s) => Some s | _ => None end.

(** The four chart kinds and the column roles each one needs. *)
Inductive chart_kind := Trend | TopCategories | Distribution | Monthly.

#[global] Instance chart_kind_eq_dec : EqDecision chart_kind.
Proof. solve_decision. Defined.

Definition kind_of (c : chart) : chart_kind :=
  match c with
  | LinePlot _ => Trend
  | BarhPlot _ => TopCategories
  | HistPlot _ _ => Distribution
  | BarPlot _ => Monthly
  end.

Definition bound (role : option string) : bool :=
  match role with Some _ => true | None => false end.

Definition prerequisite (date_col amount_col category_col : option string)
    (k : chart_kind) : bool :=
  match k with
  | Trend | Monthly => bound date_col && bound amount_col
  | TopCategories => bound category_col && bound amount_col
  | Distribution => bound amount_col
  end.

(** What a report is made of, read off its flowables. *)
Definition headings (els : list flowable) : list markup :=
  omap (λ f, match f with Paragraph m SectionHeading => Some m | _ => None end) els.

Definition images (els : list flowable) : list chart :=
  omap (λ f, match f with Image c _ _ => Some c | _ => None end) els.

Definition tables (els : list flowable) : list (list (list table_cell)) :=
  omap (λ f, match f with Table d _ => Some d | _ => None end) els.

(** The flowables between one page break and the next. *)
Fixpoint pages_from (current : list flowable) (els : list flowable)
  : list (list flowable) :=
  match els with
  | [] => [reverse current]
  | PageBreak :: els' => reverse current :: pages_from [] els'
  | f :: els' => pages_from (f :: current) els'
  end.
Definition pages (els : list flowable) : list (list flowable) := pages_from [] els.

(** The thousands separator. *)
Definition is_comma (c : ascii) : bool := Ascii.eqb c ","%char.

(** The number that a string of decimal digits denotes, as the standard
    library reads it; nothing for a string with another character in it,
    and nothing for the empty string. *)
Definition decimal_value (l : list ascii) : option Z :=
  (λ d, Z.of_N (N.of_uint d)) <$> NilZero.uint_of_string (string_of_list_ascii l).




(** A thousands-separated integer, said without the formatter: without its
    commas the string is the decimal digits of [n]; a character is a comma
    exactly when its distance from the right end is a multiple of four; the
    string does not begin with a comma; and it begins with the digit 0 only
    when it is "0". *)
Definition thousands_separated (n : Z) (s : string) : Prop :=
  let l := list_ascii_of_string s in
  decimal_value (List.filter (λ c, negb (is_comma c)) l) = Some n
  ∧ (∀ i c, l !! i = Some c →
            is_comma c = true ↔ ((length l - i) mod 4 = 0)%nat)
  ∧ (∀ c, l !! 0%nat = Some c → is_comma c = false)
  ∧ (l !! 0%nat = Some "0"%char → s = "0").

(** *** Rounding errors of float64 arithmetic *)




(** A frame with the dtypes the script expects: timestamps in the date
    column, a string in every cell of the category column, numbers in the
    amount and quantity columns. *)
Definition well_typed (df : DataFrame) : Prop :=
  (∀ dc, resolve_date_col df = Some dc → column_of ts_or_missing df dc)
  ∧ (∀ cc, resolve_category_col df = Some cc → column_of is_str df cc)
  ∧ (∀ ac, resolve_amount_col df = Some ac → column_of num_or_missing df ac)
  ∧ (∀ qc, resolve_quantity_col df = Some qc → column_of num_or_missing df qc).

(** ** Sample inputs *)

Definition mkrow (cells : list (string * cell)) : gmap string cell :=
  list_to_map cells.

Definition sample_clock : Clock :=
  {| now_long := "January 15, 2025 at 10:30"; now_year := 2025 |}.

(** A field printer for the samples: strings as they are, numbers with two
    decimals, timestamps by their date. *)
Definition sample_csv_field (c : option cell) : string :=
  match c with
  | Some (Str s) => s
  | Some (Num q) => Fmt.fixed false 2 q
  | Some (Ts t) => Calendar.str_date (Calendar.date_of t)
  | None => ""
  end.

(** Two orders, at midnight of 2024-01-01 and of 2024-01-10. *)
Definition two_orders : DataFrame :=
  {| columns := ["Date"; "Amount"];
     rows := [ mkrow [("Date", Ts (19723 * 86400)); ("Amount", Num 10)];
               mkrow [("Date", Ts (19732 * 86400)); ("Amount", Num 20)] ] |}.

(** The whole range of [two_orders], and a range between its two dates. *)
Definition whole_range : Widgets :=
  {| date_input := [19723; 19732]; selectbox := "All" |}.
Definition quiet_days : Widgets :=
  {| date_input := [19725; 19727]; selectbox := "All" |}.
Definition one_endpoint : Widgets :=
  {| date_input := [19723]; selectbox := "All" |}.

(** Three orders of 10, 20 and 30, and nothing else. *)
Definition three_amounts : DataFrame :=
  {| columns := ["Amount"];
     rows := [ mkrow [("Amount", Num 10)];
               mkrow [("Amount", Num 20)];
               mkrow [("Amount", Num 30)] ] |}.


(** Three categories with different revenues, one of them in two orders. *)
Definition three_categories : DataFrame :=
  {| columns := ["Category"; "Amount"];
     rows := [ mkrow [("Category", Str "B"); ("Amount", Num 5)];
               mkrow [("Category", Str "A"); ("Amount", Num 2)];
               mkrow [("Category", Str "A"); ("Amount", Num 1)];
               mkrow [("Category", Str "C"); ("Amount", Num 7)] ] |}.


Definition no_widgets : Widgets := {| date_input := []; selectbox := "All" |}.

(** An order at noon of 2024-01-10. *)
Definition noon_order : DataFrame :=
  {| columns := ["Date"; "Amount"];
     rows := [ mkrow [("Date", Ts (19732 * 86400 + 43200)); ("Amount", Num 20)] ] |}.


(** Eleven categories with the same revenue. *)
Definition eleven_tied : DataFrame :=
  {| columns := ["Category"; "Amount"];
     rows := (λ c, mkrow [("Category", Str c); ("Amount", Num 1)])
             <$> ["C01"; "C02"; "C03"; "C04"; "C05"; "C06";
                  "C07"; "C08"; "C09"; "C10"; "C11"] |}.


(** ** Loading the data: [load_data] and the handlers around the script *)

(** The exceptions of [load_data], as far as the handlers tell them apart:
    the file is not there, or anything else (a file that does not parse, a
    date column that does not convert). *)
Inductive load_error := FileNotFoundError | OtherException.

Inductive load_result :=
  | Loaded (df : DataFrame)
  | LoadFailed (e : load_error).

(** [df[col] = values] for a column of timestamps, row by row; NaT is the
    missing value. *)
Definition assign_dates (col : string) (values : list (option Z))
    (rs : list (gmap string cell)) : list (gmap string cell) :=
  zip_with (λ (r : gmap string cell) (v : option Z),
              match v with
              | Some t => <[col := Ts t]> r
              | None => delete col r
              end) rs values.

Section Loading.
(** [pd.to_datetime] on a column: one timestamp or NaT per value, or
    nothing when it raises. *)
Variable to_datetime : list (option cell) → option (list (option Z)).
Variable csv_field : option cell → string.

(** [df[col] = pd.to_datetime(df[col])] on an existing column. *)
Definition convert_dates (col : string) (df : DataFrame) : load_result :=
  match to_datetime ((λ r : gmap string cell, r !! col) <$> rows df) with
  | Some values =>
      Loaded {| columns := columns df; rows := assign_dates col values (rows df) |}
  | None => LoadFailed OtherException
  end.

(** [load_data()]; [read] is the outcome of [pd.read_csv]. *)
Definition load_data (read : load_result) : load_result :=
  match read with
  | LoadFailed e => LoadFailed e
  | Loaded df =>
      if bool_decide ("Date" ∈ columns df) then convert_dates "Date" df
      else if bool_decide ("Order Date" ∈ columns df) then
        convert_dates "Order Date" df
      else Loaded df
  end.

(** What the page ends with: the dashboard, the dataset-not-found message of
    the first handler, or the error box of the second.  (What was drawn
    before an exception stays on the page; the model keeps the outcome
    only.) *)
Inductive page :=
  | Dashboard (o : Output)
  | DatasetNotFound
  | ErrorOccurred.

(** The script from top to bottom: [load_data], the body of the [try]
    block, and the two [except] clauses. *)
Definition script (now : Clock) (w : Widgets) (read : load_result) : page :=
  match load_data read with
  | LoadFailed FileNotFoundError => DatasetNotFound
  | LoadFailed OtherException => ErrorOccurred
  | Loaded df =>
      match main csv_field now w df with
      | Ok o => Dashboard o
      | Raise _ => ErrorOccurred
      end
  end.
End Loading.

(** ** The script [ecommerce-dashboard.py], statement by statement *)

Module Basic.

(** Sidebar filters: the date picker and the date range, then the
    category. *)
Definition sidebar_filters (w : Widgets) (df : DataFrame)
  : result (DataFrame * option string * option string) :=
  let date_col := resolve_date_col df in
  df1 ← match date_col with
        | Some dc =>
            _ ← match date_bounds df dc with
                | Some _ => Ok tt
                | None => Raise DateInputError
                end;
            match date_input w with
            | [d0; d1] =>
                select_rows (date_mask dc (Calendar.to_datetime d0)
                                          (Calendar.to_datetime d1)) df
            | _ => Ok df
            end
        | None => Ok df
        end;
  let category_col := resolve_category_col df1 in
  df2 ← match category_col with
        | Some cc =>
            _ ← categories df1 cc;
            let selected_category := selectbox w in
            if String.eqb selected_category "All" then Ok df1
            else select_rows (λ r, Ok (category_mask cc selected_category r)) df1
        | None => Ok df1
        end;
  Ok (df2, date_col, category_col).

(** Key metrics: the tiles only. *)
Definition key_metrics (df : DataFrame)
  : result (option string * list (string * string)) :=
  let amount_col := resolve_amount_col df in
  let quantity_col := resolve_quantity_col df in
  tiles1 ← match amount_col with
           | Some ac =>
               xs ← num_series df ac;
               Ok [("Total Sales", "$" +:+ format_float 2 (Fin (series_sum xs)));
                   ("Avg Order Value", "$" +:+ format_float 2 (series_mean xs))]
           | None => Ok []
           end;
  let tiles2 := [("Total Orders", Fmt.int_comma (Z.of_nat (length (rows df))))] in
  tiles3 ← match quantity_col with
           | Some qc =>
               xs ← num_series df qc;
               Ok [("Total Units Sold", format_float 0 (Fin (series_sum xs)))]
           | None => Ok []
           end;
  Ok (amount_col, tiles1 ++ tiles2 ++ tiles3).

(** The body of the [try] block. *)
Definition main (csv_field : option cell → string) (w : Widgets) (df : DataFrame)
  : result BasicOutput :=
  '(df, date_col, category_col) ← sidebar_filters w df;
  '(amount_col, tiles) ← key_metrics df;
  ch ← dashboard_charts df date_col amount_col category_col;
  let df := ch_df ch in
  Ok {| basic_tiles := tiles;
        basic_charts := ch;
        basic_table := head 100 (rows df);
        basic_csv := encode_utf8 (to_csv csv_field df) |}.

End Basic.

(** ** More vocabulary *)

(** The number of characters of a UTF-8 string: its bytes that are not
    continuation bytes. *)
Fixpoint char_count (s : string) : nat :=
  match s with
  | EmptyString => O
  | String c s' => if is_continuation c then char_count s' else S (char_count s')
  end.

(** The value a tile shows under a label, if the tile is there. *)
Definition tile (tiles : list (string * string)) (label : string) : option string :=
  snd <$> List.find (λ p : string * string, String.eqb p.1 label) tiles.

(** The histogram of the PDF cannot be drawn: the amount role is bound,
    there are orders, and none of them has an amount. *)
Definition hist_raises (dist : option (list (option Q))) : bool :=
  match dist with
  | Some values => no_finite_value values
  | None => false
  end.

(** The month a row is filed under: year and month of its date; none
    without a date. *)
Definition month_name (date_col : string) (r : gmap string cell) : option string :=
  match r !! date_col with
  | Some (Ts t) => Some (Calendar.str_period_M t)
  | _ => None
  end.

(** What the [Month] assignment writes into a row: the month, or a missing
    value. *)
Definition month_cell (date_col : string) (r : gmap string cell) : option cell :=
  Str <$> month_name date_col r.




(** The frame with [Month] assigned from the date column. *)
Definition with_month (dc : string) (df : DataFrame) : DataFrame :=
  {| columns := if bool_decide ("Month" ∈ columns df) then columns df
                else columns df ++ ["Month"];
     rows := (λ r : gmap string cell, set_cell "Month" (month_cell dc r) r)
             <$> rows df |}.


(** ** More sample inputs *)

(** Three orders with every role: two in January 2024, one in February. *)
Definition full_orders : DataFrame :=
  {| columns := ["Date"; "Category"; "Amount"; "Quantity"];
     rows := [ mkrow [("Date", Ts (19723 * 86400)); ("Category", Str "A");
                      ("Amount", Num 10); ("Quantity", Num 1)];
               mkrow [("Date", Ts (19732 * 86400)); ("Category", Str "B");
                      ("Amount", Num 20); ("Quantity", Num 2)];
               mkrow [("Date", Ts (19758 * 86400)); ("Category", Str "A");
                      ("Amount", Num 30); ("Quantity", Num 3)] ] |}.

(** Two orders, the second without a category. *)
Definition with_category : gmap string cell :=
  mkrow [("Category", Str "A"); ("Amount", Num 5)].
Definition without_category : gmap string cell :=
  mkrow [("Amount", Num 7)].
Definition blank_category : DataFrame :=
  {| columns := ["Category"; "Amount"];
     rows := [with_category; without_category] |}.

(** The category A is selected. *)
Definition choose_A : Widgets := {| date_input := []; selectbox := "A" |}.

(** Two orders that have lost their amounts, and a file with a header and
    no order. *)
Definition no_amounts : DataFrame :=
  {| columns := ["Amount"]; rows := [mkrow []; mkrow []] |}.
Definition no_orders : DataFrame :=
  {| columns := ["Date"; "Amount"]; rows := [] |}.

(** Two orders of January 2024 and one that has no date. *)
Definition undated_order : DataFrame :=
  {| columns := ["Date"; "Amount"];
     rows := [ mkrow [("Date", Ts (19723 * 86400)); ("Amount", Num 10)];
               mkrow [("Date", Ts (19732 * 86400)); ("Amount", Num 20)];
               mkrow [("Amount", Num 5)] ] |}.

(** A file as [read_csv] returns it: the dates are still text. *)
Definition raw_orders : DataFrame :=
  {| columns := ["Order Date"; "Amount"];
     rows := [ mkrow [("Order Date", Str "2024-01-01"); ("Amount", Num 10)];
               mkrow [("Order Date", Str "2024-01-10"); ("Amount", Num 20)] ] |}.

(** [raw_orders] after loading. *)
Definition two_orders_as_loaded : DataFrame :=
  {| columns := ["Order Date"; "Amount"];
     rows := [ mkrow [("Order Date", Ts (19723 * 86400)); ("Amount", Num 10)];
               mkrow [("Order Date", Ts (19732 * 86400)); ("Amount", Num 20)] ] |}.

(** A date parser for the samples: it knows the two dates of [raw_orders],
    keeps timestamps and missing values, and raises on anything else. *)
Definition sample_to_datetime (l : list (option cell)) : option (list (option Z)) :=
  mapM (λ c : option cell,
          match c with
          | None => Some None
          | Some (Ts t) => Some (Some t)
          | Some (Str s) =>
              if String.eqb s "2024-01-01" then Some (Some (19723 * 86400))
              else if String.eqb s "2024-01-10" then Some (Some (19732 * 86400))
              else None
          | Some (Num _) => None
          end) l.


(** * Properties *)

(** ** The exception monad *)

Lemma bind_Ok {A B} (m : result A) (f : A → result B) (b : B) :
  m ≫= f = Ok b ↔ ∃ a, m = Ok a ∧ f a = Ok b.
Proof.
  destruct m as [a|e]; simpl; split.
  - intros H. exists a. auto.
  - intros (a' & [= <-] & H). exact H.
  - discriminate.
  - intros (a' & [=] & _).
Qed.

Lemma fmap_Ok {A B} (f : A → B) (m : result A) (b : B) :
  f <$> m = Ok b ↔ ∃ a, m = Ok a ∧ b = f a.
Proof.
  destruct m as [a|e]; simpl; split.
  - intros [= <-]. eauto.
  - intros (a' & [= <-] & ->). reflexivity.
  - discriminate.
  - intros (a' & [=] & _).
Qed.

(** Splits a hypothesis [x ← m; k = Ok y] into its steps. *)
Ltac inv_bind H :=
  repeat match type of H with
  | _ ≫= _ = Ok _ =>
      let a := fresh "a" in
      let Ha := fresh "Hstep" in
      apply bind_Ok in H as (a & Ha & H)
  end.

(** Membership in a list that is written out. *)
Ltac solve_elem :=
  repeat first [apply list_elem_of_here | apply list_elem_of_further].

Lemma mapR_Ok {A B} (f : A → result B) (g : A → B) (l : list A) :
  (∀ x, x ∈ l → f x = Ok (g x)) → mapR f l = Ok (g <$> l).
Proof.
  induction l as [|x l IH]; intros Hf; simpl; [reflexivity|].
  rewrite Hf by apply list_elem_of_here. simpl.
  rewrite IH; [reflexivity|].
  intros y Hy. apply Hf. by apply list_elem_of_further.
Qed.

Lemma mapR_Ok_inv {A B} (f : A → result B) (l : list A) (ys : list B) :
  mapR f l = Ok ys → Forall2 (λ x y, f x = Ok y) l ys.
Proof.
  revert ys. induction l as [|x l IH]; simpl; intros ys H.
  - injection H as <-. constructor.
  - inv_bind H. injection H as <-. constructor; auto.
Qed.

Lemma filterR_Ok {A} (p : A → result bool) (q : A → bool) (l : list A) :
  (∀ x, x ∈ l → p x = Ok (q x)) → filterR p l = Ok (List.filter q l).
Proof.
  induction l as [|x l IH]; intros Hp; simpl; [reflexivity|].
  rewrite Hp by apply list_elem_of_here. simpl.
  rewrite IH; [reflexivity|].
  intros y Hy. apply Hp. by apply list_elem_of_further.
Qed.

Lemma filterR_Ok_inv {A} (p : A → result bool) (l ys : list A) :
  filterR p l = Ok ys →
  ys = List.filter (λ x, holds (p x)) l ∧ Forall (λ x, is_Ok (p x)) l.
Proof.
  revert ys. induction l as [|x l IH]; simpl; intros ys H.
  - injection H as <-. split; [reflexivity|constructor].
  - inv_bind H. injection H as <-. destruct (IH _ Hstep0) as [-> Hall].
    rewrite Hstep. simpl. split.
    + by destruct a.
    + constructor; [by exists a|done].
Qed.

(** ** Row selection *)

Lemma List_filter_bool_decide {A} (P : A → Prop) `{∀ x, Decision (P x)} (l : list A) :
  List.filter (λ x, bool_decide (P x)) l = filter P l.
Proof.
  induction l as [|x l IH]; [reflexivity|].
  simpl. rewrite filter_cons, IH.
  destruct (decide (P x)) as [Hx|Hx].
  - by rewrite bool_decide_eq_true_2.
  - by rewrite bool_decide_eq_false_2.
Qed.

Lemma select_rows_Ok (mask : gmap string cell → result bool)
    (P : gmap string cell → Prop) `{∀ r, Decision (P r)} (df : DataFrame) :
  (∀ r, r ∈ rows df → mask r = Ok (bool_decide (P r))) →
  select_rows mask df = Ok {| columns := columns df; rows := filter P (rows df) |}.
Proof.
  intros Hmask. unfold select_rows.
  rewrite (filterR_Ok _ (λ r, bool_decide (P r))) by exact Hmask.
  simpl. by rewrite List_filter_bool_decide.
Qed.

Lemma select_rows_Ok_inv (mask : gmap string cell → result bool) (df df' : DataFrame) :
  select_rows mask df = Ok df' →
  columns df' = columns df
  ∧ rows df' = filter (λ r, mask r = Ok true) (rows df).
Proof.
  unfold select_rows. intros H. inv_bind H. injection H as <-.
  apply filterR_Ok_inv in Hstep as [-> _]. simpl. split; [done|].
  rewrite <- List_filter_bool_decide. apply List.filter_ext.
  intros r. unfold holds. destruct (mask r) as [[]|]; reflexivity.
Qed.

Lemma date_mask_typed date_col d0 d1 r :
  ts_or_missing (r !! date_col) →
  date_mask date_col (Calendar.to_datetime d0) (Calendar.to_datetime d1) r
  = Ok (bool_decide (in_date_range date_col d0 d1 r)).
Proof.
  unfold date_mask, ts_or_missing.
  destruct (r !! date_col) as [[q|s|t]| ] eqn:E; simpl; try done; intros _.
  - f_equal. symmetry.
    destruct (Z.leb_spec (Calendar.to_datetime d0) t);
      destruct (Z.leb_spec t (Calendar.to_datetime d1)); simpl;
      [ apply bool_decide_eq_true_2; exists t; auto
      | apply bool_decide_eq_false_2; intros (t' & Ht & ? & ?);
        rewrite E in Ht; injection Ht as <-; lia .. ].
  - f_equal. symmetry. apply bool_decide_eq_false_2.
    intros (t' & Ht & _). rewrite E in Ht. discriminate.
Qed.

Lemma date_mask_true date_col d0 d1 r :
  date_mask date_col (Calendar.to_datetime d0) (Calendar.to_datetime d1) r = Ok true →
  in_date_range date_col d0 d1 r.
Proof.
  unfold date_mask, in_date_range.
  destruct (r !! date_col) as [[q|s|t]| ]; simpl; try discriminate.
  intros [= H]. apply andb_true_iff in H as [H0 H1].
  exists t. split; [done|]. split; lia.
Qed.

Lemma category_mask_true category_col selected r :
  category_mask category_col selected r = true ↔ r !! category_col = Some (Str selected).
Proof.
  unfold category_mask.
  destruct (r !! category_col) as [[q|s|t]| ]; try (split; [discriminate|congruence]).
  rewrite String.eqb_eq. split; congruence.
Qed.

Lemma date_mask_stamped date_col d0 d1 r :
  ts_or_missing (r !! date_col) →
  date_mask date_col (Calendar.to_datetime d0) (Calendar.to_datetime d1) r
  = Ok (bool_decide (stamped_between date_col (86400 * d0) (86400 * d1) r)).
Proof.
  intros Hts. rewrite (date_mask_typed _ _ _ _ Hts). f_equal.
  apply bool_decide_ext. unfold in_date_range, stamped_between, Calendar.to_datetime.
  split; intros (t & Ht & Hlo & Hhi); exists t; split_and!; try done; lia.
Qed.

Lemma date_filter_two_endpoints w df dc fi d0 d1 :
  column_of ts_or_missing df dc →
  date_input w = [d0; d1] →
  date_filter w df (Some dc) fi
  = Ok ({| columns := columns df;
           rows := filter (stamped_between dc (86400 * d0) (86400 * d1)) (rows df) |},
        <["date_range" := Calendar.str_date d0 +:+ " to " +:+ Calendar.str_date d1]> fi).
Proof.
  intros Htyped Hw. unfold date_filter. rewrite Hw.
  rewrite (select_rows_Ok _ (stamped_between dc (86400 * d0) (86400 * d1)));
    [reflexivity|].
  intros r Hr. apply date_mask_stamped.
  exact (proj1 (Forall_forall _ _) Htyped r Hr).
Qed.

(** The earliest and the latest timestamp of a column are timestamps of
    rows, and every other lies in between. *)
Lemma foldr_min_max (t : Z) (ts : list Z) :
  foldr Z.min t ts ∈ t :: ts ∧ foldr Z.max t ts ∈ t :: ts
  ∧ ∀ x, x ∈ t :: ts → foldr Z.min t ts ≤ x ≤ foldr Z.max t ts.
Proof.
  induction ts as [|y ts (IHmin & IHmax & IH)]; cbn [foldr].
  - split_and!; [apply list_elem_of_here..|].
    intros x Hx. apply list_elem_of_singleton in Hx as ->. lia.
  - assert (∀ z, z ∈ t :: ts → z ∈ t :: y :: ts) as Hweak.
    { intros z Hz. apply elem_of_cons in Hz as [->|Hz];
        [apply list_elem_of_here | by do 2 apply list_elem_of_further]. }
    assert (y ∈ t :: y :: ts) as Hy
      by apply list_elem_of_further, list_elem_of_here.
    split_and!.
    + destruct (Z.min_spec y (foldr Z.min t ts)) as [[_ ->]|[_ ->]]; auto.
    + destruct (Z.max_spec y (foldr Z.max t ts)) as [[_ ->]|[_ ->]]; auto.
    + intros x Hx.
      assert (x = y ∨ x ∈ t :: ts) as [->|Hx'].
      { apply elem_of_cons in Hx as [->|Hx];
          [right; apply list_elem_of_here|].
        apply elem_of_cons in Hx as [->|Hx]; [by left|].
        right. by apply list_elem_of_further. }
      * lia.
      * specialize (IH x Hx'). lia.
Qed.

Lemma timestamps_elem_of df dc t :
  t ∈ timestamps df dc ↔ ∃ r, r ∈ rows df ∧ r !! dc = Some (Ts t).
Proof.
  unfold timestamps. rewrite list_elem_of_omap. split.
  - intros (r & Hr & Ht). exists r. split; [done|].
    destruct (r !! dc) as [[q|s|t']| ]; by simplify_eq.
  - intros (r & Hr & Ht). exists r. split; [done|]. by rewrite Ht.
Qed.

Lemma date_bounds_spec df dc lo hi :
  date_bounds df dc = Some (lo, hi) →
  (∃ r, r ∈ rows df ∧ r !! dc = Some (Ts lo))
  ∧ (∃ r, r ∈ rows df ∧ r !! dc = Some (Ts hi))
  ∧ ∀ r t, r ∈ rows df → r !! dc = Some (Ts t) → lo ≤ t ≤ hi.
Proof.
  unfold date_bounds. intros H.
  destruct (timestamps df dc) as [|t ts] eqn:E; [done|].
  injection H as <- <-.
  destruct (foldr_min_max t ts) as (Hmin & Hmax & Hall).
  rewrite <- E in Hmin, Hmax, Hall. split_and!.
  - by apply timestamps_elem_of.
  - by apply timestamps_elem_of.
  - intros r x Hr Hx. apply Hall, timestamps_elem_of. eauto.
Qed.

(** The date picker is drawn when the date role is unbound or some row has
    a date. *)
Lemma date_input_call_Ok df dc :
  date_input_call df dc = Ok tt
  ↔ ∀ d, dc = Some d → ∃ r t, r ∈ rows df ∧ r !! d = Some (Ts t).
Proof.
  unfold date_input_call, date_bounds. destruct dc as [d|]; [|by split].
  destruct (timestamps df d) as [|t ts] eqn:E.
  - split; [done|]. intros H. destruct (H d eq_refl) as (r & t & Hr & Ht).
    assert (t ∈ timestamps df d) as Hin by (apply timestamps_elem_of; eauto).
    rewrite E in Hin. by apply elem_of_nil in Hin.
  - split; [|done]. intros _ d' [= <-].
    assert (t ∈ timestamps df d) as Hin by (rewrite E; apply list_elem_of_here).
    apply timestamps_elem_of in Hin as (r & Hr & Ht). eauto.
Qed.

(** C4: with a bound date role whose column holds timestamps and two
    endpoints, the date filter keeps, in their order, exactly the rows
    stamped from 00:00:00 of the start date to 00:00:00 of the end date, and
    records the range; with a single endpoint the frame is returned as it is
    and the description says "All Dates".  The lower bound takes the start
    day whole; the upper bound does not: a row stamped later than midnight
    of the end date is dropped, also when it falls on the end date.  With
    the picker left at its default, from the date of the earliest order to
    the date of the latest, the latest order stays only when it is stamped
    at midnight: the one order of [noon_order], at noon of 2024-01-10, is
    dropped by the range "2024-01-10 to 2024-01-10". *)
Theorem date_filter_end_of_range :
  (∀ w df dc fi d0 d1,
     resolve_date_col df = Some dc →
     column_of ts_or_missing df dc →
     date_input w = [d0; d1] →
     date_filter w df (resolve_date_col df) fi
     = Ok ({| columns := columns df;
              rows := filter (stamped_between dc (86400 * d0) (86400 * d1))
                             (rows df) |},
           <["date_range" := Calendar.str_date d0 +:+ " to "
                             +:+ Calendar.str_date d1]> fi)
     ∧ (∀ r, r ∈ filter (stamped_between dc (86400 * d0) (86400 * d1)) (rows df)
             ↔ r ∈ rows df
               ∧ ∃ t, r !! dc = Some (Ts t) ∧ 86400 * d0 ≤ t ∧ t ≤ 86400 * d1)
     ∧ (∀ r t, r ∈ rows df → r !! dc = Some (Ts t) →
               86400 * d1 < t < 86400 * (d1 + 1) →
               r ∉ filter (stamped_between dc (86400 * d0) (86400 * d1)) (rows df)))
  ∧ (∀ w df dc fi d,
       resolve_date_col df = Some dc →
       date_input w = [d] →
       date_filter w df (resolve_date_col df) fi
       = Ok (df, <["date_range" := "All Dates"]> fi))
  ∧ (∀ df dc fi lo hi,
       resolve_date_col df = Some dc →
       column_of ts_or_missing df dc →
       date_bounds df dc = Some (lo, hi) →
       ∃ df' fi',
         date_filter (untouched df) df (resolve_date_col df) fi = Ok (df', fi')
         ∧ (∃ r, r ∈ rows df ∧ r !! dc = Some (Ts hi))
         ∧ ∀ r, r ∈ rows df → r !! dc = Some (Ts hi) →
                (r ∈ rows df' ↔ hi mod 86400 = 0))
  ∧ (date_input (untouched noon_order) = [19732; 19732]
     ∧ ∃ flt, sidebar_filters (untouched noon_order) noon_order = Ok flt
              ∧ rows noon_order ≠ []
              ∧ rows (flt_df flt) = []
              ∧ flt_filter_info flt !! "date_range"
                = Some "2024-01-10 to 2024-01-10").
Proof.
  split_and!.
  - intros w df dc fi d0 d1 Hdc Htyped Hw. rewrite Hdc. split_and!.
    + by apply date_filter_two_endpoints.
    + intros r. rewrite list_elem_of_filter. unfold stamped_between. tauto.
    + intros r t Hr Ht Hlate. rewrite list_elem_of_filter.
      intros [(t' & Ht' & _ & Hhi) _].
      assert (t' = t) as -> by congruence. lia.
  - intros w df dc fi d Hdc Hw. rewrite Hdc. unfold date_filter. by rewrite Hw.
  - intros df dc fi lo hi Hdc Htyped Hb.
    assert (date_input (untouched df)
            = [Calendar.date_of lo; Calendar.date_of hi]) as Hw.
    { unfold untouched, default_date_input. cbn [date_input].
      by rewrite Hdc, Hb. }
    rewrite Hdc, (date_filter_two_endpoints _ _ _ _ _ _ Htyped Hw).
    destruct (date_bounds_spec _ _ _ _ Hb) as (_ & Hlast & Hall).
    eexists _, _. split; [reflexivity|]. split; [exact Hlast|].
    intros r Hr Ht. cbn [rows]. rewrite list_elem_of_filter.
    unfold stamped_between, Calendar.date_of.
    destruct (Hall r hi Hr Ht) as [Hlo _].
    pose proof (Z.div_mod hi 86400 ltac:(lia)) as Hdiv.
    pose proof (Z.mod_pos_bound hi 86400 ltac:(lia)) as Hmod.
    pose proof (Z.div_mod lo 86400 ltac:(lia)) as Hdiv'.
    pose proof (Z.mod_pos_bound lo 86400 ltac:(lia)) as Hmod'.
    split.
    + intros [(t & Ht' & _ & Hhi) _].
      assert (t = hi) as -> by congruence. lia.
    + intros Hz. split; [|done]. exists hi. split; [done|]. lia.
  - vm_compute. reflexivity.
  - eexists. split; [vm_compute; reflexivity|].
    split_and!; [done | reflexivity | vm_compute; reflexivity].
Qed.

(** ** The sidebar filters *)

Lemma date_filter_Ok_inv w df odc fi df1 fi1 :
  date_filter w df odc fi = Ok (df1, fi1) →
  columns df1 = columns df
  ∧ rows df1 `sublist_of` rows df
  ∧ (∀ dc d0 d1, odc = Some dc → date_input w = [d0; d1] →
       ∀ r, r ∈ rows df1 → in_date_range dc d0 d1 r).
Proof.
  unfold date_filter. intros H.
  destruct odc as [dc|]; [|by simplify_eq].
  destruct (date_input w) as [|d0 [|d1 [|d2 rest]]] eqn:Hw; try by simplify_eq.
  inv_bind H. simplify_eq.
  apply select_rows_Ok_inv in Hstep as [Hcols Hrows].
  split; [done|]. split.
  - rewrite Hrows. apply sublist_filter.
  - intros dc' e0 e1 ? ? r Hr. simplify_eq.
    rewrite Hrows in Hr. apply list_elem_of_filter in Hr as [Hr _].
    by apply date_mask_true.
Qed.

Lemma category_filter_Ok_inv w df occ fi df2 sel fi2 :
  category_filter w df occ fi = Ok (df2, sel, fi2) →
  columns df2 = columns df
  ∧ rows df2 `sublist_of` rows df
  ∧ (∀ cc, occ = Some cc → selectbox w ≠ "All" →
       ∀ r, r ∈ rows df2 → r !! cc = Some (Str (selectbox w)))
  ∧ (selectbox w = "All" → df2 = df).
Proof.
  unfold category_filter. intros H.
  destruct occ as [cc|]; [|by simplify_eq].
  inv_bind H. simplify_eq.
  destruct (String.eqb_spec (selectbox w) "All") as [Hall|Hsel].
  - by simplify_eq.
  - apply select_rows_Ok_inv in Hstep0 as [Hcols Hrows].
    split; [done|]. split; [rewrite Hrows; apply sublist_filter|]. split; [|done].
    intros cc' ? _ r Hr. simplify_eq.
    rewrite Hrows in Hr. apply list_elem_of_filter in Hr as [Hr _].
    apply category_mask_true. congruence.
Qed.

Lemma sidebar_filters_Ok_inv w df flt :
  sidebar_filters w df = Ok flt →
  ∃ df1 fi1 fi2,
    date_filter w df (resolve_date_col df) ∅ = Ok (df1, fi1)
    ∧ category_filter w df1 (resolve_category_col df1) fi1
      = Ok (flt_df flt, flt_selected_category flt, fi2)
    ∧ flt_date_col flt = resolve_date_col df
    ∧ flt_category_col flt = resolve_category_col df1
    ∧ flt_filter_info flt
      = <["total_records" := Fmt.int_comma (Z.of_nat (length (rows (flt_df flt))))]> fi2.
Proof.
  unfold sidebar_filters. intros H.
  apply bind_Ok in H as ([df1 fi1] & Hdate & H).
  apply bind_Ok in H as ([[df2 sel] fi2] & Hcat & H).
  injection H as <-. simpl. eauto 10.
Qed.

Lemma resolve_category_col_columns df df' :
  columns df' = columns df → resolve_category_col df' = resolve_category_col df.
Proof. unfold resolve_category_col. by intros ->. Qed.

Lemma mapR_is_Ok {A B} (f : A → result B) (l : list A) :
  Forall (λ x, is_Ok (f x)) l → is_Ok (mapR f l).
Proof.
  induction 1 as [|x l [y Hy] _ [ys Hys]]; simpl.
  - by eexists.
  - rewrite Hy. simpl. rewrite Hys. simpl. by eexists.
Qed.

Lemma unique_from_elem {A} `{EqDecision A} (seen l : list A) (x : A) :
  x ∈ unique_from seen l → x ∈ l.
Proof.
  revert seen. induction l as [|y l IH]; simpl; intros seen Hx.
  - by apply elem_of_nil in Hx.
  - case_bool_decide.
    + apply list_elem_of_further. eauto.
    + apply elem_of_cons in Hx as [->|Hx].
      * apply list_elem_of_here.
      * apply list_elem_of_further. eauto.
Qed.

Lemma py_sorted_strings (l : list (option string)) :
  Forall is_Some l → is_Ok (py_sorted l).
Proof.
  intros Hl. unfold py_sorted.
  destruct l as [|x [|y l]]; try by eexists.
  destruct (mapR_is_Ok
    (λ o : option string, match o with Some s => Ok s | None => Raise TypeError end)
    (x :: y :: l)) as [xs Hxs].
  - eapply Forall_impl; [exact Hl|]. intros o [s ->]. by eexists.
  - rewrite Hxs. simpl. by eexists.
Qed.

Lemma categories_is_Ok df cc :
  column_of is_str df cc → is_Ok (categories df cc).
Proof.
  intros Hcol. unfold categories, str_series.
  rewrite (mapR_Ok _ (λ r : gmap string cell,
             match r !! cc with Some (Str s) => Some s | _ => None end)).
  - simpl.
    destruct (py_sorted_strings (unique
      ((λ r : gmap string cell,
          match r !! cc with Some (Str s) => Some s | _ => None end) <$> rows df)))
      as [sorted Hsorted].
    + apply Forall_forall. intros o Ho. apply unique_from_elem in Ho.
      apply list_elem_of_fmap in Ho as (r & -> & Hr).
      pose proof (proj1 (Forall_forall _ _) Hcol r Hr) as Hs. unfold is_str in Hs.
      destruct (r !! cc) as [[q|s|t]| ]; first [done | by eexists].
    + rewrite Hsorted. simpl. by eexists.
  - intros r Hr.
    pose proof (proj1 (Forall_forall _ _) Hcol r Hr) as Hs. unfold is_str in Hs.
    by destruct (r !! cc) as [[q|s|t]| ].
Qed.

Lemma column_of_sublist P df df' col :
  rows df' `sublist_of` rows df → column_of P df col → column_of P df' col.
Proof.
  unfold column_of. intros Hsub Hall. apply Forall_forall. intros r Hr.
  apply (proj1 (Forall_forall _ _) Hall). by eapply elem_of_sublist.
Qed.

Lemma sidebar_filters_is_Ok w df :
  (∀ dc, resolve_date_col df = Some dc → column_of ts_or_missing df dc) →
  (∀ cc, resolve_category_col df = Some cc → column_of is_str df cc) →
  is_Ok (sidebar_filters w df).
Proof.
  intros Hdate Hcat. unfold sidebar_filters.
  assert (∃ df1 fi1, date_filter w df (resolve_date_col df) ∅ = Ok (df1, fi1))
    as (df1 & fi1 & H1).
  { unfold date_filter. destruct (resolve_date_col df) as [dc|] eqn:Hdc; [|by eauto].
    destruct (date_input w) as [|d0 [|d1 [|d2 rest]]]; try by eauto.
    rewrite (select_rows_Ok _ (in_date_range dc d0 d1)); [by eauto|].
    intros r Hr. apply date_mask_typed.
    exact (proj1 (Forall_forall _ _) (Hdate dc eq_refl) r Hr). }
  rewrite H1. simpl.
  apply date_filter_Ok_inv in H1 as (Hcols & Hsub & _).
  rewrite (resolve_category_col_columns _ _ Hcols).
  unfold category_filter.
  destruct (resolve_category_col df) as [cc|] eqn:Hcc; [|by eexists].
  destruct (categories_is_Ok df1 cc) as [cs Hcs].
  { eapply column_of_sublist; eauto. }
  rewrite Hcs. simpl.
  destruct (String.eqb (selectbox w) "All"); simpl; [by eexists|].
  unfold select_rows.
  rewrite (filterR_Ok _ (category_mask cc (selectbox w))) by done.
  simpl. by eexists.
Qed.

(** C5: filtering is monotonic.  On a frame whose date column holds
    timestamps and whose category column holds strings the filters return a
    frame; and whenever they do, it has the columns of the source and a
    sub-sequence of its rows (so no more rows), every retained row satisfies
    the date criterion when a two-endpoint range is active and, for a
    selection other than "All", has exactly the selected category; with
    "All" the category filter returns the date-filtered frame as it is. *)
Theorem filtering_is_monotonic (w : Widgets) (df : DataFrame) :
  ((∀ dc, resolve_date_col df = Some dc → column_of ts_or_missing df dc) →
   (∀ cc, resolve_category_col df = Some cc → column_of is_str df cc) →
   is_Ok (sidebar_filters w df))
  ∧ ∀ flt, sidebar_filters w df = Ok flt →
      columns (flt_df flt) = columns df
      ∧ rows (flt_df flt) `sublist_of` rows df
      ∧ (length (rows (flt_df flt)) ≤ length (rows df))%nat
      ∧ (∀ r, r ∈ rows (flt_df flt) →
           (∀ dc d0 d1, resolve_date_col df = Some dc → date_input w = [d0; d1] →
              in_date_range dc d0 d1 r)
           ∧ (∀ cc, resolve_category_col df = Some cc → selectbox w ≠ "All" →
                r !! cc = Some (Str (selectbox w))))
      ∧ (selectbox w = "All" →
           ∀ df1 fi1, date_filter w df (resolve_date_col df) ∅ = Ok (df1, fi1) →
                      flt_df flt = df1).
Proof.
  split; [apply sidebar_filters_is_Ok|].
  intros flt H.
  apply sidebar_filters_Ok_inv in H as (df1 & fi1 & fi2 & Hdate & Hcat & _).
  pose proof (date_filter_Ok_inv _ _ _ _ _ _ Hdate) as (Hc1 & Hs1 & Hin1).
  pose proof (category_filter_Ok_inv _ _ _ _ _ _ _ Hcat) as (Hc2 & Hs2 & Hin2 & Hall).
  assert (rows (flt_df flt) `sublist_of` rows df) as Hsub by (by etrans).
  split; [congruence|]. split; [done|]. split; [by apply sublist_length|]. split.
  - intros r Hr. split.
    + intros dc d0 d1 Hdc Hw. eapply Hin1; eauto.
      eapply elem_of_sublist; eauto.
    + intros cc Hcc Hsel. apply Hin2; auto.
      by rewrite (resolve_category_col_columns _ _ Hc1).
  - intros Hsel df1' fi1' Hdate'. rewrite Hdate in Hdate'. simplify_eq. auto.
Qed.

(** ** Key metrics *)

Lemma num_series_typed df col :
  column_of num_or_missing df col →
  num_series df col
  = Ok ((λ r : gmap string cell,
           match r !! col with Some (Num q) => Some q | _ => None end) <$> rows df).
Proof.
  intros Hcol. unfold num_series. apply mapR_Ok. intros r Hr.
  pose proof (proj1 (Forall_forall _ _) Hcol r Hr) as Hn. unfold num_or_missing in Hn.
  by destruct (r !! col) as [[q|s|t]| ].
Qed.

Lemma num_series_length df col xs :
  num_series df col = Ok xs → length xs = length (rows df).
Proof.
  intros H. apply mapR_Ok_inv in H. symmetry. by eapply Forall2_length.
Qed.

Lemma key_metrics_Ok_inv df m :
  key_metrics df = Ok m →
  ∃ tiles1 md1 tiles2,
    amount_metrics df (resolve_amount_col df) = Ok (tiles1, md1)
    ∧ quantity_metrics df (resolve_quantity_col df)
        (<["total_orders" := Fmt.int_comma (Z.of_nat (length (rows df)))]> md1)
      = Ok (tiles2, metrics_data m)
    ∧ amount_col m = resolve_amount_col df
    ∧ quantity_col m = resolve_quantity_col df
    ∧ tiles m = tiles1
                ++ [("Total Orders", Fmt.int_comma (Z.of_nat (length (rows df))))]
                ++ tiles2.
Proof.
  unfold key_metrics. intros H.
  apply bind_Ok in H as ([tiles1 md1] & H1 & H).
  apply bind_Ok in H as ([tiles2 md2] & H2 & H).
  injection H as <-. simpl. eauto 10.
Qed.

Lemma key_metrics_is_Ok df :
  (∀ ac, resolve_amount_col df = Some ac → column_of num_or_missing df ac) →
  (∀ qc, resolve_quantity_col df = Some qc → column_of num_or_missing df qc) →
  is_Ok (key_metrics df).
Proof.
  intros Ha Hq. unfold key_metrics, amount_metrics, quantity_metrics.
  destruct (resolve_amount_col df) as [ac|];
    [rewrite (num_series_typed df ac) by auto|]; simpl;
    (destruct (resolve_quantity_col df) as [qc|];
      [rewrite (num_series_typed df qc) by auto|]; simpl; by eexists).
Qed.

(** C3, as the code has it: the total-sales and average-order-value entries
    are in the bundle exactly when the amount role is bound; the total-orders
    entry is always there; the total-units entry is always there too, and is
    the literal N/A when the quantity role is unbound; there is no other
    entry.  On a frame whose amount and quantity columns are numeric the
    bundle is produced. *)
Theorem metrics_entries_follow_roles (df : DataFrame) :
  ((∀ ac, resolve_amount_col df = Some ac → column_of num_or_missing df ac) →
   (∀ qc, resolve_quantity_col df = Some qc → column_of num_or_missing df qc) →
   is_Ok (key_metrics df))
  ∧ ∀ m, key_metrics df = Ok m →
      (is_Some (metrics_data m !! "total_sales") ↔ is_Some (resolve_amount_col df))
      ∧ (is_Some (metrics_data m !! "avg_order_value") ↔ is_Some (resolve_amount_col df))
      ∧ is_Some (metrics_data m !! "total_orders")
      ∧ is_Some (metrics_data m !! "total_units")
      ∧ (resolve_quantity_col df = None → metrics_data m !! "total_units" = Some "N/A")
      ∧ (∀ k, is_Some (metrics_data m !! k) →
              k ∈ ["total_sales"; "avg_order_value"; "total_orders"; "total_units"]).
Proof.
  split; [apply key_metrics_is_Ok|].
  intros m H.
  apply key_metrics_Ok_inv in H as (tiles1 & md1 & tiles2 & Ha & Hq & _).
  unfold amount_metrics in Ha. unfold quantity_metrics in Hq.
  assert (∀ k, is_Some (md1 !! k) → k = "total_sales" ∨ k = "avg_order_value") as Hdom1.
  { destruct (resolve_amount_col df) as [ac|].
    - inv_bind Ha. simplify_eq. intros k [v Hk].
      destruct (decide (k = "avg_order_value")) as [->|]; [by right|].
      destruct (decide (k = "total_sales")) as [->|]; [by left|].
      by rewrite !lookup_insert_ne, lookup_empty in Hk.
    - simplify_eq. intros k [v Hk]. by rewrite lookup_empty in Hk. }
  assert (is_Some (md1 !! "total_sales") ↔ is_Some (resolve_amount_col df)) as Hts.
  { destruct (resolve_amount_col df) as [ac|].
    - inv_bind Ha. simplify_eq. rewrite lookup_insert_ne, lookup_insert_eq by done.
      split; by eexists.
    - simplify_eq. rewrite lookup_empty. split; intros [? ?]; discriminate. }
  assert (is_Some (md1 !! "avg_order_value") ↔ is_Some (resolve_amount_col df)) as Hav.
  { destruct (resolve_amount_col df) as [ac|].
    - inv_bind Ha. simplify_eq. rewrite lookup_insert_eq. split; by eexists.
    - simplify_eq. rewrite lookup_empty. split; intros [? ?]; discriminate. }
  assert (∃ u, metrics_data m
               = <["total_units" := u]>
                   (<["total_orders" := Fmt.int_comma (Z.of_nat (length (rows df)))]> md1)
               ∧ (resolve_quantity_col df = None → u = "N/A")) as (u & -> & Hu).
  { destruct (resolve_quantity_col df) as [qc|].
    - inv_bind Hq. injection Hq as _ Hq.
      eexists. split; [symmetry; exact Hq|done].
    - injection Hq as _ Hq. eexists. split; [symmetry; exact Hq|done]. }
  rewrite !lookup_insert_eq.
  rewrite !(lookup_insert_ne _ "total_units" "total_sales") by done.
  rewrite !(lookup_insert_ne _ "total_orders" "total_sales") by done.
  rewrite !(lookup_insert_ne _ "total_units" "avg_order_value") by done.
  rewrite !(lookup_insert_ne _ "total_orders" "avg_order_value") by done.
  rewrite !(lookup_insert_ne _ "total_units" "total_orders") by done.
  rewrite lookup_insert_eq.
  repeat split; try (by eexists); try (apply Hts); try (apply Hav).
  - intros Hnone. by rewrite (Hu Hnone).
  - intros k Hk.
    destruct (decide (k = "total_units")) as [->|]; [solve_elem|].
    destruct (decide (k = "total_orders")) as [->|]; [solve_elem|].
    rewrite !lookup_insert_ne in Hk by done.
    destruct (Hdom1 k Hk) as [-> | ->]; solve_elem.
Qed.

(** ** The script as a whole *)

Lemma main_Ok_inv csv_field now w df o :
  main csv_field now w df = Ok o →
  sidebar_filters w df = Ok (out_filters o)
  ∧ key_metrics (flt_df (out_filters o)) = Ok (out_metrics o)
  ∧ dashboard_charts (flt_df (out_filters o)) (flt_date_col (out_filters o))
      (amount_col (out_metrics o)) (flt_category_col (out_filters o))
    = Ok (out_charts o)
  ∧ out_table o = head 100 (rows (ch_df (out_charts o)))
  ∧ out_csv o = encode_utf8 (to_csv csv_field (ch_df (out_charts o)))
  ∧ out_pdf o
    = (charts_for_pdf (ch_df (out_charts o)) (flt_date_col (out_filters o))
         (amount_col (out_metrics o)) (flt_category_col (out_filters o))
       ≫= λ charts_data,
         create_branded_pdf_report now (ch_df (out_charts o))
           (metrics_data (out_metrics o)) charts_data
           (flt_date_col (out_filters o)) (amount_col (out_metrics o))
           (flt_category_col (out_filters o)) (quantity_col (out_metrics o))
           (flt_filter_info (out_filters o))).
Proof.
  unfold main. intros H. inv_bind H. injection H as <-. simpl. auto 10.
Qed.

Lemma main_Ok_date_input csv_field now w df o :
  main csv_field now w df = Ok o →
  date_input_call df (resolve_date_col df) = Ok tt.
Proof.
  unfold main. intros H. apply bind_Ok in H as ([] & H & _). exact H.
Qed.

Lemma main_date_input csv_field now w df :
  main csv_field now w df
  = (date_input_call df (resolve_date_col df) ≫= λ _,
     flt ← sidebar_filters w df;
     m ← key_metrics (flt_df flt);
     ch ← dashboard_charts (flt_df flt) (flt_date_col flt) (amount_col m)
            (flt_category_col flt);
     Ok {| out_filters := flt;
           out_metrics := m;
           out_charts := ch;
           out_table := head 100 (rows (ch_df ch));
           out_csv := encode_utf8 (to_csv csv_field (ch_df ch));
           out_pdf :=
             charts_for_pdf (ch_df ch) (flt_date_col flt) (amount_col m)
               (flt_category_col flt)
             ≫= λ charts_data,
               create_branded_pdf_report now (ch_df ch) (metrics_data m)
                 charts_data (flt_date_col flt) (amount_col m)
                 (flt_category_col flt) (quantity_col m)
                 (flt_filter_info flt) |}).
Proof. reflexivity. Qed.

(** On a frame without rows the charts are drawn from no data: the three
    that are given a frame come out empty, and [px.bar], when the category
    and amount roles are bound, raises. *)
Lemma dashboard_charts_empty df dc ac cc :
  rows df = [] →
  if bound cc && bound ac
  then dashboard_charts df dc ac cc = Raise ValueError
  else is_Ok (dashboard_charts df dc ac cc).
Proof.
  destruct df as [cols rs]. simpl. intros ->.
  unfold dashboard_charts, monthly_chart, daily_sales, top_categories, category_sums,
    monthly_sales, set_column, keyed, num_series.
  destruct dc, ac, cc; simpl; first [reflexivity | by eexists].
Qed.

Lemma key_metrics_empty df ac :
  rows df = [] → resolve_amount_col df = Some ac →
  ∃ m, key_metrics df = Ok m
       ∧ amount_col m = Some ac
       ∧ metrics_data m !! "total_sales" = Some "$0.00"
       ∧ metrics_data m !! "avg_order_value" = Some "$nan"
       ∧ metrics_data m !! "total_orders" = Some "0"
       ∧ ("Avg Order Value", "$nan") ∈ tiles m.
Proof.
  destruct df as [cols rs]. simpl. intros -> Hac.
  unfold key_metrics, amount_metrics, quantity_metrics, num_series.
  rewrite Hac. cbn [rows mapR mbind result_bind].
  change (series_mean []) with NaN.
  change ("$" +:+ format_float 2 NaN) with "$nan".
  replace ("$" +:+ format_float 2 (Fin (series_sum []))) with "$0.00"
    by (vm_compute; reflexivity).
  change (Fmt.int_comma (Z.of_nat (length []))) with "0".
  destruct (resolve_quantity_col _) as [qc|]; cbn [mbind result_bind];
    (eexists; split; [reflexivity|]; cbn [amount_col metrics_data tiles];
     split; [reflexivity|];
     rewrite !(lookup_insert_ne _ "total_units") by done;
     rewrite !(lookup_insert_ne _ "total_orders") by done;
     rewrite lookup_insert_eq;
     rewrite !(lookup_insert_ne _ "avg_order_value") by done;
     rewrite !lookup_insert_eq;
     repeat split; solve_elem).
Qed.

(** C2, as the code has it: when the filters leave no row and the amount
    role is bound, the mean raises nothing.  The mean of the empty column
    is not-a-number, which the average-order-value tile and bundle entry
    show as "$nan", next to a total of "$0.00".  Without a category role
    the script then runs to its end.  With one it stops at the
    top-categories chart, which [px.bar] cannot draw from no data: an
    exception of the chart, raised after the metrics were shown, and none
    of the mean. *)
Theorem empty_selection_mean_is_nan
    (csv_field : option cell → string) (now : Clock) (w : Widgets)
    (df : DataFrame) (flt : Filters) (ac : string) :
  date_input_call df (resolve_date_col df) = Ok tt →
  sidebar_filters w df = Ok flt →
  rows (flt_df flt) = [] →
  resolve_amount_col (flt_df flt) = Some ac →
  ∃ m, key_metrics (flt_df flt) = Ok m
       ∧ metrics_data m !! "avg_order_value" = Some "$nan"
       ∧ metrics_data m !! "total_sales" = Some "$0.00"
       ∧ ("Avg Order Value", "$nan") ∈ tiles m
       ∧ match flt_category_col flt with
         | None =>
             ∃ o, main csv_field now w df = Ok o
                  ∧ out_filters o = flt ∧ out_metrics o = m
         | Some _ => main csv_field now w df = Raise ValueError
         end.
Proof.
  intros Hpick Hflt Hrows Hac.
  destruct (key_metrics_empty _ _ Hrows Hac) as (m & Hm & Ham & Hts & Havg & _ & Htile).
  exists m. split; [done|]. split; [done|]. split; [done|]. split; [done|].
  pose proof (dashboard_charts_empty (flt_df flt) (flt_date_col flt) (amount_col m)
                (flt_category_col flt) Hrows) as Hch.
  rewrite main_date_input, Hpick. cbn [mbind result_bind].
  rewrite Hflt. cbn [mbind result_bind]. rewrite Hm. cbn [mbind result_bind].
  rewrite Ham in Hch. rewrite Ham.
  destruct (flt_category_col flt) as [cc|]; simpl in Hch.
  - by rewrite Hch.
  - destruct Hch as [ch Hch]. rewrite Hch. cbn [mbind result_bind].
    eexists. split; [reflexivity|]. by split.
Qed.

(** ** Formatting depends on the value of a number only *)

Lemma round_half_even_Qeq (p q : Q) : (p == q)%Q → Fmt.round_half_even p = Fmt.round_half_even q.
Proof.
  intros Hpq. unfold Fmt.round_half_even.
  rewrite (Qfloor_comp _ _ Hpq).
  assert (p - inject_Z (Qfloor q) == q - inject_Z (Qfloor q))%Q as Hd
    by (by rewrite Hpq).
  by rewrite (Qcompare_comp _ _ Hd _ _ (Qeq_refl (1 # 2))).
Qed.

Lemma fixed_Qeq (comma : bool) (prec : nat) (p q : Q) :
  (p == q)%Q → Fmt.fixed comma prec p = Fmt.fixed comma prec q.
Proof.
  intros Hpq. unfold Fmt.fixed, Fmt.rounded.
  assert (Qabs p * inject_Z (10 ^ Z.of_nat prec)
          == Qabs q * inject_Z (10 ^ Z.of_nat prec))%Q as Hm
    by (by rewrite Hpq).
  rewrite (round_half_even_Qeq _ _ Hm).
  destruct (Qlt_le_dec p 0) as [Hp|Hp], (Qlt_le_dec q 0) as [Hq|Hq]; try reflexivity.
  - rewrite Hpq in Hp. exfalso. eapply Qlt_not_le; eauto.
  - rewrite Hpq in Hp. exfalso. eapply Qlt_not_le; eauto.
Qed.

(** ** The stable sort *)

Section SortFacts.
Context {A : Type} (le : A → A → bool).

Lemma insert_sorted_Permutation x l : insert_sorted le x l ≡ₚ x :: l.
Proof.
  induction l as [|y l IH]; simpl; [done|].
  destruct (le x y); [done|]. rewrite IH. apply Permutation_swap.
Qed.

Lemma isort_Permutation l : isort le l ≡ₚ l.
Proof.
  induction l as [|x l IH]; simpl; [done|].
  unfold isort in *. simpl. by rewrite insert_sorted_Permutation, IH.
Qed.

(** Stability: elements that the order cannot tell apart keep their
    relative order. *)
Lemma insert_sorted_filter (P : A → Prop) `{∀ x, Decision (P x)} x l :
  (∀ a b, P a → P b → le a b = true) →
  filter P (insert_sorted le x l) = filter P (x :: l).
Proof.
  intros Htie. induction l as [|y l IH]; simpl; [done|].
  destruct (le x y) eqn:Hxy; [done|].
  rewrite filter_cons, IH, !filter_cons.
  destruct (decide (P y)) as [Hy|Hy], (decide (P x)) as [Hx|Hx]; try done.
  rewrite (Htie x y Hx Hy) in Hxy. discriminate.
Qed.

Lemma isort_stable (P : A → Prop) `{∀ x, Decision (P x)} l :
  (∀ a b, P a → P b → le a b = true) →
  filter P (isort le l) = filter P l.
Proof.
  intros Htie. induction l as [|x l IH]; [done|].
  unfold isort in *. simpl.
  rewrite insert_sorted_filter by done. by rewrite !filter_cons, IH.
Qed.

Hypothesis le_total : ∀ a b, le a b = true ∨ le b a = true.
Hypothesis le_trans : ∀ a b c, le a b = true → le b c = true → le a c = true.

Lemma insert_sorted_sorted x l :
  StronglySorted (λ a b, le a b = true) l →
  StronglySorted (λ a b, le a b = true) (insert_sorted le x l).
Proof.
  induction 1 as [|y l Hl IH Hy]; simpl.
  - repeat constructor.
  - destruct (le x y) eqn:Hxy.
    + constructor; [by constructor|].
      constructor; [done|]. eapply Forall_impl; [exact Hy|].
      intros z Hz. eauto.
    + constructor; [done|].
      rewrite insert_sorted_Permutation. constructor; [|done].
      destruct (le_total x y); congruence.
Qed.

Lemma isort_sorted l : StronglySorted (λ a b, le a b = true) (isort le l).
Proof.
  induction l as [|x l IH]; [constructor|].
  unfold isort in *. simpl. by apply insert_sorted_sorted.
Qed.
End SortFacts.

Lemma StronglySorted_reverse {A} (R : relation A) (l : list A) :
  StronglySorted R l → StronglySorted (flip R) (reverse l).
Proof.
  induction 1 as [|x l Hl IH Hx]; [constructor|].
  rewrite reverse_cons. apply StronglySorted_app. split_and!.
  - intros y z Hy Hz. apply list_elem_of_singleton in Hz as ->.
    rewrite elem_of_reverse in Hy. exact (proj1 (Forall_forall _ _) Hx y Hy).
  - done.
  - repeat constructor.
Qed.

Lemma StronglySorted_weaken {A} (R R' : relation A) (l : list A) :
  (∀ a b, R a b → R' a b) → StronglySorted R l → StronglySorted R' l.
Proof.
  intros HR. induction 1 as [|x l Hl IH Hx]; constructor; [done|].
  eapply Forall_impl; [exact Hx|]. auto.
Qed.


Lemma value_le_total {K} (a b : K * Q) : value_le a b = true ∨ value_le b a = true.
Proof.
  unfold value_le. rewrite !Qle_bool_iff.
  destruct (Qlt_le_dec b.2 a.2); [right; by apply Qlt_le_weak | by left].
Qed.

Lemma value_le_trans {K} (a b c : K * Q) :
  value_le a b = true → value_le b c = true → value_le a c = true.
Proof. unfold value_le. rewrite !Qle_bool_iff. apply Qle_trans. Qed.

Lemma value_le_tie {K} (v : Q) (a b : K * Q) :
  (a.2 == v)%Q → (b.2 == v)%Q → value_le a b = true.
Proof.
  unfold value_le. rewrite Qle_bool_iff. intros -> ->. apply Qle_refl.
Qed.

(** [sort_values] permutes, sorts and is stable, in both directions. *)
Lemma sort_values_Permutation {K} (ascending : bool) (s : list (K * Q)) :
  sort_values ascending s ≡ₚ s.
Proof.
  unfold sort_values. destruct ascending.
  - apply isort_Permutation.
  - by rewrite reverse_Permutation, isort_Permutation, reverse_Permutation.
Qed.

Lemma sort_values_ascending {K} (s : list (K * Q)) :
  StronglySorted (λ a b, (a.2 <= b.2)%Q) (sort_values true s).
Proof.
  unfold sort_values.
  eapply StronglySorted_weaken;
    [|apply (isort_sorted value_le value_le_total value_le_trans)].
  intros a b. unfold value_le. by rewrite Qle_bool_iff.
Qed.

Lemma sort_values_descending {K} (s : list (K * Q)) :
  StronglySorted (λ a b, (b.2 <= a.2)%Q) (sort_values false s).
Proof.
  unfold sort_values.
  eapply StronglySorted_weaken;
    [|apply StronglySorted_reverse,
            (isort_sorted value_le value_le_total value_le_trans)].
  intros a b. unfold flip, value_le. by rewrite Qle_bool_iff.
Qed.

Lemma sort_values_stable {K} (ascending : bool) (v : Q) (s : list (K * Q)) :
  filter (λ e, (e.2 == v)%Q) (sort_values ascending s)
  = filter (λ e, (e.2 == v)%Q) s.
Proof.
  unfold sort_values. destruct ascending.
  - apply isort_stable, value_le_tie.
  - rewrite filter_reverse, isort_stable by apply value_le_tie.
    by rewrite filter_reverse, reverse_involutive.
Qed.


(** ** Group by and sum *)

Section GroupByFacts.
Context {K : Type} `{EqDecision K} (cmp : K → K → comparison).
Hypothesis cmp_eq : ∀ a b, cmp a b = Eq → a = b.
Hypothesis cmp_antisym : ∀ a b, cmp a b = CompOpp (cmp b a).
Hypothesis cmp_trans : ∀ a b c, cmp a b = Lt → cmp b c = Lt → cmp a c = Lt.

Local Abbreviation key_lt := (λ a b : K * Q, cmp a.1 b.1 = Lt).
Local Abbreviation step :=
  (λ (acc : list (K * Q)) (p : option K * option Q),
     match p.1 with
     | Some k => upsert cmp k (default 0%Q p.2) acc
     | None => acc
     end).






Lemma upsert_keys (y k : K) v acc :
  y ∈ (upsert cmp k v acc).*1 ↔ y = k ∨ y ∈ acc.*1.
Proof.
  induction acc as [|[k' v'] acc IH]; simpl.
  - rewrite list_elem_of_singleton, elem_of_nil. tauto.
  - destruct (cmp k k') eqn:Hc; simpl.
    + apply cmp_eq in Hc as <-. rewrite !elem_of_cons. tauto.
    + rewrite !elem_of_cons. tauto.
    + rewrite !elem_of_cons, IH. tauto.
Qed.

Lemma groupby_keys_from (y : K) acc ps :
  y ∈ (foldl step acc ps).*1 ↔ y ∈ acc.*1 ∨ ∃ v, (Some y, v) ∈ ps.
Proof.
  revert acc. induction ps as [|[ok ov] ps IH]; intros acc; simpl.
  - split; [auto|]. intros [?|[v Hv]]; [done|]. by apply elem_of_nil in Hv.
  - rewrite IH. destruct ok as [k|]; simpl.
    + rewrite upsert_keys. split.
      * intros [[->|?]|[v Hv]]; [right; exists ov; left|by left|].
        right. exists v. by right.
      * intros [?|[v Hv]]; [tauto|].
        apply elem_of_cons in Hv as [[= -> ->]|Hv]; [tauto|]. right. eauto.
    + split.
      * intros [?|[v Hv]]; [tauto|]. right. exists v. by right.
      * intros [?|[v Hv]]; [tauto|].
        apply elem_of_cons in Hv as [[=]|Hv]. right. eauto.
Qed.

Lemma groupby_keys (y : K) ps :
  y ∈ (groupby_sum cmp ps).*1 ↔ ∃ v, (Some y, v) ∈ ps.
Proof.
  unfold groupby_sum. rewrite groupby_keys_from. simpl.
  rewrite elem_of_nil. tauto.
Qed.








End GroupByFacts.

(** ** String keys *)

Lemma string_compare_eq (a b : string) : String.compare a b = Eq → a = b.
Proof. apply String.compare_eq_iff. Qed.

Lemma string_compare_trans (a b c : string) :
  String.compare a b = Lt → String.compare b c = Lt → String.compare a c = Lt.
Proof.
  intros Hab Hbc. apply String_as_OT.cmp_lt.
  eapply String_as_OT.lt_trans; apply String_as_OT.cmp_lt; eassumption.
Qed.


(** ** Revenue per category *)

Lemma keyed_str_typed df cc ac :
  column_of str_or_missing df cc → column_of num_or_missing df ac →
  keyed (λ r : gmap string cell, as_str (r !! cc)) ac df
  = Ok ((λ r : gmap string cell, (cell_str (r !! cc), cell_num (r !! ac))) <$> rows df).
Proof.
  intros Hcc Hac. unfold keyed. apply mapR_Ok. intros r Hr.
  pose proof (proj1 (Forall_forall _ _) Hcc r Hr) as Hs.
  pose proof (proj1 (Forall_forall _ _) Hac r Hr) as Hn.
  unfold str_or_missing in Hs. unfold num_or_missing in Hn.
  destruct (r !! cc) as [[?|?|?]| ]; try done;
    destruct (r !! ac) as [[?|?|?]| ]; done.
Qed.

Lemma category_sums_typed df cc ac :
  column_of str_or_missing df cc → column_of num_or_missing df ac →
  category_sums df cc ac
  = Ok (groupby_sum String.compare
          ((λ r : gmap string cell, (cell_str (r !! cc), cell_num (r !! ac)))
           <$> rows df)).
Proof.
  intros Hcc Hac. unfold category_sums. by rewrite keyed_str_typed.
Qed.








(** ** Rounding for display *)





(** ** The detail table *)


(** ** The report *)

Lemma insights_page_Ok_inv df cc ac ins :
  insights_page df cc ac = Ok ins →
  ∃ table,
    ins = [ Paragraph (Lit "Top 10 Categories - Detailed Breakdown") SectionHeading;
            Spacer (1 # 5) ] ++ table
    ∧ ((bound cc && bound ac = true ∧ ∃ d w, table = [Table d w])
       ∨ (bound cc && bound ac = false ∧ table = [])).
Proof.
  unfold insights_page. intros H. inv_bind H.
  exists a. split; [congruence|].
  destruct cc as [c|], ac as [a'|]; simpl;
    try (right; split; [done|congruence]).
  inv_bind Hstep. left. split; [done|].
  exists (category_data a0), [3 # 5; 3; 9 # 5; 11 # 10]%Q. congruence.
Qed.

Lemma ax_hist_Ok_inv bins values c :
  ax_hist bins values = Ok c →
  c = HistPlot bins values ∧ no_finite_value values = false.
Proof.
  unfold ax_hist. destruct (no_finite_value values); [discriminate|].
  intros [= <-]. done.
Qed.

Lemma charts_for_pdf_Ok_inv df dc ac cc cd :
  charts_for_pdf df dc ac cc = Ok cd →
  ∀ k key,
    (k, key) ∈ [ (Trend, "sales_trend"); (TopCategories, "top_categories");
                 (Distribution, "sales_distribution"); (Monthly, "monthly_sales") ] →
    kind_of <$> cd !! key = if prerequisite dc ac cc k then Some k else None.
Proof.
  unfold charts_for_pdf, create_sales_trend_chart, create_top_categories_chart,
    create_distribution_chart, create_monthly_chart.
  intros H k key Hk.
  destruct dc as [d|], ac as [a'|], cc as [c|]; cbn [mbind result_bind] in H;
    inv_bind H;
    repeat match goal with
           | Hf : _ <$> _ = Ok _ |- _ => apply fmap_Ok in Hf as (? & ? & ->)
           | Hf : _ ≫= _ = Ok _ |- _ => inv_bind Hf
           | Hf : ax_hist _ _ = Ok _ |- _ => apply ax_hist_Ok_inv in Hf as [-> ?]
           end;
    repeat match goal with
           | Hf : Ok _ = Ok _ |- _ => injection Hf as <-
           end;
    repeat (apply elem_of_cons in Hk as [[= -> ->]|Hk]; [by vm_compute|]);
    by apply elem_of_nil in Hk.
Qed.

(** C9, as the code has it: the report is the cover, the assumptions page,
    the KPI page, two chart pages and the detail page with the footer, in
    this order for every input.  The trend and top-categories charts share
    the first chart page, the distribution and monthly charts the second,
    and the heading of each chart is printed whether or not its chart is.
    What varies with the input is the presence of each chart image, which
    is there exactly when the roles the chart needs are bound, and the
    presence of the detail table, which needs the category and amount
    roles. *)
Theorem report_layout
    (csv_field : option cell → string) (now : Clock) (w : Widgets)
    (df : DataFrame) (o : Output) (els : list flowable) :
  main csv_field now w df = Ok o →
  out_pdf o = Ok els →
  (∃ rest, els = cover_page now (flt_filter_info (out_filters o))
                 ++ assumptions_page
                 ++ key_metrics_page (metrics_data (out_metrics o))
                 ++ rest)
  ∧ headings <$> pages els
    = [ [];
        [Lit "Key Assumptions & Methodology"];
        [Lit "Executive Summary - Key Performance Indicators"];
        [Lit "Sales Trend Analysis"; Lit "Top Categories Performance"];
        [Lit "Sales Distribution"; Lit "Monthly Comparison"];
        [Lit "Top 10 Categories - Detailed Breakdown"] ]
  ∧ kind_of <$> images els
    = List.filter (prerequisite (flt_date_col (out_filters o))
                     (amount_col (out_metrics o))
                     (flt_category_col (out_filters o)))
        [Trend; TopCategories; Distribution; Monthly]
  ∧ length (tables els)
    = (3 + (if bound (flt_category_col (out_filters o))
               && bound (amount_col (out_metrics o)) then 1 else 0))%nat
  ∧ length els
    = (let needs := prerequisite (flt_date_col (out_filters o))
                      (amount_col (out_metrics o))
                      (flt_category_col (out_filters o)) in
       30 + (if needs Trend then 2 else 0)
          + (if needs TopCategories then 1 else 0)
          + (if needs Distribution then 2 else 0)
          + (if needs Monthly then 1 else 0)
          + (if bound (flt_category_col (out_filters o))
                && bound (amount_col (out_metrics o)) then 1 else 0))%nat.
Proof.
  intros Hmain Hpdf.
  apply main_Ok_inv in Hmain as (_ & _ & _ & _ & _ & Hout).
  rewrite Hout in Hpdf. clear Hout.
  apply bind_Ok in Hpdf as (cd & Hcd & Hpdf).
  unfold create_branded_pdf_report in Hpdf.
  apply bind_Ok in Hpdf as (ins & Hins & Hpdf).
  assert (els = cover_page now (flt_filter_info (out_filters o))
                ++ assumptions_page
                ++ key_metrics_page (metrics_data (out_metrics o))
                ++ charts_pages cd ++ ins ++ footer now) as -> by congruence.
  clear Hpdf. split; [by eexists|].
  apply insights_page_Ok_inv in Hins as (table & -> & Htable).
  pose proof (charts_for_pdf_Ok_inv _ _ _ _ _ Hcd) as Hkeys.
  pose proof (Hkeys Trend "sales_trend" ltac:(solve_elem)) as H1.
  pose proof (Hkeys TopCategories "top_categories" ltac:(solve_elem)) as H2.
  pose proof (Hkeys Distribution "sales_distribution" ltac:(solve_elem)) as H3.
  pose proof (Hkeys Monthly "monthly_sales" ltac:(solve_elem)) as H4.
  clear Hkeys Hcd.
  cbn [List.filter]. cbv zeta.
  set (p1 := prerequisite _ _ _ Trend) in *.
  set (p2 := prerequisite _ _ _ TopCategories) in *.
  set (p3 := prerequisite _ _ _ Distribution) in *.
  set (p4 := prerequisite _ _ _ Monthly) in *.
  set (pt := bound _ && bound _) in *.
  unfold charts_pages, chart_image.
  destruct (cd !! "sales_trend") as [c1|], p1; try discriminate H1;
    destruct (cd !! "top_categories") as [c2|], p2; try discriminate H2;
    destruct (cd !! "sales_distribution") as [c3|], p3; try discriminate H3;
    destruct (cd !! "monthly_sales") as [c4|], p4; try discriminate H4;
    simpl in H1, H2, H3, H4; simplify_eq;
    (destruct Htable as [(-> & d & wd & ->)|(-> & ->)];
     repeat match goal with
            | Hk : kind_of ?c = _ |- _ =>
                destruct c; try discriminate Hk; clear Hk
            end;
     split_and!; reflexivity).
Qed.

(** ** The CSV download *)

Lemma monthly_chart_Ok_inv df dc ac df' m :
  monthly_chart df dc ac = Ok (df', m) →
  (bound dc && bound ac = false ∧ df' = df)
  ∨ (bound dc && bound ac = true
     ∧ columns df' = (if bool_decide ("Month" ∈ columns df) then columns df
                      else columns df ++ ["Month"])
     ∧ length (rows df') = length (rows df)
     ∧ Forall (λ r : gmap string cell, str_or_missing (r !! "Month")) (rows df')).
Proof.
  unfold monthly_chart. intros H.
  destruct dc as [d|], ac as [a'|]; simpl; try (left; split; [done|congruence]).
  right. split; [done|].
  apply bind_Ok in H as (df1 & Hset & H).
  apply bind_Ok in H as (ms & _ & H).
  assert (df' = df1) as -> by congruence. clear H.
  unfold set_column in Hset.
  apply bind_Ok in Hset as (rs & Hrs & Hset).
  assert (df1 = {| columns := if bool_decide ("Month" ∈ columns df) then columns df
                              else columns df ++ ["Month"];
                   rows := rs |}) as -> by congruence.
  clear Hset. cbn [columns rows]. split; [done|].
  apply mapR_Ok_inv in Hrs. split.
  - symmetry. by eapply Forall2_length.
  - induction Hrs as [|r r' l l' Hr _ IH]; constructor; [|done].
    apply bind_Ok in Hr as (v & Hv & Hr).
    assert (r' = set_cell "Month" v r) as -> by congruence.
    unfold month_of in Hv. apply bind_Ok in Hv as (t & _ & Hv).
    injection Hv as <-. destruct t as [t|]; unfold set_cell.
    + by rewrite lookup_insert_eq.
    + by rewrite lookup_delete_eq.
Qed.

(** What the CSV download contains: the frame as the monthly chart left it.
    Without that chart (date or amount role unbound) it is the filtered
    frame; with it, the frame has a [Month] column, which the filtered frame
    need not have. *)
Lemma csv_download_frame csv_field now w df o :
  main csv_field now w df = Ok o →
  out_csv o = encode_utf8 (to_csv csv_field (ch_df (out_charts o)))
  ∧ (bound (flt_date_col (out_filters o)) && bound (amount_col (out_metrics o)) = false →
       ch_df (out_charts o) = flt_df (out_filters o))
  ∧ (bound (flt_date_col (out_filters o)) && bound (amount_col (out_metrics o)) = true →
       "Month" ∉ columns (flt_df (out_filters o)) →
       columns (ch_df (out_charts o)) = columns (flt_df (out_filters o)) ++ ["Month"]).
Proof.
  intros H. apply main_Ok_inv in H as (_ & _ & Hch & _ & Hcsv & _).
  split; [done|].
  unfold dashboard_charts in Hch.
  apply bind_Ok in Hch as (trend & _ & Hch).
  apply bind_Ok in Hch as (cats & _ & Hch).
  apply bind_Ok in Hch as (dist & _ & Hch).
  apply bind_Ok in Hch as ([df' monthly] & Hmonthly & Hch).
  assert (ch_df (out_charts o) = df') as -> by (injection Hch as <-; done).
  clear Hch.
  apply monthly_chart_Ok_inv in Hmonthly as [[Hb ->]|(Hb & Hcols & _)].
  - split; [done|]. intros Hb'. congruence.
  - split; [intros Hb'; congruence|]. intros _ Hno.
    by rewrite Hcols, bool_decide_eq_false_2.
Qed.

(** C1 fails on the code: with date and amount columns the monthly chart
    writes a [Month] column into the frame, and the CSV download, which
    comes later, carries it.  Here on two orders with the whole date range
    selected: the filtered frame has the columns Date and Amount, the
    download has Date, Amount and Month. *)
Theorem csv_download_carries_month_column :
  ∃ o, main sample_csv_field sample_clock whole_range two_orders = Ok o
       ∧ flt_df (out_filters o) = two_orders
       ∧ columns (ch_df (out_charts o)) = ["Date"; "Amount"; "Month"]
       ∧ string_of_list_byte (out_csv o)
         = "Date,Amount,Month" +:+ newline
           +:+ "2024-01-01,10.00,2024-01" +:+ newline
           +:+ "2024-01-10,20.00,2024-01" +:+ newline
       ∧ to_csv sample_csv_field (flt_df (out_filters o))
         = "Date,Amount" +:+ newline
           +:+ "2024-01-01,10.00" +:+ newline
           +:+ "2024-01-10,20.00" +:+ newline.
Proof.
  eexists. split; [vm_compute; reflexivity|].
  split_and!; vm_compute; reflexivity.
Qed.

(** ** Thousands separators *)

Lemma group3_strip_le (n : nat) (l : list ascii) :
  (length l ≤ n)%nat →
  Forall (λ c, is_comma c = false) l →
  List.filter (λ c, negb (is_comma c)) (Fmt.group3 l) = l
  ∧ length (Fmt.group3 l) = (length l + (length l - 1) / 3)%nat.
Proof.
  revert l. induction n as [n IH] using lt_wf_ind. intros l Hlen Hl.
  destruct l as [|a [|b [|c [|d rest]]]].
  - done.
  - apply Forall_cons in Hl as [Ha _]. simpl. by rewrite Ha.
  - apply Forall_cons in Hl as [Ha Hl]. apply Forall_cons in Hl as [Hb _].
    simpl. by rewrite Ha, Hb.
  - apply Forall_cons in Hl as [Ha Hl]. apply Forall_cons in Hl as [Hb Hl].
    apply Forall_cons in Hl as [Hc _]. simpl. by rewrite Ha, Hb, Hc.
  - apply Forall_cons in Hl as [Ha Hl]. apply Forall_cons in Hl as [Hb Hl].
    apply Forall_cons in Hl as [Hc Hl].
    change (Fmt.group3 (a :: b :: c :: d :: rest))
      with (a :: b :: c :: ","%char :: Fmt.group3 (d :: rest)).
    simpl in Hlen.
    destruct (IH (n - 3)%nat ltac:(lia) (d :: rest) ltac:(simpl; lia) Hl)
      as [IHstrip IHlen].
    split.
    + cbn [List.filter]. rewrite Ha, Hb, Hc. cbn [negb is_comma Ascii.eqb].
      change (is_comma ","%char) with true. cbn [negb]. by rewrite IHstrip.
    + cbn [length] in *. rewrite IHlen.
      replace (S (S (S (S (length rest)))) - 1)%nat with (1 * 3 + length rest)%nat by lia.
      rewrite Nat.div_add_l by lia.
      replace (S (length rest) - 1)%nat with (length rest) by lia. lia.
Qed.

Lemma string_of_uint_no_comma (d : Decimal.uint) :
  Forall (λ c, is_comma c = false) (list_ascii_of_string (NilEmpty.string_of_uint d)).
Proof. induction d; simpl; constructor; done. Qed.

Lemma digits_no_comma (n : Z) :
  Forall (λ c, is_comma c = false) (list_ascii_of_string (Fmt.digits n)).
Proof.
  unfold Fmt.digits, NilZero.string_of_uint.
  destruct (N.to_uint (Z.to_N n)) eqn:E; try (rewrite <- E; apply string_of_uint_no_comma).
  repeat constructor.
Qed.

(** [int_comma] writes the decimal digits of the number with commas in
    between and nothing else: without the commas the digits are back, and
    there is one comma for every full group of three digits that has a
    digit before it. *)
Lemma int_comma_groups_digits (n : Z) :
  0 ≤ n →
  string_of_list_ascii
    (List.filter (λ c, negb (is_comma c)) (list_ascii_of_string (Fmt.int_comma n)))
  = Fmt.digits n
  ∧ String.length (Fmt.int_comma n)
    = (String.length (Fmt.digits n) + (String.length (Fmt.digits n) - 1) / 3)%nat.
Proof.
  intros Hn. unfold Fmt.int_comma, Fmt.thousands.
  replace (n <? 0) with false by (symmetry; apply Z.ltb_ge; lia).
  rewrite Z.abs_eq by lia.
  set (ds := list_ascii_of_string (Fmt.digits n)).
  destruct (group3_strip_le (length (rev ds)) (rev ds)) as [Hstrip Hlen]; [lia| |].
  { apply Forall_forall. intros c Hc. apply list_elem_of_In, in_rev in Hc.
    pose proof (digits_no_comma n) as Hd. rewrite Forall_forall in Hd.
    apply Hd. by apply list_elem_of_In. }
  change ("" +:+ string_of_list_ascii (rev (Fmt.group3 (rev ds))))
    with (string_of_list_ascii (rev (Fmt.group3 (rev ds)))).
  split.
  - rewrite list_ascii_of_string_of_list_ascii.
    rewrite List.filter_rev, Hstrip, rev_involutive.
    apply string_of_list_ascii_of_string.
  - assert (∀ s, String.length s = length (list_ascii_of_string s)) as Hsl.
    { induction s as [|c s IH]; simpl; congruence. }
    rewrite !Hsl, list_ascii_of_string_of_list_ascii.
    fold ds. rewrite length_rev, Hlen, length_rev. reflexivity.
Qed.

Lemma group3_commas (n : nat) (l : list ascii) :
  (length l ≤ n)%nat →
  Forall (λ c, is_comma c = false) l →
  (∀ i c, Fmt.group3 l !! i = Some c → is_comma c = true ↔ (i mod 4 = 3)%nat)
  ∧ last (Fmt.group3 l) = last l.
Proof.
  revert l. induction n as [n IH] using lt_wf_ind. intros l Hlen Hl.
  assert (∀ i c, (i < 3)%nat → l !! i = Some c →
                 is_comma c = true ↔ (i mod 4 = 3)%nat) as Hshort.
  { intros i c Hi Hc. rewrite Forall_forall in Hl.
    rewrite (Hl c) by (by eapply list_elem_of_lookup_2).
    rewrite Nat.mod_small by lia. split; [done | lia]. }
  destruct l as [|a [|b [|c [|d rest]]]].
  1-4: split; [|done]; intros i x Hx; apply Hshort; [|done];
       apply lookup_lt_Some in Hx; simpl in Hx; lia.
  change (Fmt.group3 (a :: b :: c :: d :: rest))
    with (a :: b :: c :: ","%char :: Fmt.group3 (d :: rest)).
  apply Forall_cons in Hl as [Ha Hl]. apply Forall_cons in Hl as [Hb Hl].
  apply Forall_cons in Hl as [Hc Hl]. simpl in Hlen.
  destruct (IH (n - 3)%nat ltac:(lia) (d :: rest) ltac:(simpl; lia) Hl)
    as [IHpos IHlast].
  split.
  - intros i x Hx.
    destruct i as [|[|[|[|i]]]]; simpl in Hx.
    1-3: apply (Hshort _ x); [lia | done].
    + injection Hx as <-. done.
    + rewrite (IHpos _ _ Hx).
      replace (S (S (S (S i)))) with (i + 1 * 4)%nat by lia.
      by rewrite Nat.Div0.mod_add.
  - destruct (Fmt.group3 (d :: rest)) as [|y ys] eqn:Eg.
    + apply (f_equal length) in Eg.
      destruct (group3_strip_le _ (d :: rest) (le_n _) Hl) as [_ Hlen'].
      rewrite Eg in Hlen'. simpl in Hlen'. lia.
    + etrans; [|exact IHlast]. reflexivity.
Qed.

Lemma to_uint_normal (n : N) : Decimal.unorm (N.to_uint n) = N.to_uint n.
Proof.
  rewrite <- (DecimalN.Unsigned.of_to n) at 2.
  by rewrite DecimalN.Unsigned.to_of.
Qed.

Lemma digits_value (n : Z) :
  0 ≤ n → decimal_value (list_ascii_of_string (Fmt.digits n)) = Some n.
Proof.
  intros Hn. unfold decimal_value, Fmt.digits.
  rewrite string_of_list_ascii_of_string, NilZero.usu.
  - cbn [fmap option_fmap option_map].
    by rewrite DecimalN.Unsigned.of_to, Z2N.id.
  - rewrite <- to_uint_normal. apply DecimalFacts.unorm_nonnil.
Qed.

Lemma digits_nonempty (n : Z) : list_ascii_of_string (Fmt.digits n) ≠ [].
Proof.
  unfold Fmt.digits, NilZero.string_of_uint.
  by destruct (N.to_uint (Z.to_N n)).
Qed.

Lemma digits_leading_zero (n : Z) :
  list_ascii_of_string (Fmt.digits n) !! 0%nat = Some "0"%char →
  Fmt.digits n = "0".
Proof.
  unfold Fmt.digits, NilZero.string_of_uint.
  pose proof (to_uint_normal (Z.to_N n)) as Hnorm.
  destruct (N.to_uint (Z.to_N n)) as [|d| | | | | | | | | ] eqn:E;
    try done.
  intros _.
  assert (d = Decimal.Nil ∨ d ≠ Decimal.Nil) as [->|Hd]
    by (destruct d; first [by left | by right]); [done|].
  rewrite DecimalFacts.unorm_D0 in Hnorm.
  pose proof (DecimalFacts.nb_digits_unorm d Hd) as Hle.
  rewrite Hnorm in Hle. simpl in Hle. lia.
Qed.

Lemma list_ascii_length (s : string) :
  length (list_ascii_of_string s) = String.length s.
Proof. induction s as [|c s IH]; simpl; congruence. Qed.

(** [int_comma] writes a thousands-separated integer. *)
Lemma int_comma_thousands_separated (n : Z) :
  0 ≤ n → thousands_separated n (Fmt.int_comma n).
Proof.
  intros Hn.
  destruct (int_comma_groups_digits n Hn) as [Hstrip _].
  unfold thousands_separated. cbv zeta.
  split.
  { apply (f_equal list_ascii_of_string) in Hstrip.
    rewrite list_ascii_of_string_of_list_ascii in Hstrip.
    rewrite Hstrip. by apply digits_value. }
  unfold Fmt.int_comma, Fmt.thousands in *.
  replace (n <? 0) with false in * by (symmetry; apply Z.ltb_ge; lia).
  rewrite Z.abs_eq in * by lia.
  change ("" +:+ ?s) with s in *.
  rewrite list_ascii_of_string_of_list_ascii.
  set (ds := list_ascii_of_string (Fmt.digits n)).
  assert (Forall (λ c, is_comma c = false) (rev ds)) as Hds.
  { apply Forall_forall. intros c Hc. apply list_elem_of_In, in_rev in Hc.
    pose proof (digits_no_comma n) as Hd. rewrite Forall_forall in Hd.
    apply Hd. by apply list_elem_of_In. }
  destruct (group3_commas _ (rev ds) (le_n _) Hds) as [Hpos Hlast].
  destruct (group3_strip_le _ (rev ds) (le_n _) Hds) as [_ Hlen].
  set (g := Fmt.group3 (rev ds)) in *.
  assert (ds ≠ []) as Hne by apply digits_nonempty.
  assert (length ds ≠ 0)%nat as Hne' by (by destruct ds).
  rewrite length_rev in Hlen.
  assert (length g mod 4 ≠ 0)%nat as Hmod.
  { rewrite Hlen.
    pose proof (Nat.div_mod_eq (length ds - 1) 3) as Hdm.
    pose proof (Nat.mod_upper_bound (length ds - 1) 3 ltac:(lia)) as Hub.
    set (q := ((length ds - 1) / 3)%nat) in *.
    set (r := ((length ds - 1) mod 3)%nat) in *.
    replace (length ds + q)%nat with (S r + q * 4)%nat by lia.
    rewrite Nat.Div0.mod_add, Nat.mod_small by lia. lia. }
  assert (∀ l : list ascii, rev l = reverse l) as rev_reverse
    by (intros l; apply rev_alt).
  assert (∀ l : list ascii, rev l !! 0%nat = last l) as Hhead.
  { intros l. rewrite rev_reverse, <- head_lookup. apply head_reverse. }
  split_and!.
  - intros i c Hc. rewrite rev_reverse in Hc.
    pose proof (lookup_lt_Some _ _ _ Hc) as Hi.
    rewrite length_reverse in Hi.
    rewrite reverse_lookup in Hc by done.
    rewrite (Hpos _ _ Hc), length_rev.
    pose proof (Nat.div_mod_eq (length g - S i) 4) as H1.
    pose proof (Nat.mod_upper_bound (length g - S i) 4 ltac:(lia)) as H2.
    split.
    + intros H3.
      replace (length g - i)%nat
        with (0 + (S ((length g - S i) / 4)) * 4)%nat by lia.
      by rewrite Nat.Div0.mod_add.
    + intros H3.
      pose proof (Nat.div_mod_eq (length g - i) 4) as H4.
      rewrite H3 in H4.
      assert (length g - S i = 3 + ((length g - i) / 4 - 1) * 4)%nat as ->
        by lia.
      by rewrite Nat.Div0.mod_add.
  - intros c Hc. rewrite Hhead, last_lookup in Hc.
    destruct (is_comma c) eqn:Ec; [|done].
    apply (Hpos _ _ Hc) in Ec.
    pose proof (Nat.div_mod_eq (length g) 4) as H1.
    pose proof (Nat.div_mod_eq (pred (length g)) 4) as H2.
    pose proof (Nat.mod_upper_bound (length g) 4 ltac:(lia)) as H3.
    exfalso. apply Hmod.
    replace (length g) with (0 + S (pred (length g) / 4) * 4)%nat by lia.
    by rewrite Nat.Div0.mod_add.
  - rewrite Hhead. fold g. rewrite Hlast, <- Hhead, rev_involutive.
    intros H0. subst g ds. by rewrite (digits_leading_zero n H0).
Qed.

Example thousands_separated_examples :
  thousands_separated 1234 "1,234"
  ∧ ¬ thousands_separated 1234 "1234"
  ∧ ¬ thousands_separated 1234 "12,34"
  ∧ ¬ thousands_separated 234 ",234"
  ∧ ¬ thousands_separated 1234 "01,234"
  ∧ ¬ thousands_separated 1234 "1,235".
Proof.
  split_and!.
  - by apply (int_comma_thousands_separated 1234).
  - intros (_ & H & _). specialize (H 0%nat _ eq_refl) as [_ H].
    by specialize (H eq_refl).
  - intros (_ & H & _). specialize (H 2%nat _ eq_refl) as [H _].
    by specialize (H eq_refl).
  - intros (_ & _ & H & _). by specialize (H _ eq_refl).
  - intros (_ & _ & _ & H). by specialize (H eq_refl).
  - intros (H & _). vm_compute in H. done.
Qed.

(** ** Formatting and calendar on examples *)

Example int_comma_examples :
  Fmt.int_comma 0 = "0" ∧ Fmt.int_comma 999 = "999"
  ∧ Fmt.int_comma 1000 = "1,000" ∧ Fmt.int_comma 1234567 = "1,234,567".
Proof. split_and!; reflexivity. Qed.

Example fixed_examples :
  Fmt.fixed true 2 (-(12345 # 8)) = "-1,543.12"   (* -1543.125, tie to even *)
  ∧ Fmt.fixed true 2 (1999 # 100) = "19.99"
  ∧ Fmt.fixed true 0 (5 # 2) = "2"                (* tie to even *)
  ∧ Fmt.fixed true 0 (7 # 2) = "4"
  ∧ Fmt.fixed false 1 (1000 # 17) = "58.8".
Proof. split_and!; reflexivity. Qed.

Example calendar_examples :
  Calendar.str_date 0 = "1970-01-01"
  ∧ Calendar.str_date 19723 = "2024-01-01"
  ∧ Calendar.str_date 19782 = "2024-02-29"
  ∧ Calendar.str_period_M (19782 * 86400 + 86399) = "2024-02"
  ∧ Calendar.str_period_M (19783 * 86400) = "2024-03".
Proof. split_and!; reflexivity. Qed.

Example take_chars_examples :
  take_chars 3 "abcdef" = "abc" ∧ take_chars 40 "short" = "short".
Proof. split; reflexivity. Qed.

(** ** The script returns on well-typed frames *)

Lemma keyed_is_Ok {K} (key : gmap string cell → result (option K)) ac df :
  Forall (λ r, is_Ok (key r)) (rows df) →
  column_of num_or_missing df ac →
  is_Ok (keyed key ac df).
Proof.
  intros Hkey Hac. unfold keyed. apply mapR_is_Ok.
  apply Forall_forall. intros r Hr.
  destruct (proj1 (Forall_forall _ _) Hkey r Hr) as [k Hk].
  pose proof (proj1 (Forall_forall _ _) Hac r Hr) as Hn. unfold num_or_missing in Hn.
  rewrite Hk. simpl. destruct (r !! ac) as [[?|?|?]| ]; try done; by eexists.
Qed.

Lemma column_of_weaken (P P' : option cell → Prop) df col :
  (∀ c, P c → P' c) → column_of P df col → column_of P' df col.
Proof.
  unfold column_of. intros HP H. eapply Forall_impl; [exact H|].
  intros r. apply HP.
Qed.

Lemma is_str_str_or_missing c : is_str c → str_or_missing c.
Proof. by destruct c as [[?|?|?]| ]. Qed.

Lemma first_present_elem candidates cols c :
  first_present candidates cols = Some c → c ∈ candidates.
Proof.
  unfold first_present. intros H. apply List.find_some in H as [H _].
  by apply list_elem_of_In.
Qed.

Lemma amount_col_not_Month df ac : resolve_amount_col df = Some ac → ac ≠ "Month".
Proof.
  intros H ->. apply first_present_elem in H.
  repeat (apply elem_of_cons in H as [H|H]; [discriminate H|]).
  by apply elem_of_nil in H.
Qed.

Lemma date_key_is_Ok dc r : ts_or_missing (r !! dc) → is_Ok (date_key dc r).
Proof.
  unfold date_key, ts_or_missing.
  destruct (r !! dc) as [[?|?|?]| ]; try done; by eexists.
Qed.

(** What the [Month] assignment does to a frame. *)
Lemma month_of_Ok dc r v :
  month_of dc r = Ok v → v = month_cell dc r ∧ ts_or_missing (r !! dc).
Proof.
  unfold month_of, month_cell, month_name, ts_or_missing.
  destruct (r !! dc) as [[?|?|?]| ]; simpl; intros H; try discriminate H;
    injection H as <-; done.
Qed.

Lemma month_of_typed dc r :
  ts_or_missing (r !! dc) → month_of dc r = Ok (month_cell dc r).
Proof.
  unfold month_of, month_cell, month_name, ts_or_missing.
  by destruct (r !! dc) as [[?|?|?]| ].
Qed.

Lemma set_month_exact dc (l rs : list (gmap string cell)) :
  mapR (λ r : gmap string cell, month_of dc r ≫= λ v, Ok (set_cell "Month" v r)) l
  = Ok rs →
  rs = (λ r : gmap string cell, set_cell "Month" (month_cell dc r) r) <$> l
  ∧ Forall (λ r : gmap string cell, ts_or_missing (r !! dc)) l.
Proof.
  revert rs. induction l as [|r l IH]; intros rs H; simpl in H.
  - injection H as <-. split; [done|constructor].
  - apply bind_Ok in H as (r' & Hr & H). apply bind_Ok in H as (rs' & Hrs & H).
    apply bind_Ok in Hr as (v & Hv & Hr).
    apply month_of_Ok in Hv as [-> Hts].
    destruct (IH _ Hrs) as [-> Hall].
    split; [|by constructor].
    rewrite fmap_cons. congruence.
Qed.

Lemma set_column_month_Ok_inv dc df df' :
  set_column "Month" (month_of dc) df = Ok df' →
  df' = with_month dc df ∧ column_of ts_or_missing df dc.
Proof.
  unfold set_column. intros H. apply bind_Ok in H as (rs & Hrs & H).
  apply set_month_exact in Hrs as [-> Hts]. split; [|done].
  unfold with_month. congruence.
Qed.

Lemma set_column_month_typed dc df :
  column_of ts_or_missing df dc →
  set_column "Month" (month_of dc) df = Ok (with_month dc df).
Proof.
  intros Hts. unfold set_column.
  rewrite (mapR_Ok _ (λ r : gmap string cell, set_cell "Month" (month_cell dc r) r)).
  - reflexivity.
  - intros r Hr. pose proof (proj1 (Forall_forall _ _) Hts r Hr) as Ht.
    by rewrite (month_of_typed dc r Ht).
Qed.

Lemma set_cell_lookup_ne name v (r : gmap string cell) col :
  col ≠ name → set_cell name v r !! col = r !! col.
Proof.
  intros Hne. unfold set_cell. destruct v.
  - by apply lookup_insert_ne.
  - by apply lookup_delete_ne.
Qed.

Lemma set_cell_lookup name v (r : gmap string cell) :
  set_cell name v r !! name = v.
Proof.
  unfold set_cell. destruct v.
  - by apply lookup_insert_eq.
  - by apply lookup_delete_eq.
Qed.

Lemma with_month_typed (P : option cell → Prop) col d df :
  col ≠ "Month" → column_of P df col → column_of P (with_month d df) col.
Proof.
  intros Hcol Hdf. unfold column_of, with_month in *. cbn [rows].
  apply Forall_fmap. eapply Forall_impl; [exact Hdf|].
  intros r Hr. simpl. by rewrite set_cell_lookup_ne.
Qed.

Lemma with_month_strings d df :
  column_of str_or_missing (with_month d df) "Month".
Proof.
  unfold column_of, with_month. cbn [rows].
  apply Forall_fmap, Forall_forall. intros r _. simpl.
  rewrite set_cell_lookup. unfold month_cell.
  by destruct (month_name d r).
Qed.

Lemma monthly_chart_is_Ok df dc ac :
  (∀ d, dc = Some d → column_of ts_or_missing df d) →
  (∀ a, ac = Some a → column_of num_or_missing df a ∧ a ≠ "Month") →
  is_Ok (monthly_chart df dc ac).
Proof.
  intros Hdc Hac. unfold monthly_chart.
  destruct dc as [d|]; [|by eexists]. destruct ac as [a|]; [|by eexists].
  specialize (Hdc d eq_refl). destruct (Hac a eq_refl) as [Hnum Hne].
  rewrite (set_column_month_typed d df Hdc). cbn [mbind result_bind].
  unfold monthly_sales.
  rewrite (keyed_str_typed (with_month d df) "Month" a).
  - by eexists.
  - apply with_month_strings.
  - by apply with_month_typed.
Qed.

(** The top categories of a frame are none exactly when no row has a
    category. *)
Lemma top_categories_typed_nil df c a :
  column_of str_or_missing df c → column_of num_or_missing df a →
  ∃ top, top_categories df c a = Ok top
         ∧ (top = [] ↔ ∀ r, r ∈ rows df → ¬ is_str (r !! c)).
Proof.
  intros Hc Ha. unfold top_categories.
  rewrite (category_sums_typed df c a Hc Ha). cbn [mbind result_bind].
  eexists. split; [reflexivity|].
  set (g := groupby_sum String.compare _).
  assert (head 10 (sort_values false g) = [] ↔ g = []) as ->.
  { pose proof (Permutation_length (sort_values_Permutation false g)) as Hlen.
    unfold head. split.
    - intros Hnil. apply (f_equal length) in Hnil.
      rewrite length_take in Hnil. cbn [length] in Hnil.
      apply length_zero_iff_nil. lia.
    - intros Hg. by rewrite Hg. }
  split.
  - intros Hg r Hr Hstr.
    assert (∃ s, r !! c = Some (Str s)) as [s Hs]
      by (destruct (r !! c) as [[?|?|?]| ]; try done; by eexists).
    assert (s ∈ g.*1) as Hin.
    { apply (groupby_keys _ string_compare_eq). exists (cell_num (r !! a)).
      apply list_elem_of_fmap. exists r. split; [|done]. by rewrite Hs. }
    rewrite Hg in Hin. by apply elem_of_nil in Hin.
  - intros Hno. destruct g as [|[k v] g'] eqn:Eg; [done|]. exfalso.
    assert (k ∈ g.*1) as Hin by (rewrite Eg; apply list_elem_of_here).
    apply (groupby_keys _ string_compare_eq) in Hin as (v' & Hv').
    apply list_elem_of_fmap in Hv' as (r & Heq & Hr).
    apply (Hno r Hr). injection Heq as Hk _.
    by destruct (r !! c) as [[?|?|?]| ].
Qed.

(** The charts on a well-typed frame: [px.bar] is the one call that may
    raise, and it does when the category and amount roles are bound and no
    row has a category. *)
Lemma dashboard_charts_typed df dc ac cc :
  (∀ d, dc = Some d → column_of ts_or_missing df d) →
  (∀ a, ac = Some a → column_of num_or_missing df a ∧ a ≠ "Month") →
  (∀ c, cc = Some c → column_of str_or_missing df c) →
  match cc, ac with
  | Some c, Some _ =>
      (∀ r, r ∈ rows df → ¬ is_str (r !! c)) →
      dashboard_charts df dc ac cc = Raise ValueError
  | _, _ => True
  end
  ∧ (match cc, ac with
     | Some c, Some _ => ∃ r, r ∈ rows df ∧ is_str (r !! c)
     | _, _ => True
     end → is_Ok (dashboard_charts df dc ac cc)).
Proof.
  intros Hdc Hac Hcc. unfold dashboard_charts.
  assert (is_Ok (match dc, ac with
                 | Some d, Some a => Some <$> daily_sales df d a
                 | _, _ => Ok None
                 end)) as [trend ->].
  { destruct dc as [d|]; [|by eexists]. destruct ac as [a|]; [|by eexists].
    unfold daily_sales.
    destruct (keyed_is_Ok (date_key d) a df) as [ps ->].
    - eapply Forall_impl; [exact (Hdc d eq_refl)|]. intros r. apply date_key_is_Ok.
    - apply (Hac a eq_refl).
    - by eexists. }
  assert (is_Ok (match ac with
                 | Some a => Some <$> num_series df a
                 | None => Ok None
                 end)) as [dist ->].
  { destruct ac as [a|]; [|by eexists].
    rewrite (num_series_typed df a (proj1 (Hac a eq_refl))). by eexists. }
  destruct (monthly_chart_is_Ok df dc ac Hdc Hac) as [[df' monthly] ->].
  destruct cc as [c|], ac as [a|];
    try (split; [done|]; intros _; by eexists).
  destruct (top_categories_typed_nil df c a (Hcc c eq_refl) (proj1 (Hac a eq_refl)))
    as (top & -> & Hnil).
  cbn [mbind result_bind]. split.
  - intros Hno. apply Hnil in Hno as ->. reflexivity.
  - intros (r & Hr & Hstr). destruct top as [|e top].
    + exfalso. by apply (proj1 Hnil eq_refl r Hr).
    + by eexists.
Qed.

Lemma resolve_amount_col_columns df df' :
  columns df' = columns df → resolve_amount_col df' = resolve_amount_col df.
Proof. unfold resolve_amount_col. by intros ->. Qed.

Lemma resolve_quantity_col_columns df df' :
  columns df' = columns df → resolve_quantity_col df' = resolve_quantity_col df.
Proof. unfold resolve_quantity_col. by intros ->. Qed.

(** On a well-typed frame the body runs to its end exactly when the two
    calls that raise on missing data are given data: the date picker needs
    a dated row in the loaded frame, and the top-categories chart, when the
    category and amount roles are bound, needs a row left by the filters. *)
Theorem main_is_Ok csv_field now w df :
  well_typed df →
  (is_Ok (main csv_field now w df) ↔
   date_input_call df (resolve_date_col df) = Ok tt
   ∧ ∀ flt, sidebar_filters w df = Ok flt →
       is_Some (resolve_category_col df) → is_Some (resolve_amount_col df) →
       rows (flt_df flt) ≠ []).
Proof.
  intros (Hdate & Hcat & Hamount & Hquantity).
  destruct (sidebar_filters_is_Ok w df Hdate Hcat) as [flt Hflt].
  pose proof (sidebar_filters_Ok_inv _ _ _ Hflt)
    as (df1 & fi1 & fi2 & H1 & H2 & Hdc & Hcc & _).
  pose proof (date_filter_Ok_inv _ _ _ _ _ _ H1) as (Hc1 & Hs1 & _).
  pose proof (category_filter_Ok_inv _ _ _ _ _ _ _ H2) as (Hc2 & Hs2 & _).
  assert (columns (flt_df flt) = columns df) as Hcols by congruence.
  assert (rows (flt_df flt) `sublist_of` rows df) as Hsub by (by etrans).
  destruct (key_metrics_is_Ok (flt_df flt)) as [m Hm].
  { intros ac Hac. rewrite (resolve_amount_col_columns _ _ Hcols) in Hac.
    eapply column_of_sublist; eauto. }
  { intros qc Hqc. rewrite (resolve_quantity_col_columns _ _ Hcols) in Hqc.
    eapply column_of_sublist; eauto. }
  pose proof (key_metrics_Ok_inv _ _ Hm) as (_ & _ & _ & _ & _ & Hac & _).
  rewrite (resolve_amount_col_columns _ _ Hcols) in Hac.
  rewrite (resolve_category_col_columns _ _ Hc1) in Hcc.
  destruct (dashboard_charts_typed (flt_df flt) (flt_date_col flt) (amount_col m)
              (flt_category_col flt)) as [Hraise Hok].
  { intros d Hd. rewrite Hdc in Hd. eapply column_of_sublist; eauto. }
  { intros a Ha. rewrite Hac in Ha. split.
    - eapply column_of_sublist; eauto.
    - by eapply amount_col_not_Month. }
  { intros c Hc. rewrite Hcc in Hc.
    eapply column_of_sublist; [exact Hsub|].
    eapply column_of_weaken; [apply is_str_str_or_missing|]. eauto. }
  rewrite main_date_input.
  destruct (date_input_call df (resolve_date_col df)) as [[]|e] eqn:Hpick;
    [|split; [intros [o Ho]; discriminate Ho | intros [Hp _]; discriminate Hp]].
  cbn [mbind result_bind]. rewrite Hflt. cbn [mbind result_bind].
  rewrite Hm. cbn [mbind result_bind].
  rewrite Hcc, Hac in Hraise, Hok. rewrite Hcc, Hac.
  destruct (resolve_category_col df) as [c|] eqn:Ec,
           (resolve_amount_col df) as [a|] eqn:Ea.
  2-4: split;
    [ intros _; split; [done|]; intros flt' _ Hc' Ha';
      first [by destruct Hc' | by destruct Ha']
    | intros _; destruct (Hok I) as [ch ->]; cbn [mbind result_bind]; by eexists ].
  assert (column_of is_str (flt_df flt) c) as Hstr
    by (eapply column_of_sublist; [exact Hsub|]; eauto).
  split.
  - intros [o Ho]. split; [done|]. intros flt' Hflt' _ _ Hnil.
    assert (flt' = flt) as -> by congruence.
    assert (∀ r, r ∈ rows (flt_df flt) → ¬ is_str (r !! c)) as Hno
      by (intros r Hr; rewrite Hnil in Hr; by apply elem_of_nil in Hr).
    rewrite (Hraise Hno) in Ho. discriminate Ho.
  - intros [_ Hne]. specialize (Hne flt eq_refl (mk_is_Some _ _ eq_refl)
                                  (mk_is_Some _ _ eq_refl)).
    unfold column_of in Hstr.
    destruct (rows (flt_df flt)) as [|r rs]; [done|].
    destruct Hok as [ch ->].
    { exists r. split; [apply list_elem_of_here|].
      by apply Forall_cons in Hstr as [? _]. }
    cbn [mbind result_bind]. by eexists.
Qed.

(** ** Key metrics: the scenario and the order count *)

Lemma key_metrics_total_orders df m :
  key_metrics df = Ok m →
  metrics_data m !! "total_orders"
  = Some (Fmt.int_comma (Z.of_nat (length (rows df)))).
Proof.
  intros Hm.
  apply key_metrics_Ok_inv in Hm as (tiles1 & md1 & tiles2 & _ & Hq & _).
  unfold quantity_metrics in Hq.
  destruct (resolve_quantity_col _) as [qc|].
  - inv_bind Hq. injection Hq as _ <-.
    rewrite lookup_insert_ne by done. apply lookup_insert_eq.
  - injection Hq as _ <-.
    rewrite lookup_insert_ne by done. apply lookup_insert_eq.
Qed.

(** C6: a frame of three rows with amounts 10, 20 and 30 and no quantity
    column gives total sales "$60.00", average order value "$20.00", total
    orders "3" and total units "N/A"; and in every run of the script the
    total-orders entry is the number of rows of the filtered frame written
    as a thousands-separated integer: the decimal digits of the count, not
    beginning with 0 unless the count is 0, with a comma before every group
    of three digits counted from the right and nowhere else.  A frame of
    1,234,567 rows has the entry "1,234,567". *)
Theorem metrics_scenario_and_order_count :
  (∀ (df : DataFrame) (ac : string) (x y z : Q),
     resolve_amount_col df = Some ac →
     resolve_quantity_col df = None →
     num_series df ac = Ok [Some x; Some y; Some z] →
     (x == 10)%Q → (y == 20)%Q → (z == 30)%Q →
     ∃ m, key_metrics df = Ok m
          ∧ metrics_data m !! "total_sales" = Some "$60.00"
          ∧ metrics_data m !! "avg_order_value" = Some "$20.00"
          ∧ metrics_data m !! "total_orders" = Some "3"
          ∧ metrics_data m !! "total_units" = Some "N/A")
  ∧ (∀ csv_field now w df o,
       main csv_field now w df = Ok o →
       ∃ s, metrics_data (out_metrics o) !! "total_orders" = Some s
            ∧ s = Fmt.int_comma (Z.of_nat (length (rows (flt_df (out_filters o)))))
            ∧ thousands_separated
                (Z.of_nat (length (rows (flt_df (out_filters o))))) s)
  ∧ (∀ df m,
       key_metrics df = Ok m →
       Z.of_nat (length (rows df)) = 1234567 →
       metrics_data m !! "total_orders" = Some "1,234,567").
Proof.
  split_and!.
  - intros df ac x y z Hac Hqc Hxs Hx Hy Hz.
    pose proof (num_series_length _ _ _ Hxs) as Hlen. simpl in Hlen.
    unfold key_metrics, amount_metrics, quantity_metrics.
    rewrite Hac, Hqc, Hxs. cbn [mbind result_bind]. rewrite <- Hlen.
    eexists. split; [reflexivity|]. cbn [metrics_data].
    rewrite !(lookup_insert_ne _ "total_units") by done.
    rewrite !(lookup_insert_ne _ "total_orders") by done.
    rewrite !lookup_insert_eq.
    rewrite !(lookup_insert_ne _ "avg_order_value") by done.
    rewrite !lookup_insert_eq.
    assert (series_sum [Some x; Some y; Some z] == 60)%Q as Hsum.
    { unfold series_sum. simpl. rewrite Hx, Hy, Hz. reflexivity. }
    assert (∃ q, series_mean [Some x; Some y; Some z] = Fin q ∧ (q == 20)%Q)
      as (q & -> & Hq).
    { unfold series_mean. simpl. eexists. split; [reflexivity|].
      rewrite Hx, Hy, Hz. reflexivity. }
    unfold format_float.
    rewrite (fixed_Qeq _ _ _ _ Hsum), (fixed_Qeq _ _ _ _ Hq).
    repeat split; vm_compute; reflexivity.
  - intros csv_field now w df o H.
    apply main_Ok_inv in H as (_ & Hm & _).
    eexists. split; [by apply key_metrics_total_orders|].
    split; [done|]. apply int_comma_thousands_separated. lia.
  - intros df m Hm Hlen.
    rewrite (key_metrics_total_orders _ _ Hm), Hlen. reflexivity.
Qed.

(** ** float64 rounding *)



























(** ** Reading a printed number back *)









(** ** The detail table *)





(** * Runs on the sample inputs *)

(** Both endpoints are included: the two orders of [two_orders] fall on the
    midnights that bound the whole range, and both stay. *)
Example date_filter_keeps_endpoints :
  ∃ flt, sidebar_filters whole_range two_orders = Ok flt ∧ flt_df flt = two_orders.
Proof. eexists. split; [vm_compute; reflexivity|]. vm_compute. reflexivity. Qed.

(** The upper endpoint is the midnight that begins its day: an order at noon
    of the last selected day is outside the range. *)
Example date_filter_noon_of_last_day :
  ∃ flt, sidebar_filters whole_range noon_order = Ok flt ∧ rows (flt_df flt) = [].
Proof. eexists. split; [vm_compute; reflexivity|]. reflexivity. Qed.


Lemma two_orders_dates : column_of ts_or_missing two_orders "Date".
Proof. repeat constructor. Defined.



Lemma date_filter_end_of_range_witness :
  date_filter whole_range two_orders (resolve_date_col two_orders) ∅
  = Ok ({| columns := columns two_orders;
           rows := filter (stamped_between "Date" (86400 * 19723) (86400 * 19732))
                          (rows two_orders) |},
        <["date_range" := Calendar.str_date 19723 +:+ " to "
                          +:+ Calendar.str_date 19732]> ∅)
  ∧ date_filter one_endpoint two_orders (resolve_date_col two_orders) ∅
    = Ok (two_orders, <["date_range" := "All Dates"]> ∅)
  ∧ ∃ df' fi',
      date_filter (untouched two_orders) two_orders (resolve_date_col two_orders) ∅
      = Ok (df', fi')
      ∧ ∀ r, r ∈ rows two_orders → r !! "Date" = Some (Ts (19732 * 86400)) →
             (r ∈ rows df' ↔ (19732 * 86400) mod 86400 = 0).
Proof.
  destruct date_filter_end_of_range as (Htwo & Hone & Hdefault & _).
  split_and!.
  - exact (proj1 (Htwo whole_range two_orders "Date" ∅ 19723 19732
                    eq_refl two_orders_dates eq_refl)).
  - exact (Hone one_endpoint two_orders "Date" ∅ 19723 eq_refl eq_refl).
  - destruct (Hdefault two_orders "Date" ∅ (19723 * 86400) (19732 * 86400)
                eq_refl two_orders_dates eq_refl)
      as (df' & fi' & Hrun & _ & Hlast).
    exists df', fi'. split; [exact Hrun | exact Hlast].
Defined.

Lemma filtering_is_monotonic_witness :
  ∃ flt, sidebar_filters quiet_days two_orders = Ok flt
         ∧ (length (rows (flt_df flt)) ≤ length (rows two_orders))%nat.
Proof.
  destruct (filtering_is_monotonic quiet_days two_orders) as [Htotal Hprop].
  destruct Htotal as [flt Hflt].
  - intros dc [= <-]. exact two_orders_dates.
  - intros cc Hcc. discriminate Hcc.
  - exists flt. split; [exact Hflt|].
    exact (proj1 (proj2 (proj2 (Hprop flt Hflt)))).
Defined.

Lemma metrics_scenario_and_order_count_witness :
  (∃ m, key_metrics three_amounts = Ok m
        ∧ metrics_data m !! "total_sales" = Some "$60.00"
        ∧ metrics_data m !! "avg_order_value" = Some "$20.00"
        ∧ metrics_data m !! "total_orders" = Some "3"
        ∧ metrics_data m !! "total_units" = Some "N/A")
  ∧ (∃ o s, main sample_csv_field sample_clock whole_range two_orders = Ok o
            ∧ metrics_data (out_metrics o) !! "total_orders" = Some s
            ∧ thousands_separated
                (Z.of_nat (length (rows (flt_df (out_filters o))))) s).
Proof.
  destruct metrics_scenario_and_order_count as (Hscenario & Hcount & _). split.
  - apply (Hscenario three_amounts "Amount" 10 20 30)%Q; reflexivity.
  - assert (∃ o, main sample_csv_field sample_clock whole_range two_orders = Ok o)
      as [o Ho] by (eexists; vm_compute; reflexivity).
    destruct (Hcount sample_csv_field sample_clock whole_range two_orders o Ho)
      as (s & Hs & _ & Hsep).
    exists o, s. auto.
Defined.


(** C2 fails on the code: a date range between the two orders leaves no
    row, and the script runs to its end and shows "$nan". *)
Lemma empty_selection_no_error_counterexample :
  ∃ o, main sample_csv_field sample_clock quiet_days two_orders = Ok o
       ∧ rows (flt_df (out_filters o)) = []
       ∧ amount_col (out_metrics o) = Some "Amount"
       ∧ tiles (out_metrics o)
         = [("Total Sales", "$0.00"); ("Avg Order Value", "$nan"); ("Total Orders", "0")]
       ∧ metrics_data (out_metrics o) !! "avg_order_value" = Some "$nan".
Proof.
  eexists. split; [vm_compute; reflexivity|].
  split_and!; vm_compute; reflexivity.
Qed.

Lemma empty_selection_mean_is_nan_witness :
  ∃ o, main sample_csv_field sample_clock quiet_days two_orders = Ok o
       ∧ metrics_data (out_metrics o) !! "avg_order_value" = Some "$nan".
Proof.
  assert (∃ flt, sidebar_filters quiet_days two_orders = Ok flt
                 ∧ rows (flt_df flt) = []
                 ∧ resolve_amount_col (flt_df flt) = Some "Amount"
                 ∧ flt_category_col flt = None)
    as (flt & Hflt & Hrows & Hac & Hcc).
  { eexists. split; [vm_compute; reflexivity|]. split_and!; reflexivity. }
  destruct (empty_selection_mean_is_nan sample_csv_field sample_clock
              quiet_days two_orders flt "Amount" eq_refl Hflt Hrows Hac)
    as (m & _ & Havg & _ & _ & Hrun).
  rewrite Hcc in Hrun. destruct Hrun as (o & Ho & _ & <-).
  exists o. auto.
Defined.

(** C3 fails on the code: no quantity column, and a total-units entry. *)
Lemma total_units_entry_counterexample :
  resolve_quantity_col three_amounts = None
  ∧ ∃ m, key_metrics three_amounts = Ok m
         ∧ metrics_data m !! "total_units" = Some "N/A".
Proof.
  split; [reflexivity|].
  eexists. split; [vm_compute; reflexivity|]. vm_compute. reflexivity.
Qed.

Lemma metrics_entries_follow_roles_witness :
  ∃ m, key_metrics three_amounts = Ok m
       ∧ is_Some (metrics_data m !! "total_sales")
       ∧ metrics_data m !! "total_units" = Some "N/A".
Proof.
  destruct (metrics_entries_follow_roles three_amounts) as [Htotal Hprop].
  destruct Htotal as [m Hm].
  - intros ac [= <-]. repeat constructor.
  - intros qc Hqc. discriminate Hqc.
  - exists m. split; [exact Hm|].
    destruct (Hprop m Hm) as (Hts & _ & _ & _ & Hna & _).
    split; [apply Hts; by eexists|]. apply Hna. reflexivity.
Defined.



(** The percentages are those of float64 arithmetic: of a subtotal of
    2000 the share of 1993 is printed as 99.7%, where the exact quotient
    99.65 would be printed as 99.6%; the float64 nearest to 2.675 is
    printed as 2.67; and 0.1 + 0.2 is 0.3000000000000000444.  Sums of
    revenues of both signs can cancel in float64: a revenue of 2^53, one of
    1 and a refund of 2^53 have the subtotal 0, and every row shows 0.0%. *)
Example percentages_are_float64 :
  category_data [("B", 1993%Q); ("A", 7%Q)]
  = [ [TStr "Rank"; TStr "Category"; TStr "Revenue"; TStr "% of Total"];
      [TStr "1"; TStr "B"; TStr "$1,993.00"; TStr "99.7%"];
      [TStr "2"; TStr "A"; TStr "$7.00"; TStr "0.4%"] ]
  ∧ Fmt.fixed false 1 (1993 / 2000 * 100) = "99.6"
  ∧ Fmt.fixed true 2 (F64.round (2675 # 1000)) = "2.67"
  ∧ (F64.add (F64.round (1 # 10)) (F64.round (2 # 10))
     == 5404319552844596 # 18014398509481984)%Q
  ∧ category_data [("A", 9007199254740992%Q); ("B", 1%Q);
                   ("C", (-9007199254740992)%Q)]
    = [ [TStr "Rank"; TStr "Category"; TStr "Revenue"; TStr "% of Total"];
        [TStr "1"; TStr "A"; TStr "$9,007,199,254,740,992.00"; TStr "0.0%"];
        [TStr "2"; TStr "B"; TStr "$1.00"; TStr "0.0%"];
        [TStr "3"; TStr "C"; TStr "$-9,007,199,254,740,992.00"; TStr "0.0%"] ].
Proof. split_and!; vm_compute; reflexivity. Qed.

(** C9 fails on the code: without a date column the trend chart is not
    drawn, yet its heading is printed, on the page it shares with the
    top-categories heading. *)
Lemma report_chart_heading_counterexample :
  ∃ o els, main sample_csv_field sample_clock no_widgets three_amounts = Ok o
           ∧ out_pdf o = Ok els
           ∧ flt_date_col (out_filters o) = None
           ∧ Paragraph (Lit "Sales Trend Analysis") SectionHeading ∈ els
           ∧ pages els !! 3%nat
             = Some [ Paragraph (Lit "Sales Trend Analysis") SectionHeading;
                      Spacer (1 # 5);
                      Paragraph (Lit "Top Categories Performance") SectionHeading;
                      Spacer (1 # 5) ].
Proof.
  eexists _, _. split; [vm_compute; reflexivity|].
  split; [vm_compute; reflexivity|].
  split; [reflexivity|]. split; [|reflexivity].
  do 16 apply list_elem_of_further. apply list_elem_of_here.
Qed.

Lemma report_layout_witness :
  ∃ o els, main sample_csv_field sample_clock no_widgets three_amounts = Ok o
           ∧ out_pdf o = Ok els
           ∧ kind_of <$> images els = [Distribution]
           ∧ length els = 32%nat.
Proof.
  assert (∃ o els, main sample_csv_field sample_clock no_widgets three_amounts = Ok o
                   ∧ out_pdf o = Ok els) as (o & els & Ho & Hels).
  { eexists _, _. split; vm_compute; reflexivity. }
  exists o, els. split; [exact Ho|]. split; [exact Hels|].
  destruct (report_layout sample_csv_field sample_clock no_widgets three_amounts
              o els Ho Hels) as (_ & _ & Himages & _ & Hlength).
  assert (Ok o = main sample_csv_field sample_clock no_widgets three_amounts) as Ho'
    by (symmetry; exact Ho).
  vm_compute in Ho'. injection Ho' as ->.
  split; [exact Himages|exact Hlength].
Defined.


(** With a tie at the cut the two computations do not even keep the same
    categories: of eleven tied ones the descending sort keeps the first ten,
    the ascending sort the last ten. *)
Example top_ten_tie_at_the_cut :
  (λ top : list (string * Q), top.*1)
    <$> top_categories eleven_tied "Category" "Amount"
  = Ok ["C01"; "C02"; "C03"; "C04"; "C05"; "C06"; "C07"; "C08"; "C09"; "C10"]
  ∧ (λ bars : list (string * Q), bars.*1)
      <$> top_categories_chart_data eleven_tied "Category" "Amount"
    = Ok ["C02"; "C03"; "C04"; "C05"; "C06"; "C07"; "C08"; "C09"; "C10"; "C11"].
Proof. split; vm_compute; reflexivity. Qed.


(** * Further properties of the scripts *)

(** ** Column roles *)

Lemma first_present_Some (candidates cols : list string) (c : string) :
  first_present candidates cols = Some c ↔
  ∃ before after, candidates = before ++ c :: after
                  ∧ c ∈ cols
                  ∧ Forall (λ x, x ∉ cols) before.
Proof.
  unfold first_present. induction candidates as [|x xs IH]; simpl.
  - split; [discriminate|]. intros (before & after & H & _).
    by destruct before.
  - case_bool_decide as Hx.
    + split.
      * intros [= <-]. exists [], xs. by repeat split.
      * intros (before & after & Heq & Hc & Hbefore).
        destruct before as [|y before]; simplify_eq/=; [done|].
        by apply Forall_cons in Hbefore as [? _].
    + rewrite IH. split.
      * intros (before & after & -> & Hc & Hbefore).
        exists (x :: before), after. repeat split; [done|]. by constructor.
      * intros (before & after & Heq & Hc & Hbefore).
        destruct before as [|y before]; simplify_eq/=; [done|].
        apply Forall_cons in Hbefore as [_ Hbefore]. eauto.
Qed.

Lemma first_present_None (candidates cols : list string) :
  first_present candidates cols = None ↔ Forall (λ x, x ∉ cols) candidates.
Proof.
  unfold first_present. induction candidates as [|x xs IH]; simpl.
  - split; [constructor|done].
  - case_bool_decide as Hx.
    + split; [discriminate|]. intros H. by apply Forall_cons in H as [? _].
    + rewrite IH. split; [by constructor|]. intros H. by apply Forall_cons in H as [_ ?].
Qed.

Lemma resolve_date_col_first_present df :
  resolve_date_col df = first_present ["Date"; "Order Date"] (columns df).
Proof.
  unfold resolve_date_col, first_present. simpl.
  by repeat case_bool_decide.
Qed.

(** X1: a role is bound to the first candidate name, in the order of the
    candidate list, that is a column of the frame, and is unbound exactly
    when no candidate is a column; the date role, which the script resolves
    with a conditional expression, follows the same rule on Date and Order
    Date. *)
Theorem roles_take_first_candidate (df : DataFrame) :
  (∀ candidates c,
     first_present candidates (columns df) = Some c ↔
     ∃ before after, candidates = before ++ c :: after
                     ∧ c ∈ columns df
                     ∧ Forall (λ x, x ∉ columns df) before)
  ∧ (∀ candidates,
       first_present candidates (columns df) = None ↔
       Forall (λ x, x ∉ columns df) candidates)
  ∧ resolve_date_col df = first_present ["Date"; "Order Date"] (columns df).
Proof.
  split; [intros; apply first_present_Some|].
  split; [intros; apply first_present_None|].
  apply resolve_date_col_first_present.
Qed.

Lemma first_present_app_other (candidates cols : list string) (extra : string) :
  extra ∉ candidates →
  first_present candidates (cols ++ [extra]) = first_present candidates cols.
Proof.
  unfold first_present. induction candidates as [|x xs IH]; simpl; [done|].
  intros Hextra. apply not_elem_of_cons in Hextra as [Hne Hextra].
  rewrite IH by done.
  assert (bool_decide (x ∈ cols ++ [extra]) = bool_decide (x ∈ cols)) as ->; [|done].
  apply bool_decide_ext. rewrite elem_of_app, list_elem_of_singleton.
  split; [intros [?|?]; [done|congruence]|by left].
Qed.


(** ** The frame after the charts *)

Lemma monthly_chart_frame df dc ac df' m :
  monthly_chart df dc ac = Ok (df', m) →
  match dc, ac with
  | Some d, Some a =>
      df' = with_month d df ∧ column_of ts_or_missing df d
      ∧ ∃ bars, m = Some bars ∧ monthly_sales (with_month d df) a = Ok bars
  | _, _ => df' = df ∧ m = None
  end.
Proof.
  unfold monthly_chart. intros H.
  destruct dc as [d|], ac as [a|]; try (split; congruence).
  apply bind_Ok in H as (df1 & Hset & H). apply bind_Ok in H as (bars & Hbars & H).
  apply set_column_month_Ok_inv in Hset as [-> Hts].
  split; [congruence|]. split; [done|]. exists bars. split; congruence.
Qed.

Lemma px_bar_Ok_inv top u : px_bar top = Ok u → top ≠ [].
Proof. by destruct top. Qed.

Lemma dashboard_charts_Ok_inv df dc ac cc ch :
  dashboard_charts df dc ac cc = Ok ch →
  (match dc, ac with
   | Some d, Some a => Some <$> daily_sales df d a
   | _, _ => Ok None
   end) = Ok (fig_trend ch)
  ∧ (match cc, ac with
     | Some c, Some a =>
         ∃ top, top_categories df c a = Ok top ∧ top ≠ []
                ∧ fig_categories ch = Some top
     | _, _ => fig_categories ch = None
     end)
  ∧ (match ac with
     | Some a => Some <$> num_series df a
     | None => Ok None
     end) = Ok (fig_dist ch)
  ∧ monthly_chart df dc ac = Ok (ch_df ch, fig_monthly ch).
Proof.
  unfold dashboard_charts. intros H.
  apply bind_Ok in H as (trend & Htrend & H).
  apply bind_Ok in H as (cats & Hcats & H).
  apply bind_Ok in H as (dist & Hdist & H).
  apply bind_Ok in H as ([df' monthly] & Hmonthly & H).
  injection H as <-. cbn [fig_trend fig_categories fig_dist fig_monthly ch_df].
  split_and!; try done.
  destruct cc as [c|], ac as [a|]; try by simplify_eq.
  apply bind_Ok in Hcats as (top & Htop & Hcats).
  apply bind_Ok in Hcats as (u & Hbar & Hcats).
  exists top. split_and!; [done | by eapply px_bar_Ok_inv | by simplify_eq].
Qed.

Lemma role_candidate_not_Month (candidates cols : list string) (c : string) :
  "Month" ∉ candidates → first_present candidates cols = Some c → c ≠ "Month".
Proof.
  intros Hno H ->. apply Hno. by eapply first_present_elem.
Qed.

Lemma columns_with_month dc df candidates :
  "Month" ∉ candidates →
  first_present candidates (columns (with_month dc df))
  = first_present candidates (columns df).
Proof.
  intros Hno. unfold with_month. simpl.
  case_bool_decide; [done|]. by apply first_present_app_other.
Qed.

(** The candidate lists do not contain the name Month. *)
Ltac not_month :=
  let H := fresh in
  intros H;
  repeat (apply elem_of_cons in H as [H|H]; [discriminate H|]);
  by apply elem_of_nil in H.

Lemma main_frames csv_field now w df o :
  main csv_field now w df = Ok o →
  columns (flt_df (out_filters o)) = columns df
  ∧ rows (flt_df (out_filters o)) `sublist_of` rows df
  ∧ flt_date_col (out_filters o) = resolve_date_col df
  ∧ flt_category_col (out_filters o) = resolve_category_col df
  ∧ amount_col (out_metrics o) = resolve_amount_col df
  ∧ quantity_col (out_metrics o) = resolve_quantity_col df
  ∧ match resolve_date_col df, resolve_amount_col df with
    | Some d, Some a =>
        ch_df (out_charts o) = with_month d (flt_df (out_filters o))
        ∧ column_of ts_or_missing (flt_df (out_filters o)) d
    | _, _ => ch_df (out_charts o) = flt_df (out_filters o)
    end.
Proof.
  intros H. apply main_Ok_inv in H as (Hflt & Hm & Hch & _).
  pose proof (sidebar_filters_Ok_inv _ _ _ Hflt)
    as (df1 & fi1 & fi2 & H1 & H2 & Hdc & Hcc & _).
  pose proof (date_filter_Ok_inv _ _ _ _ _ _ H1) as (Hc1 & Hs1 & _).
  pose proof (category_filter_Ok_inv _ _ _ _ _ _ _ H2) as (Hc2 & Hs2 & _).
  assert (columns (flt_df (out_filters o)) = columns df) as Hcols by congruence.
  pose proof (key_metrics_Ok_inv _ _ Hm) as (_ & _ & _ & _ & _ & Hac & Hqc & _).
  rewrite (resolve_amount_col_columns _ _ Hcols) in Hac.
  rewrite (resolve_quantity_col_columns _ _ Hcols) in Hqc.
  rewrite (resolve_category_col_columns _ _ Hc1) in Hcc.
  split; [done|]. split; [by etrans|]. split_and!; try done.
  apply dashboard_charts_Ok_inv in Hch as (_ & _ & _ & Hmonthly).
  apply monthly_chart_frame in Hmonthly. rewrite Hdc, Hac in Hmonthly.
  destruct (resolve_date_col df), (resolve_amount_col df); tauto.
Qed.

(** X2: the four roles are the same wherever the script resolves or uses
    them: on the loaded frame, on the filtered frame (where the script
    resolves category, amount and quantity), and on the frame with the
    [Month] column that the table, the CSV and the PDF functions receive
    together with the role names. *)
Theorem roles_are_stable csv_field now w df o :
  main csv_field now w df = Ok o →
  let roles (f : DataFrame) :=
    (resolve_date_col f, resolve_category_col f,
     resolve_amount_col f, resolve_quantity_col f) in
  roles (flt_df (out_filters o)) = roles df
  ∧ roles (ch_df (out_charts o)) = roles df
  ∧ (flt_date_col (out_filters o), flt_category_col (out_filters o),
     amount_col (out_metrics o), quantity_col (out_metrics o)) = roles df.
Proof.
  intros H roles.
  apply main_frames in H as (Hcols & _ & Hdc & Hcc & Hac & Hqc & Hfinal).
  assert (roles (flt_df (out_filters o)) = roles df) as Hflt.
  { unfold roles. rewrite !resolve_date_col_first_present.
    unfold resolve_category_col, resolve_amount_col, resolve_quantity_col.
    by rewrite Hcols. }
  split; [done|]. split; [|by rewrite Hdc, Hcc, Hac, Hqc].
  rewrite <- Hflt.
  destruct (resolve_date_col df) as [d|], (resolve_amount_col df) as [a|];
    try (by rewrite Hfinal).
  destruct Hfinal as [-> _].
  unfold roles. rewrite !resolve_date_col_first_present.
  unfold resolve_category_col, resolve_amount_col, resolve_quantity_col.
  rewrite !columns_with_month by not_month. done.
Qed.

(** ** The PDF charts are drawn from the dashboard's data *)

Lemma mapR_fmap {A B C} (f : B → result C) (g : A → B) (l : list A) :
  mapR f (g <$> l) = mapR (λ x, f (g x)) l.
Proof.
  induction l as [|x l IH]; [done|].
  rewrite fmap_cons. cbn [mapR]. by rewrite IH.
Qed.

Lemma mapR_ext {A B} (f g : A → result B) (l : list A) :
  (∀ x, x ∈ l → f x = g x) → mapR f l = mapR g l.
Proof.
  induction l as [|x l IH]; intros Hfg; simpl; [done|].
  rewrite Hfg by apply list_elem_of_here.
  rewrite IH; [done|]. intros y Hy. apply Hfg. by apply list_elem_of_further.
Qed.

Lemma keyed_with_month {K} (key : gmap string cell → result (option K)) ac d df :
  ac ≠ "Month" →
  (∀ r v, key (set_cell "Month" v r) = key r) →
  keyed key ac (with_month d df) = keyed key ac df.
Proof.
  intros Hac Hkey. unfold keyed, with_month. cbn [rows].
  rewrite mapR_fmap. apply mapR_ext. intros r _.
  by rewrite Hkey, set_cell_lookup_ne.
Qed.

Lemma daily_sales_with_month dc ac d df :
  dc ≠ "Month" → ac ≠ "Month" →
  daily_sales (with_month d df) dc ac = daily_sales df dc ac.
Proof.
  intros Hdc Hac. unfold daily_sales. rewrite keyed_with_month; [done..|].
  intros r v. unfold date_key. by rewrite set_cell_lookup_ne.
Qed.

Lemma category_sums_with_month cc ac d df :
  cc ≠ "Month" → ac ≠ "Month" →
  category_sums (with_month d df) cc ac = category_sums df cc ac.
Proof.
  intros Hcc Hac. unfold category_sums. rewrite keyed_with_month; [done..|].
  intros r v. by rewrite set_cell_lookup_ne.
Qed.

Lemma num_series_with_month ac d df :
  ac ≠ "Month" → num_series (with_month d df) ac = num_series df ac.
Proof.
  intros Hac. unfold num_series, with_month. cbn [rows].
  rewrite mapR_fmap. apply mapR_ext. intros r _. by rewrite set_cell_lookup_ne.
Qed.

Lemma month_cell_set_cell d v (r : gmap string cell) :
  d ≠ "Month" → month_cell d (set_cell "Month" v r) = month_cell d r.
Proof.
  intros Hd. unfold month_cell, month_name. by rewrite set_cell_lookup_ne.
Qed.

Lemma set_cell_twice name v v' (r : gmap string cell) :
  set_cell name v (set_cell name v' r) = set_cell name v r.
Proof.
  apply map_eq. intros k. destruct (decide (k = name)) as [->|Hk].
  - by rewrite !set_cell_lookup.
  - by rewrite !set_cell_lookup_ne.
Qed.

(** Assigning [Month] a second time changes nothing. *)
Lemma with_month_idempotent d df :
  d ≠ "Month" → with_month d (with_month d df) = with_month d df.
Proof.
  intros Hd. unfold with_month. cbn [rows columns]. f_equal.
  - destruct (bool_decide ("Month" ∈ columns df)) eqn:Hin; [by rewrite Hin|].
    rewrite bool_decide_eq_true_2; [done|].
    apply elem_of_app. right. apply list_elem_of_here.
  - rewrite <- list_fmap_compose. apply list_fmap_ext. intros i r _. simpl.
    rewrite month_cell_set_cell by done. apply set_cell_twice.
Qed.

Lemma create_monthly_chart_with_month d a df :
  d ≠ "Month" → column_of ts_or_missing df d →
  create_monthly_chart (with_month d df) d a
  = BarPlot <$> monthly_sales (with_month d df) a.
Proof.
  intros Hd Hts. unfold create_monthly_chart.
  rewrite set_column_month_typed by (by apply with_month_typed).
  by rewrite with_month_idempotent.
Qed.

Lemma top_categories_Ok_inv df cc ac top :
  top_categories df cc ac = Ok top →
  ∃ g, category_sums df cc ac = Ok g ∧ top = head 10 (sort_values false g).
Proof.
  unfold top_categories. intros H. apply bind_Ok in H as (g & Hg & H).
  exists g. split; [done|]. congruence.
Qed.

Lemma insights_page_from_dashboard df dc ac cc ch :
  dashboard_charts df dc ac cc = Ok ch →
  (∀ a, ac = Some a → a ≠ "Month") →
  (∀ c, cc = Some c → c ≠ "Month") →
  insights_page (ch_df ch) cc ac
  = Ok ([ Paragraph (Lit "Top 10 Categories - Detailed Breakdown") SectionHeading;
          Spacer (1 # 5) ]
        ++ match fig_categories ch with
           | Some top => [Table (category_data top) [3 # 5; 3; 9 # 5; 11 # 10]%Q]
           | None => []
           end).
Proof.
  intros Hch Hac Hcc.
  apply dashboard_charts_Ok_inv in Hch as (_ & Hcats & _ & Hmonthly).
  apply monthly_chart_frame in Hmonthly.
  unfold insights_page.
  destruct cc as [c|], ac as [a|];
    try (rewrite Hcats; reflexivity).
  destruct Hcats as (top & Htop & _ & ->).
  specialize (Hac a eq_refl). specialize (Hcc c eq_refl).
  assert (top_categories (ch_df ch) c a = Ok top) as ->; [|reflexivity].
  destruct dc as [d|].
  - destruct Hmonthly as (-> & _). unfold top_categories in *.
    by rewrite category_sums_with_month.
  - destruct Hmonthly as [-> _]. done.
Qed.

Lemma charts_for_pdf_from_dashboard df dc ac cc ch :
  dashboard_charts df dc ac cc = Ok ch →
  (∀ d, dc = Some d → d ≠ "Month") →
  (∀ a, ac = Some a → a ≠ "Month") →
  (∀ c, cc = Some c → c ≠ "Month") →
  ∃ bars,
    (match cc, ac with
     | Some c, Some a => Some <$> top_categories_chart_data df c a
     | _, _ => Ok None
     end) = Ok bars
    ∧ if hist_raises (fig_dist ch)
      then charts_for_pdf (ch_df ch) dc ac cc = Raise ValueError
      else ∃ cd,
          charts_for_pdf (ch_df ch) dc ac cc = Ok cd
          ∧ cd !! "sales_trend" = LinePlot <$> fig_trend ch
          ∧ cd !! "top_categories" = BarhPlot <$> bars
          ∧ cd !! "sales_distribution" = HistPlot 50 <$> fig_dist ch
          ∧ cd !! "monthly_sales" = BarPlot <$> fig_monthly ch.
Proof.
  intros Hch Hdc Hac Hcc.
  apply dashboard_charts_Ok_inv in Hch as (Htrend & Hcats & Hdist & Hmonthly).
  apply monthly_chart_frame in Hmonthly.
  unfold charts_for_pdf, create_sales_trend_chart,
    create_top_categories_chart, create_distribution_chart.
  destruct dc as [d|], ac as [a|], cc as [c|];
    repeat match goal with
           | H : ∀ x, Some ?y = Some x → _ |- _ => specialize (H y eq_refl)
           | H : ∀ x, None = Some x → _ |- _ => clear H
           end;
    repeat match goal with
           | H : ∃ top, _ |- _ => destruct H as (? & ? & _ & ?)
           | H : _ <$> _ = Ok _ |- _ => apply fmap_Ok in H as (? & ? & ?)
           | H : Ok _ = Ok _ |- _ => injection H as H
           end;
    try (destruct Hmonthly as (Hdf & Hts & bars' & Hm & Hbars));
    try (destruct Hmonthly as (Hdf & Hm));
    rewrite ?Hdf;
    rewrite ?create_monthly_chart_with_month by done;
    rewrite ?daily_sales_with_month by done;
    rewrite ?num_series_with_month by done;
    unfold top_categories_chart_data, top_categories in *;
    rewrite ?category_sums_with_month by done;
    repeat match goal with
           | H : _ ≫= _ = Ok _ |- _ => apply bind_Ok in H as (? & ? & ?)
           end;
    repeat match goal with
           | H : ?m = Ok _ |- context [?m] => rewrite H
           end;
    cbn [mbind result_bind fmap result_fmap];
    eexists; (split; [reflexivity|]);
    repeat match goal with
           | H : Ok ?x = Ok ?y |- _ =>
               assert (y = x) as -> by congruence; clear H
           end;
    repeat match goal with
           | H : ?f ch = _ |- _ => rewrite H; clear H
           | H : _ = ?f ch |- _ => rewrite <- H; clear H
           end;
    unfold hist_raises, ax_hist;
    try match goal with
        | |- context [no_finite_value ?x] => destruct (no_finite_value x)
        end;
    cbn [mbind result_bind fmap result_fmap];
    first [ reflexivity
          | eexists; split; [reflexivity|]; split_and!; reflexivity ].
Qed.

Lemma role_not_Month df :
  (∀ d, resolve_date_col df = Some d → d ≠ "Month")
  ∧ (∀ a, resolve_amount_col df = Some a → a ≠ "Month")
  ∧ (∀ c, resolve_category_col df = Some c → c ≠ "Month").
Proof.
  rewrite resolve_date_col_first_present.
  split_and!; intros x Hx; eapply role_candidate_not_Month; try exact Hx; not_month.
Qed.

(** X3: whenever the dashboard has been drawn, the PDF is built from the
    same data, or its one chart that can fail is reported.  When the amount
    role is bound, the selection has rows and none of them has an amount,
    the histogram of the PDF finds no range to bin and the PDF ends in its
    error message.  In every other run the PDF is built: its trend,
    distribution and monthly images are drawn from the very datasets of the
    dashboard's charts, its detail table lists the entries of the
    dashboard's top-categories chart, and its top-categories image is drawn
    from the ascending top ten of the filtered frame.  The [Month] column
    that the dashboard leaves in the frame does not change any of them. *)
Theorem pdf_shows_dashboard_data csv_field now w df o :
  main csv_field now w df = Ok o →
  ∃ bars,
    (match flt_category_col (out_filters o), amount_col (out_metrics o) with
     | Some c, Some a =>
         Some <$> top_categories_chart_data (flt_df (out_filters o)) c a
     | _, _ => Ok None
     end) = Ok bars
    ∧ if hist_raises (fig_dist (out_charts o))
      then out_pdf o = Raise ValueError
      else ∃ els,
          out_pdf o = Ok els
          ∧ images els
            = omap id [ LinePlot <$> fig_trend (out_charts o);
                        BarhPlot <$> bars;
                        HistPlot 50 <$> fig_dist (out_charts o);
                        BarPlot <$> fig_monthly (out_charts o) ]
          ∧ tables els !! 3%nat = category_data <$> fig_categories (out_charts o).
Proof.
  intros H.
  pose proof (main_frames _ _ _ _ _ H) as (_ & _ & Hdc & Hcc & Hac & _).
  apply main_Ok_inv in H as (_ & _ & Hch & _ & _ & Hpdf).
  destruct (role_not_Month df) as (Hd & Ha & Hc).
  rewrite <- Hdc in Hd. rewrite <- Hac in Ha. rewrite <- Hcc in Hc.
  pose proof (insights_page_from_dashboard _ _ _ _ _ Hch Ha Hc) as Hins.
  destruct (charts_for_pdf_from_dashboard _ _ _ _ _ Hch Hd Ha Hc)
    as (bars & Hbars & Hcd).
  exists bars. split; [exact Hbars|].
  destruct (hist_raises (fig_dist (out_charts o))).
  - rewrite Hpdf, Hcd. reflexivity.
  - destruct Hcd as (cd & Hcd & H1 & H2 & H3 & H4).
    rewrite Hpdf, Hcd. cbn [mbind result_bind].
    unfold create_branded_pdf_report. rewrite Hins. cbn [mbind result_bind].
    eexists. split; [reflexivity|].
    unfold charts_pages, chart_image. rewrite H1, H2, H3, H4.
    destruct (fig_trend (out_charts o)), bars, (fig_dist (out_charts o)),
      (fig_monthly (out_charts o)), (fig_categories (out_charts o));
      split; reflexivity.
Qed.

(** X4: the frame that the table, the CSV download and the PDF functions
    receive.  Without the monthly chart (date or amount role unbound) it is
    the filtered frame.  With it, the [Month] cell of every row holds the
    year and month of its date, and is missing when the row has no date;
    the row is otherwise unchanged; the column is appended when the data
    had none, and a [Month] column of the data keeps its place and loses
    its values. *)
Theorem frame_after_charts csv_field now w df o :
  main csv_field now w df = Ok o →
  out_table o = take 100 (rows (ch_df (out_charts o)))
  ∧ out_csv o = encode_utf8 (to_csv csv_field (ch_df (out_charts o)))
  ∧ match resolve_date_col df, resolve_amount_col df with
    | Some d, Some _ =>
        columns (ch_df (out_charts o))
        = (if bool_decide ("Month" ∈ columns df) then columns df
           else columns df ++ ["Month"])
        ∧ rows (ch_df (out_charts o))
          = (λ r : gmap string cell, set_cell "Month" (month_cell d r) r)
            <$> rows (flt_df (out_filters o))
        ∧ Forall2 (λ r r' : gmap string cell,
                     r' !! "Month"
                     = match r !! d with
                       | Some (Ts t) => Some (Str (Calendar.str_period_M t))
                       | _ => None
                       end
                     ∧ ∀ col, col ≠ "Month" → r' !! col = r !! col)
            (rows (flt_df (out_filters o))) (rows (ch_df (out_charts o)))
    | _, _ => ch_df (out_charts o) = flt_df (out_filters o)
    end.
Proof.
  intros H.
  pose proof (main_frames _ _ _ _ _ H) as (Hcols & _ & _ & _ & _ & _ & Hfinal).
  apply main_Ok_inv in H as (_ & _ & _ & Htable & Hcsv & _).
  split; [done|]. split; [done|].
  destruct (resolve_date_col df) as [d|], (resolve_amount_col df) as [a|]; try done.
  destruct Hfinal as [-> _]. unfold with_month. cbn [columns rows].
  rewrite Hcols. split; [done|]. split; [done|].
  apply Forall2_fmap_r, Forall_Forall2_diag, Forall_forall. intros r _.
  split; [|intros col Hcol; by apply set_cell_lookup_ne].
  rewrite set_cell_lookup. unfold month_cell, month_name.
  by destruct (r !! d) as [[?|?|?]| ].
Qed.
(** ** Loading *)

Lemma assign_dates_spec col (values : list (option Z)) (rs : list (gmap string cell)) :
  length values = length rs →
  length (assign_dates col values rs) = length rs
  ∧ Forall (λ r : gmap string cell, ts_or_missing (r !! col)) (assign_dates col values rs)
  ∧ ∀ other, other ≠ col →
      (λ r : gmap string cell, r !! other) <$> assign_dates col values rs
      = (λ r : gmap string cell, r !! other) <$> rs.
Proof.
  unfold assign_dates. revert values.
  induction rs as [|r rs IH]; intros [|v values] Hlen; simplify_eq/=.
  - split; [done|]. split; [constructor|done].
  - destruct (IH values) as (Hl & Hts & Hother); [done|].
    split; [by rewrite Hl|]. split.
    + constructor; [|done]. destruct v as [t|].
      * by rewrite lookup_insert_eq.
      * by rewrite lookup_delete_eq.
    + intros other Hne. rewrite (Hother other Hne). f_equal.
      destruct v as [t|].
      * by apply lookup_insert_ne.
      * by apply lookup_delete_ne.
Qed.

Section LoadingFacts.
Variable to_datetime : list (option cell) → option (list (option Z)).
Variable csv_field : option cell → string.
(** pandas returns one value per value it was given. *)
Hypothesis to_datetime_length :
  ∀ l values, to_datetime l = Some values → length values = length l.

Lemma convert_dates_Loaded col df df' :
  convert_dates to_datetime col df = Loaded df' →
  columns df' = columns df
  ∧ length (rows df') = length (rows df)
  ∧ column_of ts_or_missing df' col
  ∧ ∀ other, other ≠ col →
      (λ r : gmap string cell, r !! other) <$> rows df'
      = (λ r : gmap string cell, r !! other) <$> rows df.
Proof.
  unfold convert_dates.
  destruct (to_datetime _) as [values|] eqn:E; [|discriminate].
  intros [= <-]. apply to_datetime_length in E. rewrite length_fmap in E.
  destruct (assign_dates_spec col values (rows df) E) as (? & ? & ?).
  by repeat split.
Qed.

Lemma load_data_Loaded read df' :
  load_data to_datetime read = Loaded df' →
  ∃ df, read = Loaded df
        ∧ columns df' = columns df
        ∧ length (rows df') = length (rows df)
        ∧ (∀ d, resolve_date_col df = Some d → column_of ts_or_missing df' d)
        ∧ (∀ col, resolve_date_col df ≠ Some col →
             (λ r : gmap string cell, r !! col) <$> rows df'
             = (λ r : gmap string cell, r !! col) <$> rows df).
Proof.
  unfold load_data, resolve_date_col. destruct read as [df|e]; [|discriminate].
  intros H. exists df. split; [done|].
  repeat case_bool_decide.
  1,2: apply convert_dates_Loaded in H as (Hc & Hl & Hts & Hother);
       (split; [done|]; split; [done|]; split;
        [by intros d [= <-] | intros col Hne; apply Hother; congruence]).
  simplify_eq. by repeat split.
Qed.

(** X5: what [load_data] hands to the script.  The column it converts is
    the one the script then resolves as the date role (Date before Order
    Date, and only one of the two): after loading, that column holds
    timestamps or missing values only, the role is bound to the same name,
    and the column names, the number of rows and the values of every other
    column are those of the file. *)
Theorem load_data_prepares_date_role read df' :
  load_data to_datetime read = Loaded df' →
  ∃ df, read = Loaded df
        ∧ columns df' = columns df
        ∧ length (rows df') = length (rows df)
        ∧ resolve_date_col df' = resolve_date_col df
        ∧ (∀ d, resolve_date_col df' = Some d → column_of ts_or_missing df' d)
        ∧ (∀ col, resolve_date_col df' ≠ Some col →
             (λ r : gmap string cell, r !! col) <$> rows df'
             = (λ r : gmap string cell, r !! col) <$> rows df).
Proof.
  intros H. apply load_data_Loaded in H as (df & -> & Hc & Hl & Hts & Hother).
  assert (resolve_date_col df' = resolve_date_col df) as Hrole
    by (unfold resolve_date_col; by rewrite Hc).
  exists df. rewrite Hrole. by repeat split.
Qed.

Lemma column_of_values (P : option cell → Prop) df df' col :
  (λ r : gmap string cell, r !! col) <$> rows df'
  = (λ r : gmap string cell, r !! col) <$> rows df →
  column_of P df col → column_of P df' col.
Proof.
  unfold column_of. generalize (rows df) (rows df'). intros l l'. revert l.
  induction l' as [|r' l' IH]; intros [|r l] Heq H;
    try discriminate Heq; [constructor|].
  rewrite !fmap_cons in Heq. injection Heq as Hr Hl.
  apply Forall_cons in H as [H1 H2].
  constructor; [by rewrite Hr | by eapply IH].
Qed.

Lemma load_data_not_found read :
  load_data to_datetime read = LoadFailed FileNotFoundError
  ↔ read = LoadFailed FileNotFoundError.
Proof.
  unfold load_data, convert_dates. destruct read as [df|e]; [|split; congruence].
  split; [|discriminate].
  repeat case_bool_decide; repeat destruct (to_datetime _); discriminate.
Qed.

Lemma load_data_is_Loaded df :
  (∀ d, resolve_date_col df = Some d →
        is_Some (to_datetime ((λ r : gmap string cell, r !! d) <$> rows df))) →
  ∃ df', load_data to_datetime (Loaded df) = Loaded df'.
Proof.
  unfold load_data, resolve_date_col, convert_dates. intros H.
  repeat case_bool_decide; [| |by eauto];
    (destruct (H _ eq_refl) as [values ->]; eauto).
Qed.

(** X6: the outcome of the whole script.  The dataset-not-found message
    appears exactly when the file is missing; an exception of any other
    kind, from loading or from the body, never produces it.  When the file
    reads, its date column converts, every category cell is a string and
    the amount and quantity cells are numbers or missing, the page is the
    dashboard exactly when the date picker can be drawn (no date role, or a
    row with a date) and, with the category and amount roles bound, the
    selection keeps a row; otherwise it ends in the error box. *)
Theorem script_pages now w read :
  (script to_datetime csv_field now w read = DatasetNotFound
   ↔ read = LoadFailed FileNotFoundError)
  ∧ (∀ o, script to_datetime csv_field now w read = Dashboard o →
       ∃ df', load_data to_datetime read = Loaded df'
              ∧ main csv_field now w df' = Ok o)
  ∧ (∀ df, read = Loaded df →
       (∀ d, resolve_date_col df = Some d →
             is_Some (to_datetime ((λ r : gmap string cell, r !! d) <$> rows df))) →
       (∀ cc, resolve_category_col df = Some cc → column_of is_str df cc) →
       (∀ ac, resolve_amount_col df = Some ac → column_of num_or_missing df ac) →
       (∀ qc, resolve_quantity_col df = Some qc → column_of num_or_missing df qc) →
       ∃ df', load_data to_datetime read = Loaded df'
              ∧ ((∃ o, script to_datetime csv_field now w read = Dashboard o)
                 ↔ (∀ d, resolve_date_col df' = Some d →
                         ∃ r t, r ∈ rows df' ∧ r !! d = Some (Ts t))
                   ∧ ∀ flt, sidebar_filters w df' = Ok flt →
                            is_Some (resolve_category_col df') →
                            is_Some (resolve_amount_col df') →
                            rows (flt_df flt) ≠ [])
              ∧ ((∀ o, script to_datetime csv_field now w read ≠ Dashboard o) →
                 script to_datetime csv_field now w read = ErrorOccurred)).
Proof.
  split_and!.
  - rewrite <- load_data_not_found. unfold script.
    destruct (load_data to_datetime read) as [df'|[]]; [|done|done].
    destruct (main csv_field now w df'); done.
  - unfold script. intros o.
    destruct (load_data to_datetime read) as [df'|[]]; [|done|done].
    destruct (main csv_field now w df') eqn:E; [|done].
    intros [= <-]. eauto.
  - intros df -> Hdate Hcat Hamt Hqty.
    destruct (load_data_is_Loaded df Hdate) as [df' Hload].
    exists df'. split; [done|].
    unfold script. rewrite Hload.
    pose proof Hload as (df0 & [= <-] & Hc & _ & Hts & Hother)%load_data_Loaded.
    assert (resolve_date_col df' = resolve_date_col df) as Hrole
      by (unfold resolve_date_col; by rewrite Hc).
    assert (∀ candidates c,
              first_present candidates (columns df) = Some c →
              "Date" ∉ candidates → "Order Date" ∉ candidates →
              resolve_date_col df ≠ Some c) as Hne.
    { intros candidates c Hc1 H1 H2 Hd.
      apply first_present_elem in Hc1.
      rewrite resolve_date_col_first_present in Hd.
      apply first_present_elem in Hd.
      apply list_elem_of_In in Hd. simpl in Hd.
      destruct Hd as [<-|[<-|[]]]; done. }
    assert (well_typed df') as Hwt.
    { unfold well_typed. rewrite Hrole.
      split_and!; [exact Hts|..]; intros c Hc1.
      - unfold resolve_category_col in Hc1. rewrite Hc in Hc1.
        eapply column_of_values; [|exact (Hcat c Hc1)].
        apply Hother. eapply Hne; [exact Hc1|..]; not_month.
      - unfold resolve_amount_col in Hc1. rewrite Hc in Hc1.
        eapply column_of_values; [|exact (Hamt c Hc1)].
        apply Hother. eapply Hne; [exact Hc1|..]; not_month.
      - unfold resolve_quantity_col in Hc1. rewrite Hc in Hc1.
        eapply column_of_values; [|exact (Hqty c Hc1)].
        apply Hother. eapply Hne; [exact Hc1|..]; not_month. }
    pose proof (main_is_Ok csv_field now w df' Hwt) as Hmain.
    rewrite date_input_call_Ok in Hmain.
    split.
    + rewrite <- Hmain. unfold is_Ok.
      destruct (main csv_field now w df') as [o|e].
      * split; eauto.
      * split; intros [o Ho]; discriminate Ho.
    + destruct (main csv_field now w df') as [o|e]; [|done].
      intros Hno. by destruct (Hno o).
Qed.
End LoadingFacts.

(** ** The category options *)

Lemma unique_from_spec {A} `{EqDecision A} (seen l : list A) :
  NoDup (unique_from seen l)
  ∧ ∀ x, x ∈ unique_from seen l ↔ x ∈ l ∧ x ∉ seen.
Proof.
  revert seen. induction l as [|y l IH]; intros seen; simpl.
  - split; [constructor|]. intros x. split; [by intros ?%elem_of_nil|].
    by intros [?%elem_of_nil _].
  - case_bool_decide as Hy.
    + destruct (IH seen) as [Hnd Hin]. split; [done|].
      intros x. rewrite Hin, elem_of_cons. split; [tauto|].
      intros [[->|?] ?]; tauto.
    + destruct (IH (y :: seen)) as [Hnd Hin]. split.
      * constructor; [|done]. rewrite Hin, elem_of_cons. tauto.
      * intros x. rewrite !elem_of_cons, Hin, elem_of_cons.
        destruct (decide (x = y)) as [->|Hne]; tauto.
Qed.

Lemma unique_spec {A} `{EqDecision A} (l : list A) :
  NoDup (unique l) ∧ ∀ x, x ∈ unique l ↔ x ∈ l.
Proof.
  destruct (unique_from_spec [] l) as [Hnd Hin]. split; [done|].
  intros x. unfold unique. rewrite Hin. split; [tauto|].
  intros ?. split; [done|]. apply not_elem_of_nil.
Qed.

Lemma mapR_Some_inv (l : list (option string)) (xs : list string) :
  mapR (λ o : option string,
          match o with Some s => Ok s | None => Raise TypeError end) l = Ok xs →
  l = Some <$> xs.
Proof.
  revert xs. induction l as [|[s|] l IH]; intros xs H; simpl in H.
  - by simplify_eq.
  - inv_bind H. assert (xs = s :: a) as -> by congruence.
    rewrite fmap_cons. f_equal. by apply IH.
  - discriminate.
Qed.

Lemma py_sorted_Ok_inv (l sorted : list (option string)) :
  py_sorted l = Ok sorted →
  sorted ≡ₚ l
  ∧ ((length l ≤ 1)%nat ∧ sorted = l
     ∨ ∃ xs, l = Some <$> xs ∧ sorted = Some <$> isort String.leb xs).
Proof.
  destruct l as [|a [|b l]]; simpl.
  - intros [= <-]. split; [done|]. left. simpl. split; [lia|done].
  - intros [= <-]. split; [done|]. left. simpl. split; [lia|done].
  - intros H.
    change (mapR (λ o : option string,
                    match o with Some s => Ok s | None => Raise TypeError end)
              (a :: b :: l)
            ≫= (λ xs, Ok (Some <$> isort String.leb xs)) = Ok sorted) in H.
    apply bind_Ok in H as (xs & Hxs & H).
    apply mapR_Some_inv in Hxs. assert (sorted = Some <$> isort String.leb xs) as ->
      by congruence.
    split; [|right; eauto].
    rewrite Hxs. apply fmap_Permutation, isort_Permutation.
Qed.

Lemma py_sorted_mixed (l : list (option string)) (s : string) :
  None ∈ l → Some s ∈ l → py_sorted l = Raise TypeError.
Proof.
  intros Hnone Hsome.
  destruct l as [|a [|b l]].
  - by apply elem_of_nil in Hnone.
  - apply list_elem_of_singleton in Hnone, Hsome. congruence.
  - unfold py_sorted.
    set (f := λ o : option string,
                match o with Some s => Ok s | None => Raise TypeError end).
    assert (∀ l' : list (option string), None ∈ l' → mapR f l' = Raise TypeError)
      as Hraise.
    { induction l' as [|[x|] l' IH]; intros Hin.
      - by apply elem_of_nil in Hin.
      - apply elem_of_cons in Hin as [?|Hin]; [done|].
        cbn [mapR f mbind result_bind]. by rewrite IH.
      - reflexivity. }
    by rewrite Hraise.
Qed.

(** The filters raise nothing but the [TypeError] of a cell of the wrong
    type. *)
Lemma bind_Raise {A B} (m : result A) (f : A → result B) (e : exn) :
  m ≫= f = Raise e → m = Raise e ∨ ∃ a, m = Ok a ∧ f a = Raise e.
Proof.
  destruct m as [a|e']; cbn [mbind result_bind]; intros H.
  - right. eauto.
  - left. by injection H as ->.
Qed.

Lemma mapR_Raise {A B} (f : A → result B) (l : list A) (e : exn) :
  mapR f l = Raise e → ∃ x, x ∈ l ∧ f x = Raise e.
Proof.
  induction l as [|x l IH]; [done|]. cbn [mapR]. intros H.
  apply bind_Raise in H as [H|(y & Hy & H)].
  - exists x. split; [apply list_elem_of_here | done].
  - apply bind_Raise in H as [H|(ys & Hys & H)]; [|done].
    destruct (IH H) as (x' & Hx' & He). exists x'.
    split; [by apply list_elem_of_further | done].
Qed.

Lemma filterR_Raise {A} (p : A → result bool) (l : list A) (e : exn) :
  filterR p l = Raise e → ∃ x, x ∈ l ∧ p x = Raise e.
Proof.
  induction l as [|x l IH]; [done|]. cbn [filterR]. intros H.
  apply bind_Raise in H as [H|(y & Hy & H)].
  - exists x. split; [apply list_elem_of_here | done].
  - apply bind_Raise in H as [H|(ys & Hys & H)]; [|done].
    destruct (IH H) as (x' & Hx' & He). exists x'.
    split; [by apply list_elem_of_further | done].
Qed.

Lemma as_cell_Raise (c : option cell) (e : exn) :
  (as_ts c = Raise e ∨ as_str c = Raise e ∨ as_num c = Raise e) → e = TypeError.
Proof.
  destruct c as [[q|s|t]| ]; simpl; intros [H|[H|H]]; congruence.
Qed.

Lemma categories_Raise df cc e : categories df cc = Raise e → e = TypeError.
Proof.
  unfold categories. intros H.
  apply bind_Raise in H as [H|(col & _ & H)].
  - apply mapR_Raise in H as (r & _ & H). eapply as_cell_Raise; eauto.
  - apply bind_Raise in H as [H|(? & _ & H)]; [|done].
    unfold py_sorted in H. destruct (unique col) as [|a [|b l]]; [done..|].
    apply bind_Raise in H as [H|(? & _ & H)]; [|done].
    apply mapR_Raise in H as ([x|] & _ & H); congruence.
Qed.

Lemma sidebar_filters_Raise w df e :
  sidebar_filters w df = Raise e → e = TypeError.
Proof.
  unfold sidebar_filters. intros H.
  apply bind_Raise in H as [H|([df1 fi1] & _ & H)].
  - unfold date_filter in H.
    destruct (resolve_date_col df) as [dc|]; [|done].
    destruct (date_input w) as [|d0 [|d1 [|d2 rest]]]; try done.
    apply bind_Raise in H as [H|(? & _ & H)]; [|done].
    unfold select_rows in H.
    apply bind_Raise in H as [H|(? & _ & H)]; [|done].
    apply filterR_Raise in H as (r & _ & H). unfold date_mask in H.
    apply bind_Raise in H as [H|(? & _ & H)]; [|done].
    eapply as_cell_Raise; eauto.
  - apply bind_Raise in H as [H|([[df2 sel] fi2] & _ & H)]; [|done].
    unfold category_filter in H.
    destruct (resolve_category_col df1) as [cc|]; [|done].
    apply bind_Raise in H as [H|(? & _ & H)];
      [by eapply categories_Raise|].
    apply bind_Raise in H as [H|(? & _ & H)]; [|done].
    destruct (String.eqb (selectbox w) "All"); [done|].
    unfold select_rows in H.
    apply bind_Raise in H as [H|(? & _ & H)]; [|done].
    apply filterR_Raise in H as (r & _ & H). done.
Qed.

Lemma str_series_Ok_inv df cc col :
  str_series df cc = Ok col →
  column_of str_or_missing df cc
  ∧ col = (λ r : gmap string cell, cell_str (r !! cc)) <$> rows df.
Proof.
  unfold str_series, column_of. generalize (rows df). intros l. revert col.
  induction l as [|r l IH]; intros col H; simpl in H.
  - split; [constructor|]. by simplify_eq.
  - inv_bind H. destruct (IH _ Hstep0) as [Hty ->].
    assert (col = a :: ((λ r : gmap string cell, cell_str (r !! cc)) <$> l)) as ->
      by congruence.
    destruct (r !! cc) as [[q|s|t]|] eqn:E; simpl in Hstep; try discriminate;
      (split; [constructor; [by rewrite E|done] | rewrite fmap_cons, E; simpl; congruence]).
Qed.

Lemma str_series_typed df cc :
  column_of str_or_missing df cc →
  str_series df cc = Ok ((λ r : gmap string cell, cell_str (r !! cc)) <$> rows df).
Proof.
  intros H. apply mapR_Ok. intros r Hr.
  unfold column_of in H. rewrite Forall_forall in H. specialize (H r Hr).
  by destruct (r !! cc) as [[q|s|t]|].
Qed.

Lemma string_leb_trans (a b c : string) :
  String.leb a b = true → String.leb b c = true → String.leb a c = true.
Proof.
  unfold String.leb.
  destruct (String.compare a b) eqn:Eab; [| |discriminate].
  - by apply string_compare_eq in Eab as ->.
  - destruct (String.compare b c) eqn:Ebc; [| |discriminate].
    + apply string_compare_eq in Ebc as <-. by rewrite Eab.
    + by rewrite (string_compare_trans a b c Eab Ebc).
Qed.

Lemma strictly_sorted (l : list string) :
  StronglySorted (λ a b, String.leb a b = true) l → NoDup l →
  StronglySorted (λ a b, String.compare a b = Lt) l.
Proof.
  induction 1 as [|a l Hl IH Ha]; intros Hnd; [constructor|].
  apply NoDup_cons in Hnd as [Hnotin Hnd].
  constructor; [by apply IH|].
  rewrite Forall_forall in Ha |- *. intros b Hb. specialize (Ha b Hb).
  unfold String.leb in Ha.
  destruct (String.compare a b) eqn:E; [|done|done].
  apply string_compare_eq in E as ->. done.
Qed.

Lemma cell_str_lookup (c : option cell) (v : option string) :
  str_or_missing c → (cell_str c = v ↔ c = Str <$> v).
Proof.
  destruct c as [[q|s|t]|], v as [s'|]; simpl; intros Hty; try done;
    split; congruence.
Qed.

Lemma categories_Ok_inv df cc opts :
  categories df cc = Ok opts →
  ∃ sorted,
    opts = Some "All" :: sorted
    ∧ column_of str_or_missing df cc
    ∧ py_sorted (unique ((λ r : gmap string cell, cell_str (r !! cc)) <$> rows df))
      = Ok sorted
    ∧ ∀ v, v ∈ sorted ↔ ∃ r, r ∈ rows df ∧ r !! cc = Str <$> v.
Proof.
  unfold categories. intros H.
  apply bind_Ok in H as (col & Hcol & H).
  apply bind_Ok in H as (sorted & Hsorted & H).
  assert (opts = Some "All" :: sorted) as -> by congruence.
  apply str_series_Ok_inv in Hcol as [Hty ->].
  exists sorted. split; [done|]. split; [done|]. split; [done|].
  destruct (unique_spec ((λ r : gmap string cell, cell_str (r !! cc)) <$> rows df))
    as [_ Hin].
  apply py_sorted_Ok_inv in Hsorted as (Hperm & _).
  intros v. rewrite Hperm, Hin, list_elem_of_fmap.
  unfold column_of in Hty. rewrite Forall_forall in Hty.
  split.
  - intros (r & Hv & Hr). exists r. split; [done|].
    by apply cell_str_lookup; [apply Hty|].
  - intros (r & Hr & Hv). exists r. split; [|done].
    symmetry. by apply cell_str_lookup; [apply Hty|].
Qed.

(** X7: the options of the category select box.  The first is All; then
    every distinct value of the category column comes exactly once.  Either
    that is a single missing value (no row has a category), or the options
    are the category names in strictly ascending order. *)
Theorem category_options df cc opts :
  categories df cc = Ok opts →
  ∃ values : list (option string),
    opts = Some "All" :: values
    ∧ NoDup values
    ∧ (∀ v, v ∈ values ↔ ∃ r, r ∈ rows df ∧ r !! cc = Str <$> v)
    ∧ (values = [None]
       ∨ ∃ names, values = Some <$> names
                  ∧ StronglySorted (λ a b, String.compare a b = Lt) names).
Proof.
  intros (sorted & -> & Hty & Hsorted & Hin)%categories_Ok_inv.
  destruct (unique_spec ((λ r : gmap string cell, cell_str (r !! cc)) <$> rows df))
    as [Hnd _].
  apply py_sorted_Ok_inv in Hsorted as (Hperm & Hcases).
  exists sorted. split; [done|]. split; [by rewrite Hperm|]. split; [done|].
  destruct Hcases as [[Hlen ->]|(xs & Hxs & ->)].
  - destruct (unique _) as [|[s|] [|b l]]; simpl in Hlen; try lia.
    + right. exists []. split; [done|constructor].
    + right. exists [s]. split; [done|]. repeat constructor.
    + by left.
  - right. eexists. split; [done|].
    apply strictly_sorted;
      [apply isort_sorted; [exact String.leb_total | exact string_leb_trans]|].
    rewrite Hxs in Hperm.
    eapply NoDup_fmap_1. rewrite Hperm, <- Hxs. exact Hnd.
Qed.

Lemma date_filter_keeps w df odc fi df1 fi1 (r : gmap string cell) :
  date_filter w df odc fi = Ok (df1, fi1) →
  r ∈ rows df →
  (∀ dc d0 d1, odc = Some dc → date_input w = [d0; d1] → in_date_range dc d0 d1 r) →
  r ∈ rows df1.
Proof.
  unfold date_filter. intros H Hr Hin.
  destruct odc as [dc|]; [|by simplify_eq].
  destruct (date_input w) as [|d0 [|d1 [|]]]; try by simplify_eq.
  apply bind_Ok in H as (df' & Hsel & H).
  assert (df1 = df') as -> by congruence.
  apply select_rows_Ok_inv in Hsel as [_ ->].
  apply list_elem_of_filter. split; [|done].
  destruct (Hin dc d0 d1 eq_refl eq_refl) as (t & Ht & Hlo & Hhi).
  unfold date_mask. rewrite Ht. cbn [as_ts mbind result_bind].
  f_equal. apply andb_true_intro. split; by apply Z.leb_le.
Qed.

Lemma category_filter_Ok_categories w df cc fi out :
  category_filter w df (Some cc) fi = Ok out → is_Ok (categories df cc).
Proof.
  unfold category_filter. intros H.
  apply bind_Ok in H as (opts & Hopts & _). by exists opts.
Qed.

(** X8: one order without a category stops the whole dashboard.  When the
    category role is bound and, among the rows that pass the date filter,
    one has no category and another has one, sorting the options compares a
    float with a string: the filters raise a [TypeError] even though All is
    selected, and the body ends there, before any metric or chart is
    computed, unless the date picker before the filters has raised
    already. *)
Theorem blank_category_stops_dashboard csv_field now w df cc
    (r1 r2 : gmap string cell) (s : string) :
  resolve_category_col df = Some cc →
  r1 ∈ rows df → r1 !! cc = None →
  r2 ∈ rows df → r2 !! cc = Some (Str s) →
  (∀ dc d0 d1, resolve_date_col df = Some dc → date_input w = [d0; d1] →
     in_date_range dc d0 d1 r1 ∧ in_date_range dc d0 d1 r2) →
  sidebar_filters w df = Raise TypeError
  ∧ main csv_field now w df
    = match date_input_call df (resolve_date_col df) with
      | Ok _ => Raise TypeError
      | Raise e => Raise e
      end.
Proof.
  intros Hcc Hr1 Hnone Hr2 Hsome Hrange.
  assert (sidebar_filters w df = Raise TypeError) as Hflt.
  { destruct (sidebar_filters w df) as [flt|e] eqn:E;
      [exfalso | by rewrite (sidebar_filters_Raise _ _ _ E)].
    apply sidebar_filters_Ok_inv in E as (df1 & fi1 & fi2 & Hdate & Hcat & _).
    pose proof (date_filter_keeps _ _ _ _ _ _ r1 Hdate Hr1) as Hr1'.
    pose proof (date_filter_keeps _ _ _ _ _ _ r2 Hdate Hr2) as Hr2'.
    apply date_filter_Ok_inv in Hdate as (Hcols & _).
    unfold resolve_category_col in Hcat, Hcc. rewrite Hcols, Hcc in Hcat.
    apply category_filter_Ok_categories in Hcat as [opts Hopts].
    apply categories_Ok_inv in Hopts as (sorted & _ & _ & Hsorted & Hin).
    rewrite py_sorted_mixed with (s := s) in Hsorted; [discriminate|..].
    - apply unique_spec, list_elem_of_fmap. exists r1.
      rewrite Hnone. split; [done|]. apply Hr1'. intros. by eapply Hrange.
    - apply unique_spec, list_elem_of_fmap. exists r2.
      rewrite Hsome. split; [done|]. apply Hr2'. intros. by eapply Hrange. }
  split; [done|]. rewrite main_date_input.
  destruct (date_input_call df (resolve_date_col df)) as [[]|e]; [|done].
  cbn [mbind result_bind]. by rewrite Hflt.
Qed.

(** X9: what a selected category leaves.  With the category role bound and
    a selection other than All, the filtered frame holds exactly the rows
    of the date-filtered frame whose category is the selection, and it is
    non-empty exactly when the selection is one of the options the select
    box offered. *)
Theorem selected_category_rows w df flt cc :
  sidebar_filters w df = Ok flt →
  resolve_category_col df = Some cc →
  selectbox w ≠ "All" →
  ∃ df1 fi opts,
    date_filter w df (resolve_date_col df) ∅ = Ok (df1, fi)
    ∧ categories df1 cc = Ok opts
    ∧ rows (flt_df flt)
      = filter (λ r : gmap string cell, r !! cc = Some (Str (selectbox w))) (rows df1)
    ∧ (Some (selectbox w) ∈ opts ↔ rows (flt_df flt) ≠ []).
Proof.
  intros H Hcc Hsel.
  apply sidebar_filters_Ok_inv in H as (df1 & fi1 & fi2 & Hdate & Hcat & _).
  pose proof Hdate as (Hcols & _)%date_filter_Ok_inv.
  unfold resolve_category_col in Hcat, Hcc. rewrite Hcols, Hcc in Hcat.
  unfold category_filter in Hcat.
  apply bind_Ok in Hcat as (opts & Hopts & Hcat).
  apply String.eqb_neq in Hsel as Hsel'. rewrite Hsel' in Hcat.
  apply bind_Ok in Hcat as (df2 & Hrows & Hcat).
  assert (flt_df flt = df2) as -> by congruence.
  apply select_rows_Ok_inv in Hrows as [_ Hrows].
  assert (rows df2
          = filter (λ r : gmap string cell, r !! cc = Some (Str (selectbox w)))
              (rows df1)) as Hfilter.
  { rewrite Hrows. apply list_filter_iff. intros r. unfold category_mask.
    destruct (r !! cc) as [[q|s|t]|]; try (split; congruence).
    destruct (String.eqb_spec s (selectbox w)) as [->|Hne]; split; congruence. }
  exists df1, fi1, opts. split; [done|]. split; [done|]. split; [done|].
  apply categories_Ok_inv in Hopts as (sorted & -> & _ & _ & Hin).
  rewrite elem_of_cons, Hin, Hfilter. split.
  - intros [?|(r & Hr & Hv)]; [congruence|]. intros Hnil.
    assert (r ∈ filter (λ r : gmap string cell, r !! cc = Some (Str (selectbox w)))
                  (rows df1)) as Hr' by (by apply list_elem_of_filter).
    rewrite Hnil in Hr'. by apply elem_of_nil in Hr'.
  - intros Hne. right.
    destruct (filter (λ r : gmap string cell, r !! cc = Some (Str (selectbox w)))
                (rows df1)) as [|r l] eqn:E; [by destruct Hne|].
    assert (r ∈ filter (λ r : gmap string cell, r !! cc = Some (Str (selectbox w)))
                  (rows df1)) as Hr' by (rewrite E; apply list_elem_of_here).
    apply list_elem_of_filter in Hr' as [Hv Hr]. eauto.
Qed.

(** ** The cover and the KPI grid of the report *)

Lemma date_filter_info w df odc fi df1 fi1 :
  date_filter w df odc fi = Ok (df1, fi1) →
  fi1 = match odc with
        | Some _ =>
            <["date_range" :=
                match date_input w with
                | [d0; d1] => Calendar.str_date d0 +:+ " to " +:+ Calendar.str_date d1
                | _ => "All Dates"
                end]> fi
        | None => fi
        end.
Proof.
  unfold date_filter. intros H.
  destruct odc as [dc|]; [|congruence].
  destruct (date_input w) as [|d0 [|d1 [|]]]; try congruence.
  apply bind_Ok in H as (df' & _ & H). congruence.
Qed.

Lemma category_filter_info w df occ fi df2 sel fi2 :
  category_filter w df occ fi = Ok (df2, sel, fi2) →
  fi2 = match occ with
        | Some _ => <["category" := selectbox w]> fi
        | None => fi
        end.
Proof.
  unfold category_filter. intros H.
  destruct occ as [cc|]; [|congruence].
  apply bind_Ok in H as (opts & _ & H).
  apply bind_Ok in H as (df' & _ & H). congruence.
Qed.

Lemma amount_metrics_Ok_inv df oac tiles1 md1 :
  amount_metrics df oac = Ok (tiles1, md1) →
  match oac with
  | Some ac =>
      ∃ total avg,
        tiles1 = [("Total Sales", total); ("Avg Order Value", avg)]
        ∧ md1 = <["avg_order_value" := avg]> (<["total_sales" := total]> ∅)
  | None => tiles1 = [] ∧ md1 = ∅
  end.
Proof.
  unfold amount_metrics. intros H. destruct oac as [ac|].
  - apply bind_Ok in H as (xs & _ & H). cbv zeta in H.
    injection H as <- <-. eauto.
  - split; congruence.
Qed.

Lemma quantity_metrics_Ok_inv df oqc md tiles2 md2 :
  quantity_metrics df oqc md = Ok (tiles2, md2) →
  match oqc with
  | Some qc =>
      ∃ units, tiles2 = [("Total Units Sold", units)]
               ∧ md2 = <["total_units" := units]> md
  | None => tiles2 = [] ∧ md2 = <["total_units" := "N/A"]> md
  end.
Proof.
  unfold quantity_metrics. intros H. destruct oqc as [qc|].
  - apply bind_Ok in H as (xs & _ & H). cbv zeta in H.
    injection H as <- <-. eauto.
  - split; congruence.
Qed.

Ltac lookup_inserts :=
  unfold get;
  repeat first [ rewrite lookup_insert_eq
               | rewrite lookup_insert_ne by discriminate
               | rewrite lookup_empty ];
  try reflexivity.

(** X10: what the cover and the KPI grid of the report print.  The cover
    shows the chosen range (All Dates without a date column or while the
    picker holds one date), the selected category (All Categories only when
    there is no category column; All when nothing was narrowed) and the
    number of filtered rows.  The KPI grid shows the very strings of the
    dashboard tiles, N/A in place of a tile that is not shown, and its
    order count is the record count of the cover. *)
Theorem report_cover_and_kpis csv_field now w df o els :
  main csv_field now w df = Ok o →
  out_pdf o = Ok els →
  let shown label := TStr (default "N/A" (tile (tiles (out_metrics o)) label)) in
  let records := Fmt.int_comma (Z.of_nat (length (rows (flt_df (out_filters o))))) in
  tables els !! 1%nat
  = Some [ [TStr "Report Generated:"; TStr (now_long now)];
           [TStr "Date Range:";
            TStr (match resolve_date_col df, date_input w with
                  | Some _, [d0; d1] =>
                      Calendar.str_date d0 +:+ " to " +:+ Calendar.str_date d1
                  | _, _ => "All Dates"
                  end)];
           [TStr "Category Filter:";
            TStr (match resolve_category_col df with
                  | Some _ => selectbox w
                  | None => "All Categories"
                  end)];
           [TStr "Total Records:"; TStr records] ]
  ∧ tables els !! 2%nat
    = Some [ [TStr "TOTAL SALES"; TStr "AVG ORDER VALUE"];
             [shown "Total Sales"; shown "Avg Order Value"];
             [TStr "TOTAL ORDERS"; TStr "TOTAL UNITS SOLD"];
             [shown "Total Orders"; shown "Total Units Sold"] ]
  ∧ tile (tiles (out_metrics o)) "Total Orders" = Some records.
Proof.
  intros Hmain Hpdf shown records.
  pose proof (main_frames _ _ _ _ _ Hmain) as (Hcols & _).
  apply main_Ok_inv in Hmain as (Hflt & Hm & _ & _ & _ & Hout).
  rewrite Hout in Hpdf. clear Hout.
  apply bind_Ok in Hpdf as (cd & _ & Hpdf).
  unfold create_branded_pdf_report in Hpdf.
  apply bind_Ok in Hpdf as (ins & _ & Hpdf).
  assert (els = cover_page now (flt_filter_info (out_filters o))
                ++ (assumptions_page
                ++ key_metrics_page (metrics_data (out_metrics o))
                ++ charts_pages cd ++ ins ++ footer now)) as -> by congruence.
  clear Hpdf.
  apply sidebar_filters_Ok_inv in Hflt as (df1 & fi1 & fi2 & Hdate & Hcat & _ & _ & ->).
  pose proof Hdate as (Hcols1 & _)%date_filter_Ok_inv.
  apply date_filter_info in Hdate as ->.
  apply category_filter_info in Hcat as ->.
  unfold resolve_category_col at 1. rewrite Hcols1.
  fold (resolve_category_col df).
  apply key_metrics_Ok_inv in Hm as (tiles1 & md1 & tiles2 & Ham & Hqm & _ & _ & Htiles).
  apply amount_metrics_Ok_inv in Ham. apply quantity_metrics_Ok_inv in Hqm.
  subst shown records. cbv zeta. rewrite Htiles.
  unfold tables at 1 2. rewrite !omap_app.
  destruct (resolve_amount_col (flt_df (out_filters o))),
    (resolve_quantity_col (flt_df (out_filters o)));
    repeat match goal with
           | H : ∃ _, _ |- _ => destruct H
           | H : _ ∧ _ |- _ => destruct H
           end;
    repeat match goal with
           | H : metrics_data _ = _ |- _ => rewrite H; clear H
           end; subst;
    (split_and!;
     [ unfold cover_page; cbn [omap]; cbn [app lookup list_lookup];
       do 3 f_equal;
       destruct (resolve_date_col df), (resolve_category_col df),
         (date_input w) as [|d0 [|d1 [|]]]; lookup_inserts
     | unfold cover_page, assumptions_page, key_metrics_page;
       cbn [omap]; cbn [app lookup list_lookup]; do 2 f_equal; lookup_inserts
     | reflexivity ]).
Qed.

(** ** Sums per day and per month *)













Lemma filter_all {A} (P : A → Prop) `{∀ x, Decision (P x)} (l : list A) :
  (∀ x, P x) → filter P l = l.
Proof.
  intros HP. induction l as [|x l IH]; [done|].
  rewrite filter_cons, decide_True by done. by rewrite IH.
Qed.


(** ** The two scripts side by side *)

Lemma basic_sidebar_filters w df :
  Basic.sidebar_filters w df
  = date_input_call df (resolve_date_col df)
    ≫= λ _, (λ flt, (flt_df flt, flt_date_col flt, flt_category_col flt))
            <$> sidebar_filters w df.
Proof.
  unfold Basic.sidebar_filters, sidebar_filters, date_filter, category_filter,
    date_input_call.
  cbv zeta.
  destruct (resolve_date_col df) as [dc|].
  - destruct (date_bounds df dc) as [b|];
      cbn [mbind result_bind fmap result_fmap]; [|reflexivity].
    destruct (date_input w) as [|d0 [|d1 [|d2 ds]]];
      cbn [mbind result_bind fmap result_fmap];
      try destruct (select_rows _ df) as [df1|e];
      cbn [mbind result_bind fmap result_fmap]; try reflexivity;
      (match goal with
       | |- context [resolve_category_col ?x] =>
           destruct (resolve_category_col x) as [cc|];
           cbn [mbind result_bind fmap result_fmap]; [|reflexivity];
           destruct (categories x cc) as [opts|e'];
           cbn [mbind result_bind fmap result_fmap]; [|reflexivity];
           destruct (String.eqb (selectbox w) "All");
           cbn [mbind result_bind fmap result_fmap]; [reflexivity|];
           destruct (select_rows _ x) as [df2|e''];
           cbn [mbind result_bind fmap result_fmap]; reflexivity
       end).
  - cbn [mbind result_bind fmap result_fmap].
    destruct (resolve_category_col df) as [cc|];
      cbn [mbind result_bind fmap result_fmap]; [|reflexivity].
    destruct (categories df cc) as [opts|e'];
      cbn [mbind result_bind fmap result_fmap]; [|reflexivity].
    destruct (String.eqb (selectbox w) "All");
      cbn [mbind result_bind fmap result_fmap]; [reflexivity|].
    destruct (select_rows _ df) as [df2|e''];
      cbn [mbind result_bind fmap result_fmap]; reflexivity.
Qed.

Lemma basic_key_metrics df :
  Basic.key_metrics df = (λ m, (amount_col m, tiles m)) <$> key_metrics df.
Proof.
  unfold Basic.key_metrics, key_metrics, amount_metrics, quantity_metrics.
  cbv zeta.
  destruct (resolve_amount_col df) as [ac|];
    cbn [mbind result_bind fmap result_fmap];
    try destruct (num_series df ac) as [xs|e];
    cbn [mbind result_bind fmap result_fmap]; try reflexivity;
    (destruct (resolve_quantity_col df) as [qc|];
     cbn [mbind result_bind fmap result_fmap];
     try destruct (num_series df qc) as [ys|e'];
     cbn [mbind result_bind fmap result_fmap]; reflexivity).
Qed.

(** X13: the two scripts show the same dashboard.  Statement by statement,
    [ecommerce-dashboard.py] computes what [ecommerce-dash-pdf.py] computes
    apart from the report: on the same data and widget answers it raises
    when the other raises, and otherwise shows the same tiles, the same
    chart data, the same table rows and offers the same CSV bytes. *)
Theorem basic_script_shows_the_same csv_field now w df :
  Basic.main csv_field w df
  = (λ o, {| basic_tiles := tiles (out_metrics o);
             basic_charts := out_charts o;
             basic_table := out_table o;
             basic_csv := out_csv o |})
    <$> main csv_field now w df.
Proof.
  rewrite main_date_input. unfold Basic.main. rewrite basic_sidebar_filters.
  destruct (date_input_call df (resolve_date_col df)) as [[]|e0];
    cbn [mbind result_bind fmap result_fmap]; [|reflexivity].
  destruct (sidebar_filters w df) as [flt|e];
    cbn [mbind result_bind fmap result_fmap]; [|reflexivity].
  rewrite basic_key_metrics.
  destruct (key_metrics (flt_df flt)) as [m|e];
    cbn [mbind result_bind fmap result_fmap]; [|reflexivity].
  destruct (dashboard_charts _ _ _ _) as [ch|e];
    cbn [mbind result_bind fmap result_fmap]; reflexivity.
Qed.

(** ** Category names in the detail table *)

Lemma take_chars_spec (n : nat) (s : string) :
  char_count (take_chars n s) = Nat.min n (char_count s)
  ∧ ∃ rest, s = take_chars n s +:+ rest
            ∧ match rest with
              | String c _ => is_continuation c = false
              | EmptyString => True
              end.
Proof.
  revert n. induction s as [|c s IH]; intros n; simpl.
  - split; [lia|]. by exists "".
  - destruct (is_continuation c) eqn:Hc.
    + destruct (IH n) as (Hcount & rest & Hrest & Hcut). simpl. rewrite Hc.
      split; [done|]. exists rest. split; [|done].
      change (String c s = String c (take_chars n s +:+ rest)). by f_equal.
    + destruct n as [|n].
      * split; [done|]. exists (String c s). by split.
      * destruct (IH n) as (Hcount & rest & Hrest & Hcut). simpl. rewrite Hc.
        split; [lia|]. exists rest. split; [|done].
        change (String c s = String c (take_chars n s +:+ rest)). by f_equal.
Qed.

Lemma take_chars_all (n : nat) (s : string) :
  (char_count s ≤ n)%nat → take_chars n s = s.
Proof.
  revert n. induction s as [|c s IH]; intros n; simpl; [done|].
  destruct (is_continuation c).
  - intros H. by rewrite IH.
  - destruct n as [|n]; [lia|]. intros H. rewrite IH; [done|lia].
Qed.

(** X14: the Category cell of a row of the detail table.  It is the
    category name cut after its first 40 characters: a name of at most 40
    characters is printed whole; a longer one is printed up to exactly 40
    characters, and the cut never falls inside a multi-byte character. *)
Theorem detail_row_category_cell (total : Q) (idx : nat) (entry : string * Q) :
  ∃ shown rest,
    category_row total idx entry !! 1%nat = Some (TStr shown)
    ∧ entry.1 = shown +:+ rest
    ∧ char_count shown = Nat.min 40 (char_count entry.1)
    ∧ ((char_count entry.1 ≤ 40)%nat → shown = entry.1)
    ∧ match rest with
      | String c _ => is_continuation c = false
      | EmptyString => True
      end.
Proof.
  destruct (take_chars_spec 40 entry.1) as (Hcount & rest & Hrest & Hcut).
  exists (take_chars 40 entry.1), rest.
  split; [reflexivity|]. split; [done|]. split; [done|]. split; [|done].
  apply take_chars_all.
Qed.

(** ** The two top-ten charts *)

Lemma descending_same_values {K} (l1 l2 : list (K * Q)) :
  l1 ≡ₚ l2 →
  StronglySorted (λ a b : K * Q, (b.2 <= a.2)%Q) l1 →
  StronglySorted (λ a b : K * Q, (b.2 <= a.2)%Q) l2 →
  (λ e : K * Q, Qred e.2) <$> l1 = (λ e : K * Q, Qred e.2) <$> l2.
Proof.
  intros Hp H1 H2.
  apply (StronglySorted_unique_strong (λ x y : Q, (y <= x)%Q)).
  - intros x1 x2 (a & -> & _)%list_elem_of_fmap (b & -> & _)%list_elem_of_fmap.
    intros Hle1 Hle2. rewrite (Qred_correct a.2), (Qred_correct b.2) in Hle1, Hle2.
    apply Qred_complete. by apply Qle_antisym.
  - eapply StronglySorted_fmap; [|exact H1].
    intros x y Hxy. cbn beta. by rewrite (Qred_correct x.2), (Qred_correct y.2).
  - eapply StronglySorted_fmap; [|exact H2].
    intros x y Hxy. cbn beta. by rewrite (Qred_correct x.2), (Qred_correct y.2).
  - by apply fmap_Permutation.
Qed.

Lemma same_values_Forall2 {K} (l1 l2 : list (K * Q)) :
  (λ e : K * Q, Qred e.2) <$> l1 = (λ e : K * Q, Qred e.2) <$> l2 →
  Forall2 (λ a b : K * Q, (a.2 == b.2)%Q) l1 l2.
Proof.
  revert l2. induction l1 as [|a l1 IH]; intros [|b l2] H;
    try discriminate H; [constructor|].
  rewrite !fmap_cons in H. injection H as Hab Hl.
  constructor; [|by apply IH].
  by rewrite <- (Qred_correct a.2), <- (Qred_correct b.2), Hab.
Qed.

(** X15: the two top-ten charts show the same revenues.  The bars of the
    PDF chart, read from the top bar down, carry the same sums, position by
    position, as the dashboard chart and the detail table, also when
    categories tie (only the names at tied positions may differ); and when
    there are at most ten categories both charts show all of them. *)
Theorem top_ten_same_revenues df cc ac g top bars :
  category_sums df cc ac = Ok g →
  top_categories df cc ac = Ok top →
  top_categories_chart_data df cc ac = Ok bars →
  length bars = length top
  ∧ length top = Nat.min 10 (length g)
  ∧ Forall2 (λ a b : string * Q, (a.2 == b.2)%Q) (reverse bars) top
  ∧ ((length g ≤ 10)%nat → top ≡ₚ g ∧ bars ≡ₚ g).
Proof.
  unfold top_categories, top_categories_chart_data. intros Hg Htop Hbars.
  rewrite Hg in Htop, Hbars. cbn [mbind result_bind] in Htop, Hbars.
  assert (top = head 10 (sort_values false g)) as -> by congruence.
  assert (bars = tail 10 (sort_values true g)) as -> by congruence.
  clear Htop Hbars.
  pose proof (sort_values_Permutation false g) as HpA.
  pose proof (sort_values_Permutation true g) as HpB.
  pose proof (Permutation_length HpA) as HlA.
  pose proof (Permutation_length HpB) as HlB.
  unfold head, tail.
  split_and!.
  - rewrite length_drop, length_take. lia.
  - rewrite length_take. lia.
  - rewrite <- take_reverse.
    apply same_values_Forall2. rewrite !fmap_take. f_equal.
    apply descending_same_values.
    + by rewrite reverse_Permutation, HpA, HpB.
    + apply (StronglySorted_reverse _ _ (sort_values_ascending g)).
    + apply sort_values_descending.
  - intros Hlen. split.
    + by rewrite take_ge by lia.
    + replace (length (sort_values true g) - 10)%nat with 0%nat by lia.
      by rewrite drop_0.
Qed.

(** ** The date range, day by day *)

(** X16: what a chosen range keeps, in calendar days.  An endpoint is a
    date and is compared as the midnight that starts it.  So the first day
    of the range is kept whole, every day strictly inside the range is kept
    whole, and of the last day only the orders stamped exactly at midnight
    are kept; a row without a date is never kept. *)
Theorem date_range_by_day w df dc d0 d1 fi0 df1 fi :
  date_input w = [d0; d1] →
  date_filter w df (Some dc) fi0 = Ok (df1, fi) →
  (∀ r t, r ∈ rows df → r !! dc = Some (Ts t) →
     (r ∈ rows df1 ↔
      d0 ≤ Calendar.date_of t
      ∧ (Calendar.date_of t < d1 ∨ t = Calendar.to_datetime d1)))
  ∧ (∀ r, r ∈ rows df1 → ∃ t, r !! dc = Some (Ts t)).
Proof.
  intros Hw H. split.
  - intros r t Hr Ht.
    unfold date_filter in H. rewrite Hw in H.
    apply bind_Ok in H as (df' & Hsel & H).
    assert (df1 = df') as -> by congruence.
    apply select_rows_Ok_inv in Hsel as [_ ->].
    rewrite list_elem_of_filter. unfold date_mask. rewrite Ht.
    cbn [as_ts mbind result_bind].
    unfold Calendar.date_of, Calendar.to_datetime.
    pose proof (Z.div_mod t 86400 ltac:(lia)) as Hdiv.
    pose proof (Z.mod_pos_bound t 86400 ltac:(lia)) as Hmod.
    split.
    + intros [Hmask _]. injection Hmask as Hmask.
      apply andb_prop in Hmask as [Hlo Hhi].
      apply Z.leb_le in Hlo, Hhi. lia.
    + intros Hday. split; [|done]. f_equal.
      apply andb_true_intro. split; apply Z.leb_le; lia.
  - intros r Hr.
    apply date_filter_Ok_inv in H as (_ & _ & Hin).
    destruct (Hin dc d0 d1 eq_refl Hw r Hr) as (t & Ht & _). eauto.
Qed.

(** ** The further properties on the sample inputs *)

Lemma full_orders_main :
  ∃ o els bars,
    main sample_csv_field sample_clock whole_range full_orders = Ok o
    ∧ out_pdf o = Ok els
    ∧ fig_monthly (out_charts o) = Some bars
    ∧ hist_raises (fig_dist (out_charts o)) = false.
Proof. eexists _, _, _. split_and!; vm_compute; reflexivity. Defined.

Lemma sample_to_datetime_length (l : list (option cell)) (values : list (option Z)) :
  sample_to_datetime l = Some values → length values = length l.
Proof. intros H. symmetry. exact (length_mapM _ _ _ H). Defined.

Lemma roles_are_stable_witness :
  ∃ o, main sample_csv_field sample_clock whole_range full_orders = Ok o
       ∧ (flt_date_col (out_filters o), flt_category_col (out_filters o),
          amount_col (out_metrics o), quantity_col (out_metrics o))
         = (resolve_date_col full_orders, resolve_category_col full_orders,
            resolve_amount_col full_orders, resolve_quantity_col full_orders).
Proof.
  destruct full_orders_main as (o & _ & _ & Ho & _ & _ & Hhist).
  exists o. split; [exact Ho|].
  exact (proj2 (proj2 (roles_are_stable _ _ _ _ _ Ho))).
Defined.

Lemma pdf_shows_dashboard_data_witness :
  ∃ o els, main sample_csv_field sample_clock whole_range full_orders = Ok o
           ∧ out_pdf o = Ok els
           ∧ tables els !! 3%nat = category_data <$> fig_categories (out_charts o).
Proof.
  destruct full_orders_main as (o & _ & _ & Ho & _ & _ & Hhist).
  destruct (pdf_shows_dashboard_data _ _ _ _ _ Ho) as (bars & _ & Hpdf).
  rewrite Hhist in Hpdf. destruct Hpdf as (els & Hels & _ & Ht).
  exists o, els. split; [exact Ho|]. split; [exact Hels|exact Ht].
Defined.

(** Orders that have lost their amounts: the dashboard is drawn, and the
    PDF ends in its error message. *)
Example pdf_without_amounts :
  ∃ o, main sample_csv_field sample_clock no_widgets no_amounts = Ok o
       ∧ tiles (out_metrics o)
         = [("Total Sales", "$0.00"); ("Avg Order Value", "$nan"); ("Total Orders", "2")]
       ∧ out_pdf o = Raise ValueError.
Proof. eexists. split_and!; vm_compute; reflexivity. Qed.

(** A selection without rows: with the category role bound the bar chart
    of the categories raises. *)
Example empty_selection_with_categories :
  main sample_csv_field sample_clock quiet_days full_orders = Raise ValueError.
Proof. vm_compute. reflexivity. Qed.

(** A file without orders: the date picker raises. *)
Example no_orders_no_picker :
  main sample_csv_field sample_clock no_widgets no_orders = Raise DateInputError.
Proof. vm_compute. reflexivity. Qed.

Lemma frame_after_charts_witness :
  ∃ o, main sample_csv_field sample_clock whole_range full_orders = Ok o
       ∧ out_table o = take 100 (rows (ch_df (out_charts o)))
       ∧ out_csv o = encode_utf8 (to_csv sample_csv_field (ch_df (out_charts o))).
Proof.
  destruct full_orders_main as (o & _ & _ & Ho & _ & _ & Hhist).
  destruct (frame_after_charts _ _ _ _ _ Ho) as (Ht & Hc & _).
  exists o. split; [exact Ho|]. split; [exact Ht|exact Hc].
Defined.

Lemma load_data_prepares_date_role_witness :
  ∃ df', load_data sample_to_datetime (Loaded raw_orders) = Loaded df'
         ∧ columns df' = columns raw_orders
         ∧ resolve_date_col df' = resolve_date_col raw_orders
         ∧ (∀ d, resolve_date_col df' = Some d → column_of ts_or_missing df' d).
Proof.
  assert (∃ df', load_data sample_to_datetime (Loaded raw_orders) = Loaded df')
    as [df' Hload] by (eexists; vm_compute; reflexivity).
  exists df'. split; [exact Hload|].
  destruct (load_data_prepares_date_role _ sample_to_datetime_length _ _ Hload)
    as (df & Hdf & Hcols & _ & Hrole & Hts & _).
  injection Hdf as <-. split; [exact Hcols|]. split; [exact Hrole|exact Hts].
Defined.

Lemma script_pages_witness :
  ∃ o, script sample_to_datetime sample_csv_field sample_clock no_widgets
         (Loaded raw_orders) = Dashboard o.
Proof.
  destruct (script_pages sample_to_datetime sample_csv_field
              sample_to_datetime_length sample_clock no_widgets (Loaded raw_orders))
    as (_ & _ & Hdash).
  destruct (Hdash raw_orders eq_refl) as (df' & Hload & Hiff & _).
  - intros d [= <-]. vm_compute. eexists. reflexivity.
  - intros cc Hcc. discriminate Hcc.
  - intros ac [= <-]. repeat constructor.
  - intros qc Hqc. discriminate Hqc.
  - assert (Loaded two_orders_as_loaded = Loaded df') as Heq
      by (rewrite <- Hload; vm_compute; reflexivity).
    injection Heq as <-.
    apply Hiff. split.
    + intros d [= <-]. eexists _, _.
      split; [apply list_elem_of_here | vm_compute; reflexivity].
    + intros flt _ [cc Hcc]. discriminate Hcc.
Defined.

Lemma category_options_witness :
  ∃ opts values,
    categories three_categories "Category" = Ok opts
    ∧ opts = Some "All" :: values
    ∧ NoDup values.
Proof.
  assert (∃ opts, categories three_categories "Category" = Ok opts) as [opts Hopts]
    by (eexists; vm_compute; reflexivity).
  destruct (category_options _ _ _ Hopts) as (values & Heq & Hnd & _).
  exists opts, values. split; [exact Hopts|]. split; [exact Heq|exact Hnd].
Defined.

Lemma blank_category_stops_dashboard_witness :
  sidebar_filters no_widgets blank_category = Raise TypeError
  ∧ main sample_csv_field sample_clock no_widgets blank_category = Raise TypeError.
Proof.
  destruct (blank_category_stops_dashboard sample_csv_field sample_clock no_widgets
              blank_category "Category" without_category with_category "A")
    as [Hflt Hmain].
  - reflexivity.
  - apply list_elem_of_further, list_elem_of_here.
  - vm_compute. reflexivity.
  - apply list_elem_of_here.
  - vm_compute. reflexivity.
  - intros dc d0 d1 Hdc. discriminate Hdc.
  - split; [exact Hflt | exact Hmain].
Defined.

Lemma selected_category_rows_witness :
  ∃ flt df1 fi opts,
    sidebar_filters choose_A three_categories = Ok flt
    ∧ date_filter choose_A three_categories (resolve_date_col three_categories) ∅
      = Ok (df1, fi)
    ∧ categories df1 "Category" = Ok opts
    ∧ (Some (selectbox choose_A) ∈ opts ↔ rows (flt_df flt) ≠ []).
Proof.
  assert (∃ flt, sidebar_filters choose_A three_categories = Ok flt) as [flt Hflt]
    by (eexists; vm_compute; reflexivity).
  destruct (selected_category_rows choose_A three_categories flt "Category" Hflt)
    as (df1 & fi & opts & Hdate & Hopts & _ & Hiff).
  - reflexivity.
  - discriminate.
  - exists flt, df1, fi, opts. split; [exact Hflt|]. split; [exact Hdate|].
    split; [exact Hopts|exact Hiff].
Defined.

Lemma report_cover_and_kpis_witness :
  ∃ o els, main sample_csv_field sample_clock whole_range full_orders = Ok o
           ∧ out_pdf o = Ok els
           ∧ tile (tiles (out_metrics o)) "Total Orders"
             = Some (Fmt.int_comma
                       (Z.of_nat (length (rows (flt_df (out_filters o)))))).
Proof.
  destruct full_orders_main as (o & els & _ & Ho & Hels & _ & _).
  exists o, els. split; [exact Ho|]. split; [exact Hels|].
  exact (proj2 (proj2 (report_cover_and_kpis _ _ _ _ _ _ Ho Hels))).
Defined.



(** An order without a date is in no bar of the monthly chart, while the
    Total Sales tile counts it. *)
Example undated_order_in_no_bar :
  ∃ o, main sample_csv_field sample_clock no_widgets undated_order = Ok o
       ∧ fig_monthly (out_charts o) = Some [("2024-01", 30%Q)]
       ∧ tile (tiles (out_metrics o)) "Total Sales" = Some "$35.00"
       ∧ (λ r : gmap string cell, r !! "Month") <$> rows (ch_df (out_charts o))
         = [Some (Str "2024-01"); Some (Str "2024-01"); None].
Proof. eexists. split_and!; vm_compute; reflexivity. Qed.

Lemma top_ten_same_revenues_witness :
  ∃ top bars,
    top_categories eleven_tied "Category" "Amount" = Ok top
    ∧ top_categories_chart_data eleven_tied "Category" "Amount" = Ok bars
    ∧ Forall2 (λ a b : string * Q, (a.2 == b.2)%Q) (reverse bars) top.
Proof.
  assert (∃ g top bars,
            category_sums eleven_tied "Category" "Amount" = Ok g
            ∧ top_categories eleven_tied "Category" "Amount" = Ok top
            ∧ top_categories_chart_data eleven_tied "Category" "Amount" = Ok bars)
    as (g & top & bars & Hg & Htop & Hbars)
    by (eexists _, _, _; split_and!; vm_compute; reflexivity).
  exists top, bars. split; [exact Htop|]. split; [exact Hbars|].
  exact (proj1 (proj2 (proj2 (top_ten_same_revenues _ _ _ _ _ _ Hg Htop Hbars)))).
Defined.

Lemma date_range_by_day_witness :
  ∃ df1 fi,
    date_filter whole_range noon_order (Some "Date") ∅ = Ok (df1, fi)
    ∧ ∀ r, r ∈ rows df1 → ∃ t, r !! "Date" = Some (Ts t).
Proof.
  assert (∃ df1 fi,
            date_filter whole_range noon_order (Some "Date") ∅ = Ok (df1, fi))
    as (df1 & fi & H) by (eexists _, _; vm_compute; reflexivity).
  exists df1, fi. split; [exact H|].
  exact (proj2 (date_range_by_day whole_range noon_order "Date" 19723 19732
                  ∅ df1 fi eq_refl H)).
Defined.

